(** * OpenSprinkler Gen2, interval_program.ino: scheduling and run-time core

    A shallow embedding of the station scheduler of
    [examples/interval_program/interval_program.ino]: the program matcher and
    [schedule_all_stations], the per-second station run-time pass of [loop],
    [turn_off_station], [process_dynamic_events] and [check_network].

    Conventions.
    - [unsigned long] is 32 bits wide on the AVR target; values are [Z] and
      every arithmetic result of that type is reduced with [ulong].  [byte] is
      reduced with [byte].
    - The global objects [os] and [pd] become the records [OpenSprinkler] and
      [ProgramData]; a [Controller] holds both together with the devices the
      sketch drives (SD log, relay pin, valve outputs) and the function-local
      [static] variables.  Every function of the sketch is a function on
      [Controller].
    - Arrays are lists.  A store outside an array is undefined behaviour in
      the source; the model leaves the array as it is, and for the stop-time
      table, the one table the sketch indexes with a computed value
      ([mas - 1]) without a guard, it records the index in [oob_writes].
      A load outside an array yields 0. *)

From Stdlib Require Import ZArith Lia Bool List.
From stdpp Require Import base list.
Import ListNotations.
Local Open Scope Z_scope.

(** ** Machine integers and bits *)

Definition ULONG_MAX : Z := 2 ^ 32 - 1.
Definition ulong (x : Z) : Z := x mod 2 ^ 32.
Definition byte (x : Z) : Z := x mod 2 ^ 8.

(** C truth value of an integer expression. *)
Definition truthy (x : Z) : bool := negb (x =? 0).

(** [bits & (1<<s)] used as a condition. *)
Definition bit_is_set (bits s : Z) : bool := truthy (Z.land bits (Z.shiftl 1 s)).

(** ** Arrays *)

Definition in_table (t : list Z) (i : Z) : bool :=
  (0 <=? i) && (i <? Z.of_nat (length t)).

Definition load (t : list Z) (i : Z) : Z :=
  if in_table t i then default 0 (t !! Z.to_nat i) else 0.

Definition store (t : list Z) (i v : Z) : list Z :=
  if in_table t i then <[Z.to_nat i := v]> t else t.

(** ** Loops

    [for (i = 0; i < n; i++) body] *)
Definition for_loop {A : Type} (n : Z) (body : Z -> A -> A) (a : A) : A :=
  fold_left (fun acc i => body (Z.of_nat i) acc) (seq 0 (Z.to_nat n)) a.

(** ** Data model *)

(** [os.options[OPTION_x].value] for the options the core reads.  The option
    table is declared in the library; values are kept as integers and enter
    [unsigned long] arithmetic through [ulong]. *)
Record OptionTable := {
  OPTION_SEQUENTIAL : Z;
  OPTION_MASTER_STATION : Z;
  OPTION_MASTER_ON_ADJ : Z;
  OPTION_MASTER_OFF_ADJ : Z;
  OPTION_STATION_DELAY_TIME : Z;
  OPTION_WATER_PERCENTAGE : Z;
  OPTION_USE_RAINSENSOR : Z;
  OPTION_RELAY_PULSE : Z;
  OPTION_NETFAIL_RECONNECT : Z
}.

(** [os.status], declared in the library: one-bit flags are booleans,
    [seq], [mas] and [network_fails] are integers. *)
Record ConStatus := {
  status_enabled : bool;
  status_rain_delayed : bool;
  status_rain_sensed : bool;
  status_program_busy : bool;
  status_has_sd : bool;
  status_seq : Z;
  status_mas : Z;
  status_network_fails : Z
}.

(** The [os] object: station counts, one byte of flags per board, options and
    status. *)
Record OpenSprinkler := {
  nboards : Z;
  nstations : Z;
  station_bits : list Z;
  masop_bits : list Z;
  ignrain_bits : list Z;
  stndis_bits : list Z;
  actrelay_bits : list Z;
  options : OptionTable;
  status : ConStatus
}.

(** Modelled from the spec: [ProgramStruct] is declared in program.h, which is
    not part of this file.  The core reads the per-station encoded durations
    and the day/time match predicate, resolved to a boolean for a given
    time. *)
Record ProgramStruct := {
  durations : list Z;
  check_match : Z -> bool
}.

(** [pd.lastrun].  Modelled from the spec: the record type is declared in
    program.h, which is not part of this file; a completion record carries
    "program id, station id, elapsed duration, end time", and the fields are
    taken wide enough to hold what [turn_off_station] assigns. *)
Record LastRun := {
  lastrun_station : Z;
  lastrun_program : Z;
  lastrun_duration : Z;
  lastrun_endtime : Z
}.

(** The [pd] object: stored programs and the run-time schedule tables. *)
Record ProgramData := {
  programs : list ProgramStruct;
  scheduled_start_time : list Z;
  scheduled_stop_time : list Z;
  scheduled_program_index : list Z;
  last_stop_time : Z;
  lastrun : LastRun
}.

Definition nprograms (p : ProgramData) : Z := Z.of_nat (length (programs p)).

(** One line appended by [write_log]. *)
Inductive LogLine :=
| LOGDATA_STATION (program station duration curr_time : Z)
| LOGDATA_RAINSENSE (duration curr_time : Z)
| LOGDATA_RAINDELAY (duration curr_time : Z).

Record Controller := {
  os : OpenSprinkler;
  pd : ProgramData;
  (* devices *)
  sd_log : list LogLine;        (* lines written to the SD card, newest first *)
  pin_relay : list bool;        (* levels written to PIN_RELAY, newest first *)
  valves : list Z;              (* station bits last shifted out to the valves *)
  oob_writes : list Z;          (* indices of stores outside scheduled_stop_time *)
  (* function-local statics *)
  last_minute : Z;
  last_check_time : Z;
  last_dhcp_time : Z
}.

(** *** Field updates *)

Definition with_status (f : ConStatus -> ConStatus) (o : OpenSprinkler) : OpenSprinkler :=
  {| nboards := nboards o; nstations := nstations o;
     station_bits := station_bits o; masop_bits := masop_bits o;
     ignrain_bits := ignrain_bits o; stndis_bits := stndis_bits o;
     actrelay_bits := actrelay_bits o; options := options o;
     status := f (status o) |}.

Definition with_station_bits (b : list Z) (o : OpenSprinkler) : OpenSprinkler :=
  {| nboards := nboards o; nstations := nstations o;
     station_bits := b; masop_bits := masop_bits o;
     ignrain_bits := ignrain_bits o; stndis_bits := stndis_bits o;
     actrelay_bits := actrelay_bits o; options := options o;
     status := status o |}.

Definition with_program_busy (b : bool) (s : ConStatus) : ConStatus :=
  {| status_enabled := status_enabled s; status_rain_delayed := status_rain_delayed s;
     status_rain_sensed := status_rain_sensed s; status_program_busy := b;
     status_has_sd := status_has_sd s; status_seq := status_seq s;
     status_mas := status_mas s; status_network_fails := status_network_fails s |}.

Definition with_seq_mas (sq ms : Z) (s : ConStatus) : ConStatus :=
  {| status_enabled := status_enabled s; status_rain_delayed := status_rain_delayed s;
     status_rain_sensed := status_rain_sensed s; status_program_busy := status_program_busy s;
     status_has_sd := status_has_sd s; status_seq := sq;
     status_mas := ms; status_network_fails := status_network_fails s |}.

Definition with_network_fails (n : Z) (s : ConStatus) : ConStatus :=
  {| status_enabled := status_enabled s; status_rain_delayed := status_rain_delayed s;
     status_rain_sensed := status_rain_sensed s; status_program_busy := status_program_busy s;
     status_has_sd := status_has_sd s; status_seq := status_seq s;
     status_mas := status_mas s; status_network_fails := n |}.

Definition with_start (t : list Z) (p : ProgramData) : ProgramData :=
  {| programs := programs p; scheduled_start_time := t;
     scheduled_stop_time := scheduled_stop_time p;
     scheduled_program_index := scheduled_program_index p;
     last_stop_time := last_stop_time p; lastrun := lastrun p |}.

Definition with_stop (t : list Z) (p : ProgramData) : ProgramData :=
  {| programs := programs p; scheduled_start_time := scheduled_start_time p;
     scheduled_stop_time := t;
     scheduled_program_index := scheduled_program_index p;
     last_stop_time := last_stop_time p; lastrun := lastrun p |}.

Definition with_index (t : list Z) (p : ProgramData) : ProgramData :=
  {| programs := programs p; scheduled_start_time := scheduled_start_time p;
     scheduled_stop_time := scheduled_stop_time p;
     scheduled_program_index := t;
     last_stop_time := last_stop_time p; lastrun := lastrun p |}.

Definition with_last_stop_time (v : Z) (p : ProgramData) : ProgramData :=
  {| programs := programs p; scheduled_start_time := scheduled_start_time p;
     scheduled_stop_time := scheduled_stop_time p;
     scheduled_program_index := scheduled_program_index p;
     last_stop_time := v; lastrun := lastrun p |}.

Definition with_lastrun (v : LastRun) (p : ProgramData) : ProgramData :=
  {| programs := programs p; scheduled_start_time := scheduled_start_time p;
     scheduled_stop_time := scheduled_stop_time p;
     scheduled_program_index := scheduled_program_index p;
     last_stop_time := last_stop_time p; lastrun := v |}.

Definition upd_os (f : OpenSprinkler -> OpenSprinkler) (c : Controller) : Controller :=
  {| os := f (os c); pd := pd c; sd_log := sd_log c; pin_relay := pin_relay c;
     valves := valves c; oob_writes := oob_writes c; last_minute := last_minute c;
     last_check_time := last_check_time c; last_dhcp_time := last_dhcp_time c |}.

Definition upd_pd (f : ProgramData -> ProgramData) (c : Controller) : Controller :=
  {| os := os c; pd := f (pd c); sd_log := sd_log c; pin_relay := pin_relay c;
     valves := valves c; oob_writes := oob_writes c; last_minute := last_minute c;
     last_check_time := last_check_time c; last_dhcp_time := last_dhcp_time c |}.

Definition upd_status (f : ConStatus -> ConStatus) : Controller -> Controller :=
  upd_os (with_status f).

Definition append_log (l : LogLine) (c : Controller) : Controller :=
  {| os := os c; pd := pd c; sd_log := l :: sd_log c; pin_relay := pin_relay c;
     valves := valves c; oob_writes := oob_writes c; last_minute := last_minute c;
     last_check_time := last_check_time c; last_dhcp_time := last_dhcp_time c |}.

(** [digitalWrite(PIN_RELAY, level)] *)
Definition digitalWrite_relay (level : bool) (c : Controller) : Controller :=
  {| os := os c; pd := pd c; sd_log := sd_log c; pin_relay := level :: pin_relay c;
     valves := valves c; oob_writes := oob_writes c; last_minute := last_minute c;
     last_check_time := last_check_time c; last_dhcp_time := last_dhcp_time c |}.

Definition with_valves (v : list Z) (c : Controller) : Controller :=
  {| os := os c; pd := pd c; sd_log := sd_log c; pin_relay := pin_relay c;
     valves := v; oob_writes := oob_writes c; last_minute := last_minute c;
     last_check_time := last_check_time c; last_dhcp_time := last_dhcp_time c |}.

Definition note_oob (i : Z) (c : Controller) : Controller :=
  {| os := os c; pd := pd c; sd_log := sd_log c; pin_relay := pin_relay c;
     valves := valves c; oob_writes := i :: oob_writes c; last_minute := last_minute c;
     last_check_time := last_check_time c; last_dhcp_time := last_dhcp_time c |}.

Definition with_last_minute (v : Z) (c : Controller) : Controller :=
  {| os := os c; pd := pd c; sd_log := sd_log c; pin_relay := pin_relay c;
     valves := valves c; oob_writes := oob_writes c; last_minute := v;
     last_check_time := last_check_time c; last_dhcp_time := last_dhcp_time c |}.

Definition with_last_check_time (v : Z) (c : Controller) : Controller :=
  {| os := os c; pd := pd c; sd_log := sd_log c; pin_relay := pin_relay c;
     valves := valves c; oob_writes := oob_writes c; last_minute := last_minute c;
     last_check_time := v; last_dhcp_time := last_dhcp_time c |}.

Definition with_last_dhcp_time (v : Z) (c : Controller) : Controller :=
  {| os := os c; pd := pd c; sd_log := sd_log c; pin_relay := pin_relay c;
     valves := valves c; oob_writes := oob_writes c; last_minute := last_minute c;
     last_check_time := last_check_time c; last_dhcp_time := v |}.

(** *** Accessors in the source's vocabulary *)

Definition start_of (c : Controller) (sid : Z) : Z := load (scheduled_start_time (pd c)) sid.
Definition stop_of (c : Controller) (sid : Z) : Z := load (scheduled_stop_time (pd c)) sid.
Definition index_of (c : Controller) (sid : Z) : Z := load (scheduled_program_index (pd c)) sid.

(** [pd.scheduled_start_time[i] = v] and friends.  The tables hold
    [unsigned long] (start, stop) and [byte] (program index) values. *)
Definition set_start (i v : Z) (c : Controller) : Controller :=
  upd_pd (with_start (store (scheduled_start_time (pd c)) i v)) c.

Definition set_stop (i v : Z) (c : Controller) : Controller :=
  let c' := upd_pd (with_stop (store (scheduled_stop_time (pd c)) i v)) c in
  if in_table (scheduled_stop_time (pd c)) i then c' else note_oob i c'.

Definition set_index (i v : Z) (c : Controller) : Controller :=
  upd_pd (with_index (store (scheduled_program_index (pd c)) i v)) c.

(** Station [sid] is on in the controller's station-bit mirror:
    [os.station_bits[sid>>3] & (1 << (sid&7))]. *)
Definition station_on (c : Controller) (sid : Z) : bool :=
  bit_is_set (load (station_bits (os c)) (Z.shiftr sid 3)) (Z.land sid 7).

(** ** Collaborators declared in the OpenSprinklerGen2 library *)

(** Modelled from the spec: [OpenSprinkler::set_station_bit] is part of the
    library, not of this file.  It sets or clears the station's bit in the
    [station_bits] mirror ("assert the physical output bit" /
    "deasserts the physical bit"). *)
Definition set_station_bit (sid value : Z) (c : Controller) : Controller :=
  let bid := Z.shiftr sid 3 in
  let s := Z.land sid 7 in
  let old := load (station_bits (os c)) bid in
  let new := if truthy value
             then byte (Z.lor old (Z.shiftl 1 s))
             else byte (Z.land old (Z.lnot (Z.shiftl 1 s))) in
  upd_os (with_station_bits (store (station_bits (os c)) bid new)) c.

(** Modelled from the spec: [OpenSprinkler::clear_all_station_bits] is part of
    the library ("all physical outputs are forced off"). *)
Definition clear_all_station_bits (c : Controller) : Controller :=
  upd_os (with_station_bits (map (fun _ => 0) (station_bits (os c)))) c.

(** Modelled from the spec: [OpenSprinkler::apply_all_station_bits] is part of
    the library ("activate / deactivate valves"): the mirror is shifted out to
    the valve drivers. *)
Definition apply_all_station_bits (c : Controller) : Controller :=
  with_valves (station_bits (os c)) c.

(** ** write_log (lines 679-725), the [LOGDATA_STATION] record

    Nothing is written without an SD card.  The file-system calls are taken
    to succeed. *)
Definition write_log_station (curr_time : Z) (c : Controller) : Controller :=
  if negb (status_has_sd (status (os c))) then c
  else append_log (LOGDATA_STATION (lastrun_program (lastrun (pd c)))
                                   (lastrun_station (lastrun (pd c)))
                                   (lastrun_duration (lastrun (pd c)))
                                   curr_time) c.

(** ** turn_off_station (lines 507-545) *)

Definition turn_off_station (sid mas curr_time : Z) (c : Controller) : Controller :=
  let bid := Z.shiftr sid 3 in
  let s := Z.land sid 7 in
  let c := set_station_bit sid 0 c in
  (* record lastrun log (currently only for non-master stations) *)
  let c :=
    if negb (mas =? sid + 1) && (start_of c sid <? curr_time) then
      write_log_station curr_time
        (upd_pd (with_lastrun
           {| lastrun_station := sid;
              lastrun_program := index_of c sid;
              lastrun_duration := ulong (curr_time - start_of c sid);
              lastrun_endtime := curr_time |}) c)
    else c in
  (* upon turning off station, update master station stop time *)
  let c :=
    if negb (mas =? sid + 1) && bit_is_set (load (masop_bits (os c)) bid) s
       && truthy (status_seq (status (os c))) then
      set_stop (mas - 1) (ulong (curr_time + OPTION_MASTER_OFF_ADJ (options (os c)) - 60)) c
    else c in
  (* upon turning off station, process relay *)
  let c :=
    if bit_is_set (load (actrelay_bits (os c)) bid) s then
      let c := if 0 <? OPTION_RELAY_PULSE (options (os c))
               then digitalWrite_relay true c else c in
      digitalWrite_relay false c
    else c in
  (* reset program run-time data variables *)
  let c := set_start sid 0 c in
  let c := set_stop sid 0 c in
  set_index sid 0 c.

(** ** process_dynamic_events (lines 547-581) *)

(** The three assignments that reset a queued station. *)
Definition reset_schedule_entry (sid : Z) (c : Controller) : Controller :=
  set_index sid 0 (set_stop sid 0 (set_start sid 0 c)).

(** [rain] as computed at the top of the function. *)
Definition rain_active (c : Controller) : bool :=
  status_rain_delayed (status (os c))
  || (truthy (OPTION_USE_RAINSENSOR (options (os c))) && status_rain_sensed (status (os c))).

(** Body of the inner loop for bit [s] of board [bid]; [rbits] and [sbits] are
    the copies of the board's flag bytes taken before the inner loop. *)
Definition dynamic_event_station (curr_time : Z) (en rain : bool)
    (bid rbits sbits s : Z) (c : Controller) : Controller :=
  let sid := byte (bid * 8 + s) in
  if (index_of c sid <? 99) && (negb en || (rain && negb (bit_is_set rbits s))) then
    if bit_is_set sbits s then
      turn_off_station sid (status_mas (status (os c))) curr_time c
    else if 0 <? index_of c sid then
      reset_schedule_entry sid c
    else c
  else c.

Definition dynamic_event_board (curr_time : Z) (en rain : bool)
    (bid : Z) (c : Controller) : Controller :=
  let rbits := load (ignrain_bits (os c)) bid in
  let sbits := load (station_bits (os c)) bid in
  for_loop 8 (dynamic_event_station curr_time en rain bid rbits sbits) c.

Definition process_dynamic_events (curr_time : Z) (c : Controller) : Controller :=
  let rain := rain_active c in
  let en := status_enabled (status (os c)) in
  for_loop (nboards (os c)) (dynamic_event_board curr_time en rain) c.

(** ** Program matching and scheduling *)

(** Conversion of an unsigned 16-bit value to [int16_t]. *)
Definition int16 (x : Z) : Z := (x + 2 ^ 15) mod 2 ^ 16 - 2 ^ 15.

Section Scheduling.

(** [water_time_decode] is declared in the OpenSprinklerGen2 library; the
    sketch only calls it.  It is a parameter of the scheduling functions. *)
Variable water_time_decode : Z -> Z.

(** [station_delay] of [schedule_all_stations]. *)
Definition station_delay_of (c : Controller) : Z :=
  int16 (water_time_decode (OPTION_STATION_DELAY_TIME (options (os c)))).

(** Water time of station [sid] in [prog], scaled by the watering percentage
    (lines 271-272). *)
Definition scaled_water_time (c : Controller) (prog : ProgramStruct) (sid : Z) : Z :=
  ulong (water_time_decode (load (durations prog) sid)
         * OPTION_WATER_PERCENTAGE (options (os c))) / 100.

(** Body of the station loop of the matcher (lines 258-277). *)
Definition match_station (pid : Z) (prog : ProgramStruct) (sid : Z)
    (cm : Controller * bool) : Controller * bool :=
  let c := fst cm in
  let bid := Z.shiftr sid 3 in
  let s := Z.land sid 7 in
  if (status_mas (status (os c)) =? sid + 1)
     || bit_is_set (load (station_bits (os c)) bid) s
     || bit_is_set (load (stndis_bits (os c)) bid) s
  then cm
  else if truthy (load (durations prog) sid) && negb (truthy (stop_of c sid)) then
    let c := set_stop sid (scaled_water_time c prog sid) c in
    if truthy (stop_of c sid)
    then (set_index sid (byte (pid + 1)) c, true)
    else (c, snd cm)
  else cm.

(** Body of the program loop (lines 253-279); [pd.read(pid, &prog)] fetches
    the stored program. *)
Definition match_program (curr_time pid : Z) (cm : Controller * bool) : Controller * bool :=
  match programs (pd (fst cm)) !! Z.to_nat pid with
  | Some prog =>
      if check_match prog curr_time
      then for_loop (nstations (os (fst cm))) (match_station pid prog) cm
      else cm
  | None => cm
  end.

(** The program loop (lines 252-280), returning [match_found]. *)
Definition match_programs (curr_time : Z) (c : Controller) : Controller * bool :=
  for_loop (nprograms (pd c)) (match_program curr_time) (c, false).

(** The station is skipped by the matcher (line 264): master, running or
    disabled. *)
Definition matcher_skips (c : Controller) (sid : Z) : bool :=
  (status_mas (status (os c)) =? sid + 1)
  || bit_is_set (load (station_bits (os c)) (Z.shiftr sid 3)) (Z.land sid 7)
  || bit_is_set (load (stndis_bits (os c)) (Z.shiftr sid 3)) (Z.land sid 7).

(** Program [prog] records demand for station [sid] in state [c]: the station
    is not skipped, has a water time in [prog], has no stop time yet and its
    scaled water time is not zero. *)
Definition claims (c : Controller) (prog : ProgramStruct) (sid : Z) : bool :=
  negb (matcher_skips c sid)
  && truthy (load (durations prog) sid)
  && negb (truthy (stop_of c sid))
  && truthy (scaled_water_time c prog sid).

(** ** schedule_all_stations (lines 583-628) *)

(** [accumulate_time] before the station loop. *)
Definition initial_accumulate_time (curr_time seq : Z) (c : Controller) : Z :=
  if truthy seq && (0 <? last_stop_time (pd c))
  then ulong (last_stop_time (pd c) + station_delay_of c)
  else ulong (curr_time + 1).

(** The station is skipped by the station loop (lines 601-608). *)
Definition schedule_skips (c : Controller) (sid : Z) : bool :=
  (status_mas (status (os c)) =? sid + 1)
  || negb (truthy (stop_of c sid))
  || truthy (start_of c sid)
  || station_on c sid.

(** Body of the station loop; the second component is [accumulate_time]. *)
Definition schedule_station (seq station_delay sid : Z)
    (ca : Controller * Z) : Controller * Z :=
  let c := fst ca in
  let accumulate_time := snd ca in
  if schedule_skips c sid then ca
  else
    let busy := upd_status (with_program_busy true) in
    if truthy seq then
      let c := set_start sid accumulate_time c in
      let accumulate_time := ulong (accumulate_time + stop_of c sid) in
      let c := set_stop sid accumulate_time c in
      let accumulate_time := ulong (accumulate_time + station_delay) in
      (busy c, accumulate_time)
    else
      let c := set_start sid accumulate_time c in
      let c := set_stop sid (ulong (accumulate_time + stop_of c sid)) c in
      (busy c, accumulate_time).

Definition schedule_all_stations (curr_time seq : Z) (c : Controller) : Controller :=
  fst (for_loop (nstations (os c))
         (schedule_station seq (station_delay_of c))
         (c, initial_accumulate_time curr_time seq c)).

(** "Schedule program data" (lines 244-286). *)
Definition schedule_program_data (curr_time : Z) (c : Controller) : Controller :=
  let curr_minute := curr_time / 60 in
  if negb (curr_minute =? last_minute c) then
    let cm := match_programs curr_time (with_last_minute curr_minute c) in
    if snd cm
    then schedule_all_stations curr_time (status_seq (status (os (fst cm)))) (fst cm)
    else fst cm
  else c.

End Scheduling.

(** ** Station run-time keeping (lines 291-370) *)

(** The master is scheduled from a station that opens (lines 314-325). *)
Definition schedule_master (curr_time sid : Z) (c : Controller) : Controller :=
  let masid := byte (status_mas (status (os c)) - 1) in
  let c := set_start masid
             (ulong (start_of c sid + OPTION_MASTER_ON_ADJ (options (os c)))) c in
  let c := set_stop masid
             (ulong (stop_of c sid + OPTION_MASTER_OFF_ADJ (options (os c)) - 60)) c in
  let c := set_index masid (index_of c sid) c in
  (* immediately check if we should turn on master now *)
  if (start_of c masid <=? curr_time) && (curr_time <? stop_of c masid)
  then set_station_bit masid 1 c
  else c.

(** Relay handling when a station opens (lines 328-335). *)
Definition relay_on (bid s : Z) (c : Controller) : Controller :=
  if bit_is_set (load (actrelay_bits (os c)) bid) s then
    let c := digitalWrite_relay true c in
    if 0 <? OPTION_RELAY_PULSE (options (os c)) then digitalWrite_relay false c else c
  else c.

(** Body of the inner loop for bit [s] of board [bid]; [bitvalue] is the copy
    of the board's station bits taken before the inner loop. *)
Definition run_station (curr_time bid bitvalue s : Z) (c : Controller) : Controller :=
  let sid := byte (bid * 8 + s) in
  let mas := status_mas (status (os c)) in
  (* check if this station is scheduled, either running or waiting to run *)
  let c :=
    if 0 <? index_of c sid then
      if stop_of c sid <=? curr_time then turn_off_station sid mas curr_time c else c
    else c in
  (* if current station is not running, check if we should turn it on *)
  if negb (truthy (Z.land (Z.shiftr bitvalue s) 1)) then
    if (start_of c sid <=? curr_time) && (curr_time <? stop_of c sid) then
      let c := set_station_bit sid 1 c in
      let c :=
        if (0 <? mas) && negb (mas =? sid + 1)
           && bit_is_set (load (masop_bits (os c)) bid) s
           && truthy (status_seq (status (os c)))
        then schedule_master curr_time sid c
        else c in
      relay_on bid s c
    else c
  else c.

Definition run_board (curr_time bid : Z) (c : Controller) : Controller :=
  let bitvalue := load (station_bits (os c)) bid in
  for_loop 8 (run_station curr_time bid bitvalue) c.

Definition run_stations (curr_time : Z) (c : Controller) : Controller :=
  for_loop (nboards (os c)) (run_board curr_time) c.

(** A stop time that counts as pending: non-zero and not "infinity". *)
Definition pending_stop (sst : Z) : bool := (0 <? sst) && (sst <? ULONG_MAX).

(** Body of the loop of lines 351-358; the second component is
    [program_still_busy]. *)
Definition last_stop_station (sid : Z) (cb : Controller * bool) : Controller * bool :=
  let c := fst cb in
  let sst := stop_of c sid in
  if pending_stop sst then
    (upd_pd (with_last_stop_time
               (if last_stop_time (pd c) <? sst then sst else last_stop_time (pd c))) c,
     true)
  else cb.

(** Lines 347-369: recompute [pd.last_stop_time] and the busy bit. *)
Definition update_program_busy (c : Controller) : Controller :=
  let cb := for_loop (nstations (os c)) last_stop_station
              (upd_pd (with_last_stop_time 0) c, false) in
  let c := fst cb in
  if snd cb then c
  else
    let c := clear_all_station_bits c in
    let c := upd_status (with_program_busy false) c in
    upd_status (with_seq_mas (OPTION_SEQUENTIAL (options (os c)))
                             (OPTION_MASTER_STATION (options (os c)))) c.

(** "Run program data" (lines 288-370). *)
Definition run_program_data (curr_time : Z) (c : Controller) : Controller :=
  if status_program_busy (status (os c)) then
    let c := run_stations curr_time c in
    let c := process_dynamic_events curr_time c in
    let c := apply_all_station_bits c in
    update_program_busy c
  else c.

(** ** Master station in parallel mode (lines 372-387) *)

(** Body of the loop of lines 377-385; once [masbit] is set the loop has been
    left by [break]. *)
Definition master_parallel_station (c : Controller) (sid : Z) (masbit : Z) : Z :=
  if truthy masbit then masbit
  else if negb (status_mas (status (os c)) =? sid + 1)
          && station_on c sid
          && bit_is_set (load (masop_bits (os c)) (Z.shiftr sid 3)) (Z.land sid 7)
       then 1 else 0.

Definition master_parallel (c : Controller) : Controller :=
  if (0 <? status_mas (status (os c))) && (status_seq (status (os c)) =? 0) then
    let masbit := for_loop (nstations (os c)) (master_parallel_station c) 0 in
    set_station_bit (byte (status_mas (status (os c)) - 1)) masbit c
  else c.

(** ** The once-per-second part of loop() that schedules and runs stations
    (lines 244-393) *)

Definition loop_read_options (c : Controller) : Controller :=
  upd_status (with_seq_mas (OPTION_SEQUENTIAL (options (os c)))
                           (OPTION_MASTER_STATION (options (os c)))) c.

Definition loop_second (water_time_decode : Z -> Z) (curr_time : Z)
    (c : Controller) : Controller :=
  let c := schedule_program_data water_time_decode curr_time c in
  let c := run_program_data curr_time c in
  let c := master_parallel c in
  let c := process_dynamic_events curr_time c in
  apply_all_station_bits c.

(** ** check_network (lines 457-505) *)

Definition CHECK_NETWORK_INTERVAL : Z := 30.
Definition DHCP_RENEW_INTERVAL : Z := 43200.

(** [interval] of line 468-469: [1 << fails] is an [int] (16 bits on the AVR)
    converted to [unsigned long]. *)
Definition check_interval (fails : Z) : Z :=
  ulong (ulong (int16 (Z.shiftl 1 fails)) * CHECK_NETWORK_INTERVAL).

(** [network_fails] after the ping (lines 490-495). *)
Definition fails_after_ping (failed : bool) (fails : Z) : Z :=
  if failed then (if 6 <? fails + 1 then 6 else fails + 1) else 0.

(** [ping_reply]: the gateway answered the ICMP request within PING_TIMEOUT.
    [network_started]: result of [os.start_network], should it be called. *)
Definition check_network (ping_reply network_started : bool) (curr_time : Z)
    (c : Controller) : Controller :=
  let c := if last_check_time c =? 0
           then with_last_dhcp_time curr_time (with_last_check_time curr_time c)
           else c in
  if status_program_busy (status (os c)) then c
  else
    let interval := check_interval (status_network_fails (status (os c))) in
    if interval <? ulong (curr_time - last_check_time c) then
      let c := with_last_check_time curr_time c in
      let failed := negb ping_reply in
      let c := upd_status (with_network_fails
                 (fails_after_ping failed (status_network_fails (status (os c))))) c in
      if ((2 <? status_network_fails (status (os c)))
          || (DHCP_RENEW_INTERVAL <? ulong (curr_time - last_dhcp_time c)))
         && truthy (OPTION_NETFAIL_RECONNECT (options (os c)))
      then
        let c := with_last_dhcp_time curr_time c in
        if network_started then upd_status (with_network_fails 0) c else c
      else c
    else c.

(** ** Derived conditions of turn_off_station *)

(** Condition of line 515: a log record is produced. *)
Definition logs_run (sid mas curr_time : Z) (c : Controller) : bool :=
  negb (mas =? sid + 1) && (start_of c sid <? curr_time).

(** Condition of line 525: the master's stop time is rewritten. *)
Definition retracts_master (sid mas : Z) (c : Controller) : bool :=
  negb (mas =? sid + 1)
  && bit_is_set (load (masop_bits (os c)) (Z.shiftr sid 3)) (Z.land sid 7)
  && truthy (status_seq (status (os c))).

(** A station with no schedule entry that is off. *)
Definition idle (c : Controller) (sid : Z) : Prop :=
  start_of c sid = 0 /\ stop_of c sid = 0 /\ index_of c sid = 0
  /\ station_on c sid = false.

(** ** Override condition of process_dynamic_events *)

(** The [os] object without its station bits: everything the station
    functions read but never assign. *)
Definition os_config (o : OpenSprinkler) : OpenSprinkler := with_station_bits [] o.

(** Line 567 for station [sid]: the controller is disabled, or it rains and
    the station's ignore-rain bit is clear. *)
Definition override_applies (c : Controller) (sid : Z) : bool :=
  negb (status_enabled (status (os c)))
  || (rain_active c
      && negb (bit_is_set (load (ignrain_bits (os c)) (Z.shiftr sid 3)) (Z.land sid 7))).

(** A log line reports a run of a station that was on in [c]. *)
Definition logs_running_station (c : Controller) (l : LogLine) : Prop :=
  match l with
  | LOGDATA_STATION _ sid _ _ => station_on c sid = true
  | _ => False
  end.

(** Station [k] is one that process_dynamic_events acts on: a normal program
    index (below 99) and the override condition. *)
Definition dyn_target (c : Controller) (k : Z) : bool :=
  (index_of c k <? 99) && override_applies c k.

(** State of process_dynamic_events started in [c0] when the stations below
    [n] have been handled. *)
Record dyn_inv (t : Z) (c0 : Controller) (n : Z) (c : Controller) : Prop := {
  dyn_config : os_config (os c) = os_config (os c0);
  dyn_todo : forall k, n <= k ->
    station_on c k = station_on c0 k /\ index_of c k = index_of c0 k
    /\ start_of c k = start_of c0 k;
  dyn_done_on : forall k, 0 <= k < n ->
    station_on c k = station_on c0 k && negb (dyn_target c0 k);
  dyn_done_index : forall k, 0 <= k < n ->
    index_of c k = if dyn_target c0 k && (station_on c0 k || (0 <? index_of c0 k))
                   then 0 else index_of c0 k;
  dyn_done_start : forall k, 0 <= k < n ->
    start_of c k = if dyn_target c0 k && (station_on c0 k || (0 <? index_of c0 k))
                   then 0 else start_of c0 k;
  dyn_stop : forall k, k <> status_mas (status (os c0)) - 1 ->
    stop_of c k = if (0 <=? k) && (k <? n) && dyn_target c0 k
                     && (station_on c0 k || (0 <? index_of c0 k))
                  then 0 else stop_of c0 k;
  dyn_log : exists new, sd_log c = new ++ sd_log c0 /\ Forall (logs_running_station c0) new;
  dyn_logged : forall k, 0 <= k < n ->
    dyn_target c0 k = true -> station_on c0 k = true ->
    logs_run k (status_mas (status (os c0))) t c0 = true ->
    status_has_sd (status (os c0)) = true ->
    In (LOGDATA_STATION (index_of c0 k) k (ulong (t - start_of c0 k)) t) (sd_log c)
}.

(** What the override condition and the loop bounds read from [os]. *)
Definition override_inputs (o : OpenSprinkler) :=
  (nboards o, nstations o, ignrain_bits o, options o,
   status_enabled (status o), status_rain_delayed (status o),
   status_rain_sensed (status o)).

(** ** Well-formed controllers

    The configuration the library establishes: at most 32 boards (station ids
    are bytes), eight stations per board, one flag byte per board and one
    schedule entry per station. *)
Record wf_controller (c : Controller) : Prop := {
  wf_nboards : 0 <= nboards (os c) <= 32;
  wf_nstations : nstations (os c) = 8 * nboards (os c);
  wf_station_bits : Z.of_nat (length (station_bits (os c))) = nboards (os c);
  wf_start : Z.of_nat (length (scheduled_start_time (pd c))) = nstations (os c);
  wf_stop : Z.of_nat (length (scheduled_stop_time (pd c))) = nstations (os c);
  wf_index : Z.of_nat (length (scheduled_program_index (pd c))) = nstations (os c)
}.

(** Some station below [n] has a pending stop time. *)
Definition some_pending (c : Controller) (n : Z) : Prop :=
  exists sid, 0 <= sid < n /\ 0 < stop_of c sid < ULONG_MAX.

(** ** The matcher's view of the programs *)

(** [c'] differs from [c] at most in the contents of the stop-time and
    program-index tables (and in the devices). *)
Definition same_frame (c c' : Controller) : Prop :=
  os c' = os c
  /\ programs (pd c') = programs (pd c)
  /\ scheduled_start_time (pd c') = scheduled_start_time (pd c)
  /\ length (scheduled_stop_time (pd c')) = length (scheduled_stop_time (pd c))
  /\ length (scheduled_program_index (pd c')) = length (scheduled_program_index (pd c)).

(** No program below [p] that fires at [t] claims station [k]. *)
Definition unclaimed (decode : Z -> Z) (t : Z) (c : Controller) (k p : Z) : Prop :=
  forall pid prog, 0 <= pid < p ->
    programs (pd c) !! Z.to_nat pid = Some prog ->
    check_match prog t = true -> claims decode c prog k = false.

(** Program [pid] is the first one firing at [t] that claims station [k]. *)
Definition first_claimant (decode : Z -> Z) (t : Z) (c : Controller)
    (k pid : Z) (prog : ProgramStruct) : Prop :=
  0 <= pid
  /\ programs (pd c) !! Z.to_nat pid = Some prog
  /\ check_match prog t = true
  /\ claims decode c prog k = true
  /\ unclaimed decode t c k pid.

(** ** The schedule builder as the specification describes it

    A running cursor walks the stations in ascending order.  A station that
    qualifies (is not skipped) starts at the cursor and stops [demand] later,
    where the demand is the duration the matcher left in its stop-time slot;
    in sequential mode the cursor then moves to that stop time plus the
    station delay.  [spec_cursor ... n] is the cursor before station [n]. *)
Fixpoint spec_cursor (c : Controller) (seq delay init : Z) (n : nat) : Z :=
  match n with
  | O => init
  | S m =>
      let cursor := spec_cursor c seq delay init m in
      if schedule_skips c (Z.of_nat m) then cursor
      else if truthy seq
           then ulong (ulong (cursor + stop_of c (Z.of_nat m)) + delay)
           else cursor
  end.

Definition cursor_at (c : Controller) (seq delay init : Z) (k : Z) : Z :=
  spec_cursor c seq delay init (Z.to_nat k).

(** The [os] object with the busy bit forced: the builder assigns nothing
    else in [os]. *)
Definition erase_busy (o : OpenSprinkler) : OpenSprinkler :=
  with_status (with_program_busy true) o.

(** ** Loop invariants of the matcher and the builder *)

(** State of the program loop after the programs below [p]; [found] is
    [match_found]. *)
Definition matcher_inv (decode : Z -> Z) (t : Z) (c : Controller) (p : Z)
    (x : Controller * bool) : Prop :=
  same_frame c (fst x)
  /\ (forall k,
      (~ 0 <= k < nstations (os c) ->
       stop_of (fst x) k = stop_of c k /\ index_of (fst x) k = index_of c k)
      /\ (0 <= k < nstations (os c) ->
          (unclaimed decode t c k p
           /\ stop_of (fst x) k = stop_of c k /\ index_of (fst x) k = index_of c k)
          \/ (exists pid prog,
                pid < p /\ first_claimant decode t c k pid prog
                /\ stop_of (fst x) k = scaled_water_time decode c prog k
                /\ index_of (fst x) k = byte (pid + 1))))
  /\ (snd x = true
      <-> exists k pid prog,
            0 <= k < nstations (os c) /\ pid < p /\ first_claimant decode t c k pid prog).

(** State of the station loop of [schedule_all_stations] before station [i]. *)
Definition builder_inv (c : Controller) (sq delay init : Z) (i : Z)
    (x : Controller * Z) : Prop :=
  erase_busy (os (fst x)) = erase_busy (os c)
  /\ length (scheduled_start_time (pd (fst x))) = length (scheduled_start_time (pd c))
  /\ length (scheduled_stop_time (pd (fst x))) = length (scheduled_stop_time (pd c))
  /\ scheduled_program_index (pd (fst x)) = scheduled_program_index (pd c)
  /\ snd x = cursor_at c sq delay init i
  /\ forall k,
      if (0 <=? k) && (k <? i) && negb (schedule_skips c k)
      then start_of (fst x) k = cursor_at c sq delay init k
           /\ stop_of (fst x) k = ulong (cursor_at c sq delay init k + stop_of c k)
      else start_of (fst x) k = start_of c k /\ stop_of (fst x) k = stop_of c k.

(** ** The two-station scenario

    The only stored program fires at time [T] and selects exactly the
    stations [a] and [b] (a < b), each with a water time that decodes to 600
    seconds; sequential mode, watering percentage 100, station delay 5
    seconds; nothing is scheduled or running, and neither station is the
    master, on, or disabled; the minute of [T] has not been scheduled yet. *)
Record two_station_scenario (decode : Z -> Z) (c : Controller) (T : Z)
    (prog : ProgramStruct) (a b : Z) : Prop := {
  sc_wf : wf_controller c;
  sc_programs : programs (pd c) = [prog];
  sc_match : check_match prog T = true;
  sc_minute : T / 60 <> last_minute c;
  sc_stations : 0 <= a /\ a < b /\ b < nstations (os c);
  sc_selected_a : load (durations prog) a <> 0 /\ decode (load (durations prog) a) = 600;
  sc_selected_b : load (durations prog) b <> 0 /\ decode (load (durations prog) b) = 600;
  sc_others : forall k, k <> a -> k <> b -> load (durations prog) k = 0;
  sc_percentage : OPTION_WATER_PERCENTAGE (options (os c)) = 100;
  sc_delay : decode (OPTION_STATION_DELAY_TIME (options (os c))) = 5;
  sc_sequential : truthy (status_seq (status (os c))) = true;
  sc_idle : forall k, start_of c k = 0 /\ stop_of c k = 0;
  sc_last_stop : last_stop_time (pd c) = 0;
  sc_free_a : matcher_skips c a = false;
  sc_free_b : matcher_skips c b = false;
  sc_time : 0 <= T /\ T + 1206 < 2 ^ 32
}.

(** ** Conditions of check_network *)

(** [last_check_time] and [last_dhcp_time] after the initialisation of
    line 462. *)
Definition effective_last_check (t : Z) (c : Controller) : Z :=
  if last_check_time c =? 0 then t else last_check_time c.

Definition effective_last_dhcp (t : Z) (c : Controller) : Z :=
  if last_check_time c =? 0 then t else last_dhcp_time c.

(** The gateway is pinged in this call: no program is running and more than
    the check interval has passed since the last check. *)
Definition check_due (t : Z) (c : Controller) : bool :=
  negb (status_program_busy (status (os c)))
  && (check_interval (status_network_fails (status (os c)))
      <? ulong (t - effective_last_check t c)).

(** [os.start_network] is called after the ping left [fails] failures. *)
Definition reconnect_attempted (t : Z) (c : Controller) (fails : Z) : bool :=
  ((2 <? fails) || (DHCP_RENEW_INTERVAL <? ulong (t - effective_last_dhcp t c)))
  && truthy (OPTION_NETFAIL_RECONNECT (options (os c))).

(** ** Example configurations

    One board of eight stations with the firmware defaults: sequential mode,
    every station set to activate the master, no master configured. *)

Definition example_options : OptionTable :=
  {| OPTION_SEQUENTIAL := 1; OPTION_MASTER_STATION := 0;
     OPTION_MASTER_ON_ADJ := 0; OPTION_MASTER_OFF_ADJ := 60;
     OPTION_STATION_DELAY_TIME := 5; OPTION_WATER_PERCENTAGE := 100;
     OPTION_USE_RAINSENSOR := 1; OPTION_RELAY_PULSE := 0;
     OPTION_NETFAIL_RECONNECT := 1 |}.

Definition example_status : ConStatus :=
  {| status_enabled := true; status_rain_delayed := false;
     status_rain_sensed := false; status_program_busy := false;
     status_has_sd := true; status_seq := 1; status_mas := 0;
     status_network_fails := 0 |}.

Definition example_os : OpenSprinkler :=
  {| nboards := 1; nstations := 8;
     station_bits := [0]; masop_bits := [255]; ignrain_bits := [0];
     stndis_bits := [0]; actrelay_bits := [0];
     options := example_options; status := example_status |}.

Definition example_pd : ProgramData :=
  {| programs := [];
     scheduled_start_time := [0; 0; 0; 0; 0; 0; 0; 0];
     scheduled_stop_time := [0; 0; 0; 0; 0; 0; 0; 0];
     scheduled_program_index := [0; 0; 0; 0; 0; 0; 0; 0];
     last_stop_time := 0;
     lastrun := {| lastrun_station := 0; lastrun_program := 0;
                   lastrun_duration := 0; lastrun_endtime := 0 |} |}.

Definition example_controller : Controller :=
  {| os := example_os; pd := example_pd; sd_log := []; pin_relay := [];
     valves := [0]; oob_writes := []; last_minute := 0;
     last_check_time := 0; last_dhcp_time := 0 |}.

(** The same controller with station 2 (sid 1) configured as master. *)
Definition example_with_master : Controller :=
  upd_status (with_seq_mas 1 2) example_controller.

(** A disabled controller on which station 1 (sid 0) is running program 1
    in the window [100, 700) and station 3 (sid 2) is queued for [705, 1305). *)
Definition example_disabled : Controller :=
  {| os := {| nboards := 1; nstations := 8;
              station_bits := [1]; masop_bits := [255]; ignrain_bits := [0];
              stndis_bits := [0]; actrelay_bits := [0];
              options := example_options;
              status := {| status_enabled := false; status_rain_delayed := false;
                           status_rain_sensed := false; status_program_busy := true;
                           status_has_sd := true; status_seq := 1; status_mas := 0;
                           status_network_fails := 0 |} |};
     pd := {| programs := [];
              scheduled_start_time := [100; 0; 705; 0; 0; 0; 0; 0];
              scheduled_stop_time := [700; 0; 1305; 0; 0; 0; 0; 0];
              scheduled_program_index := [1; 0; 1; 0; 0; 0; 0; 0];
              last_stop_time := 1305;
              lastrun := lastrun example_pd |};
     sd_log := []; pin_relay := []; valves := [1]; oob_writes := [];
     last_minute := 3; last_check_time := 0; last_dhcp_time := 0 |}.

(** [example_with_master] with station 1 (sid 0) queued for [100, 700) by
    program 1. *)
Definition example_queued : Controller :=
  upd_status (with_program_busy true)
    (set_index 0 1 (set_stop 0 700 (set_start 0 100 example_with_master))).

(** Station 1 (sid 0) is the master; program 1 waters station 2 (sid 1) for
    ten seconds at time 6000 and again at time 6060.  Durations are stored
    undecoded. *)
Definition example_master_first : Controller :=
  {| os := {| nboards := 1; nstations := 8;
              station_bits := [0]; masop_bits := [255]; ignrain_bits := [0];
              stndis_bits := [0]; actrelay_bits := [0];
              options := {| OPTION_SEQUENTIAL := 1; OPTION_MASTER_STATION := 1;
                            OPTION_MASTER_ON_ADJ := 0; OPTION_MASTER_OFF_ADJ := 60;
                            OPTION_STATION_DELAY_TIME := 5;
                            OPTION_WATER_PERCENTAGE := 100;
                            OPTION_USE_RAINSENSOR := 1; OPTION_RELAY_PULSE := 0;
                            OPTION_NETFAIL_RECONNECT := 1 |};
              status := example_status |};
     pd := {| programs := [ {| durations := [0; 10; 0; 0; 0; 0; 0; 0];
                               check_match := fun t => (t =? 6000) || (t =? 6060) |} ];
              scheduled_start_time := [0; 0; 0; 0; 0; 0; 0; 0];
              scheduled_stop_time := [0; 0; 0; 0; 0; 0; 0; 0];
              scheduled_program_index := [0; 0; 0; 0; 0; 0; 0; 0];
              last_stop_time := 0;
              lastrun := lastrun example_pd |};
     sd_log := []; pin_relay := []; valves := [0]; oob_writes := [];
     last_minute := 99; last_check_time := 0; last_dhcp_time := 0 |}.

(** Consecutive passes of loop() at the given times. *)
Definition run_seconds (water_time_decode : Z -> Z) (times : list Z)
    (c : Controller) : Controller :=
  fold_left (fun c t => loop_second water_time_decode t (loop_read_options c)) times c.

(** The seconds [from, from + n). *)
Definition seconds (from : Z) (n : nat) : list Z :=
  map (fun i => from + Z.of_nat i) (seq 0 n).

(** [example_controller] after the matcher recorded a demand of 600 seconds
    for stations 2 and 3 (sid 1 and 2) on behalf of program 1. *)
Definition example_demand : Controller :=
  set_index 2 1 (set_index 1 1 (set_stop 2 600 (set_stop 1 600 example_controller))).

(** Two failed pings so far, last check and DHCP renewal at time 100. *)
Definition example_network : Controller :=
  with_last_dhcp_time 100 (with_last_check_time 100
    (upd_status (with_network_fails 2) example_controller)).

(** A stored water time of 10 stands for 600 seconds; other values stand
    for themselves. *)
Definition example_decode (d : Z) : Z := if d =? 10 then 600 else d.

(** [example_controller] with one stored program that selects stations 2
    and 3 (sid 1 and 2) and fires at time 6000. *)
Definition example_program : ProgramStruct :=
  {| durations := [0; 10; 10; 0; 0; 0; 0; 0]; check_match := fun t => t =? 6000 |}.

Definition example_two_station : Controller :=
  upd_pd (fun p =>
    {| programs := [example_program];
       scheduled_start_time := scheduled_start_time p;
       scheduled_stop_time := scheduled_stop_time p;
       scheduled_program_index := scheduled_program_index p;
       last_stop_time := last_stop_time p; lastrun := lastrun p |})
    example_controller.

(** ** Further functions of the sketch *)

(** The two halves of the body of the run-time loop: the station is turned
    off when its stop time has come (lines 297-303), then turned on when it is
    inside its window and was off in the board's copy (lines 304-337). *)
Definition expire_station (curr_time sid : Z) (c : Controller) : Controller :=
  if 0 <? index_of c sid then
    if stop_of c sid <=? curr_time
    then turn_off_station sid (status_mas (status (os c))) curr_time c
    else c
  else c.

Definition open_station (curr_time bid bitvalue s mas : Z) (c : Controller) : Controller :=
  let sid := byte (bid * 8 + s) in
  if negb (truthy (Z.land (Z.shiftr bitvalue s) 1)) then
    if (start_of c sid <=? curr_time) && (curr_time <? stop_of c sid) then
      let c := set_station_bit sid 1 c in
      let c :=
        if (0 <? mas) && negb (mas =? sid + 1)
           && bit_is_set (load (masop_bits (os c)) bid) s
           && truthy (status_seq (status (os c)))
        then schedule_master curr_time sid c
        else c in
      relay_on bid s c
    else c
  else c.

(** The station's stop time has come: it is scheduled and [curr_time] is not
    before its stop time. *)
Definition expired (curr_time : Z) (c : Controller) (k : Z) : bool :=
  (0 <? index_of c k) && (stop_of c k <=? curr_time).

(** The station opens in this pass: not expired, off, and inside its window. *)
Definition opens (curr_time : Z) (c : Controller) (k : Z) : bool :=
  negb (expired curr_time c k) && negb (station_on c k)
  && (start_of c k <=? curr_time) && (curr_time <? stop_of c k).

(** State of the run-time pass started in [c0] for a station [k] other than
    the master, when the stations below [n] have been handled. *)
Record run_inv (t : Z) (c0 : Controller) (k n : Z) (c : Controller) : Prop := {
  run_config : os_config (os c) = os_config (os c0);
  run_bits_length : length (station_bits (os c)) = length (station_bits (os c0));
  run_todo : n <= k ->
    station_on c k = station_on c0 k /\ start_of c k = start_of c0 k
    /\ stop_of c k = stop_of c0 k /\ index_of c k = index_of c0 k;
  run_done : k < n ->
    station_on c k = (if expired t c0 k then false
                      else if opens t c0 k then true else station_on c0 k)
    /\ start_of c k = (if expired t c0 k then 0 else start_of c0 k)
    /\ stop_of c k = (if expired t c0 k then 0 else stop_of c0 k)
    /\ index_of c k = (if expired t c0 k then 0 else index_of c0 k)
}.

(** reset_all_stations (lines 636-644); [curr_time] is the value of [now()]. *)
Definition reset_all_stations (curr_time : Z) (c : Controller) : Controller :=
  for_loop (nstations (os c))
    (fun sid c => if 0 <? index_of c sid then set_stop sid curr_time c else c) c.

(** The schedule builder's cursor without the reduction to 32 bits: the
    time at which the sequential batch has been laid out up to station [n]. *)
Fixpoint exact_cursor (c : Controller) (seq delay init : Z) (n : nat) : Z :=
  match n with
  | O => init
  | S m =>
      let cursor := exact_cursor c seq delay init m in
      if schedule_skips c (Z.of_nat m) then cursor
      else if truthy seq then cursor + stop_of c (Z.of_nat m) + delay else cursor
  end.

(** Station [sid] keeps the master on in parallel mode (line 381). *)
Definition triggers_master (c : Controller) (sid : Z) : bool :=
  negb (status_mas (status (os c)) =? sid + 1)
  && station_on c sid
  && bit_is_set (load (masop_bits (os c)) (Z.shiftr sid 3)) (Z.land sid 7).

(** ** The watchdog interrupt (lines 155-165)

    [wdt_timeout] is a byte that the interrupt increments and loop() clears;
    the second component tells whether [sysReset] is called. *)
Definition wdt_isr (wdt_timeout : Z) : Z * bool :=
  let wdt_timeout := byte (wdt_timeout + 1) in
  (wdt_timeout, 15 <? wdt_timeout).

(** [n] interrupts in a row without a pass of loop(); the count stops at the
    reset. *)
Fixpoint wdt_interrupts (n : nat) (wdt_timeout : Z) : Z * bool :=
  match n with
  | O => (wdt_timeout, false)
  | S m =>
      let r := wdt_isr wdt_timeout in
      if snd r then r else wdt_interrupts m (fst r)
  end.

(** ** perform_ntp_sync and check_weather (lines 432-455)

    The part of [os] and of the outside world these two functions use beside
    [os.status]: the two options, the RTC flag, the two time stamps, and the
    calls they make. *)
Record Periodic := {
  OPTION_USE_NTP : Z;
  OPTION_USE_WEATHER : Z;
  status_has_rtc : bool;
  ntpsync_lasttime : Z;
  checkwt_lasttime : Z;
  ntp_queries : list Z;       (* times at which getNtpTime was called *)
  time_set : list Z;          (* arguments of setTime *)
  rtc_set : list Z;           (* arguments of RTC.set *)
  weather_queries : list Z    (* times at which GetWeather was called *)
}.

Definition NTP_SYNC_INTERVAL : Z := 86400.
Definition CHECK_WEATHER_INTERVAL : Z := 21600.

(** [ntp_time] is the result of [getNtpTime], should it be called. *)
Definition perform_ntp_sync (ntp_time curr_time : Z) (c : Controller)
    (p : Periodic) : Periodic :=
  if negb (truthy (OPTION_USE_NTP p))
     || (0 <? status_network_fails (status (os c)))
     || status_program_busy (status (os c))
  then p
  else if (ntpsync_lasttime p =? 0)
          || (NTP_SYNC_INTERVAL <? ulong (curr_time - ntpsync_lasttime p)) then
    let synced := 0 <? ntp_time in
    {| OPTION_USE_NTP := OPTION_USE_NTP p;
       OPTION_USE_WEATHER := OPTION_USE_WEATHER p;
       status_has_rtc := status_has_rtc p;
       ntpsync_lasttime := curr_time;
       checkwt_lasttime := checkwt_lasttime p;
       ntp_queries := curr_time :: ntp_queries p;
       time_set := if synced then ntp_time :: time_set p else time_set p;
       rtc_set := if synced && status_has_rtc p
                  then ntp_time :: rtc_set p else rtc_set p;
       weather_queries := weather_queries p |}
  else p.

Definition check_weather (curr_time : Z) (c : Controller) (p : Periodic) : Periodic :=
  if negb (truthy (OPTION_USE_WEATHER p))
     || (0 <? status_network_fails (status (os c)))
     || status_program_busy (status (os c))
  then p
  else if (checkwt_lasttime p =? 0)
          || (CHECK_WEATHER_INTERVAL <? ulong (curr_time - checkwt_lasttime p)) then
    {| OPTION_USE_NTP := OPTION_USE_NTP p;
       OPTION_USE_WEATHER := OPTION_USE_WEATHER p;
       status_has_rtc := status_has_rtc p;
       ntpsync_lasttime := ntpsync_lasttime p;
       checkwt_lasttime := curr_time;
       ntp_queries := ntp_queries p;
       time_set := time_set p;
       rtc_set := rtc_set p;
       weather_queries := curr_time :: weather_queries p |}
  else p.

(** ** Status changes and their log records (lines 222-242)

    [os.old_status] and the two start times, which the sketch keeps beside
    [os.status].  The flags of [os.status] are set by the library
    ([raindelay_start], [raindelay_stop], [rainsensor_status]) before the
    check. *)
Record StatusWatch := {
  old_rain_delayed : bool;
  old_rain_sensed : bool;
  raindelay_start_time : Z;
  rainsense_start_time : Z
}.

(** write_log (lines 679-725) for the two rain records: the duration is
    [curr_time] minus the recorded start time.  As for the station record,
    the file-system calls are taken to succeed. *)
Definition write_log_rain (delay_record : bool) (curr_time : Z) (w : StatusWatch)
    (c : Controller) : Controller :=
  if negb (status_has_sd (status (os c))) then c
  else if delay_record
       then append_log (LOGDATA_RAINDELAY (ulong (curr_time - raindelay_start_time w))
                                          curr_time) c
       else append_log (LOGDATA_RAINSENSE (ulong (curr_time - rainsense_start_time w))
                                          curr_time) c.

Definition check_status_changes (curr_time : Z) (wc : StatusWatch * Controller)
    : StatusWatch * Controller :=
  let w := fst wc in
  let c := snd wc in
  let rd := status_rain_delayed (status (os c)) in
  let rs := status_rain_sensed (status (os c)) in
  (* rain delay *)
  let wc :=
    if negb (eqb (old_rain_delayed w) rd) then
      let wc := if rd
                then ({| old_rain_delayed := old_rain_delayed w;
                         old_rain_sensed := old_rain_sensed w;
                         raindelay_start_time := curr_time;
                         rainsense_start_time := rainsense_start_time w |}, c)
                else (w, write_log_rain true curr_time w c) in
      ({| old_rain_delayed := rd;
          old_rain_sensed := old_rain_sensed (fst wc);
          raindelay_start_time := raindelay_start_time (fst wc);
          rainsense_start_time := rainsense_start_time (fst wc) |}, snd wc)
    else (w, c) in
  let w := fst wc in
  let c := snd wc in
  (* rain sensor *)
  if negb (eqb (old_rain_sensed w) rs) then
    let wc := if rs
              then ({| old_rain_delayed := old_rain_delayed w;
                       old_rain_sensed := old_rain_sensed w;
                       raindelay_start_time := raindelay_start_time w;
                       rainsense_start_time := curr_time |}, c)
              else (w, write_log_rain false curr_time w c) in
    ({| old_rain_delayed := old_rain_delayed (fst wc);
        old_rain_sensed := rs;
        raindelay_start_time := raindelay_start_time (fst wc);
        rainsense_start_time := rainsense_start_time (fst wc) |}, snd wc)
  else (w, c).

(** The status flags as the rain-delay and rain-sensor checks left them. *)
Definition with_rain (rd rs : bool) (c : Controller) : Controller :=
  upd_status (fun s =>
    {| status_enabled := status_enabled s; status_rain_delayed := rd;
       status_rain_sensed := rs; status_program_busy := status_program_busy s;
       status_has_sd := status_has_sd s; status_seq := status_seq s;
       status_mas := status_mas s; status_network_fails := status_network_fails s |}) c.

(** [example_queued] one second after station 1 (sid 0) opened: it and the
    master (sid 1) are on, the master scheduled for [100, 700). *)
Definition example_running : Controller :=
  set_station_bit 1 1 (set_station_bit 0 1
    (set_index 1 1 (set_stop 1 700 (set_start 1 100 example_queued)))).

(** NTP and weather look-ups enabled, a real-time clock present, nothing
    queried yet. *)
Definition example_periodic : Periodic :=
  {| OPTION_USE_NTP := 1; OPTION_USE_WEATHER := 1; status_has_rtc := true;
     ntpsync_lasttime := 0; checkwt_lasttime := 0;
     ntp_queries := []; time_set := []; rtc_set := []; weather_queries := [] |}.

(** No rain delay and no rain sensed at the last pass. *)
Definition example_watch : StatusWatch :=
  {| old_rain_delayed := false; old_rain_sensed := false;
     raindelay_start_time := 0; rainsense_start_time := 0 |}.

(** Passes of the status check at the given times, with the status flags
    unchanged in between. *)
Definition status_checks (times : list Z) (wc : StatusWatch * Controller)
    : StatusWatch * Controller :=
  fold_left (fun wc t => check_status_changes t wc) times wc.

(** ** A station and its window over the passes of loop()

    What holds for a station at the end of a pass at time [t]: if it is on,
    [t] is inside its window; a stop time comes with a program index; and
    nothing is on unless a program is busy. *)
Definition station_inv (t : Z) (c : Controller) (k : Z) : Prop :=
  (station_on c k = true -> start_of c k <= t < stop_of c k)
  /\ (stop_of c k <> 0 -> 0 < index_of c k)
  /\ (status_program_busy (status (os c)) = false -> station_on c k = false).

(** The times of the passes do not go back, starting from [t]. *)
Fixpoint ascending (t : Z) (times : list Z) : Prop :=
  match times with
  | [] => True
  | t' :: rest => t <= t' /\ ascending t' rest
  end.

(** The time of the last of the passes at [times], [t] if there is none. *)
Definition last_pass (t : Z) (times : list Z) : Z := fold_left (fun _ t' => t') times t.

(** The sizes the sketch relies on: the board and station counts and the
    lengths of the station-bit mirror and of the three schedule tables. *)
Definition shape (c : Controller) : Z * Z * nat * nat * nat * nat :=
  (nboards (os c), nstations (os c), length (station_bits (os c)),
   length (scheduled_start_time (pd c)), length (scheduled_stop_time (pd c)),
   length (scheduled_program_index (pd c))).

(** * Properties *)

(** ** Bits *)

Lemma truthy_true x : truthy x = true <-> x <> 0.
Proof. unfold truthy. rewrite negb_true_iff, Z.eqb_neq. tauto. Qed.

Lemma land_shiftl_1 b s :
  0 <= s -> Z.land b (Z.shiftl 1 s) = if Z.testbit b s then 2 ^ s else 0.
Proof.
  intros Hs. rewrite Z.shiftl_1_l.
  destruct (Z.testbit b s) eqn:E; apply Z.bits_inj'; intros n Hn;
    rewrite Z.land_spec, ?Z.pow2_bits_eqb, ?Z.bits_0 by lia;
    destruct (Z.eqb_spec s n); subst; rewrite ?E, ?andb_false_r; reflexivity.
Qed.

Lemma bit_is_set_testbit b s : 0 <= s -> bit_is_set b s = Z.testbit b s.
Proof.
  intros Hs. unfold bit_is_set, truthy. rewrite land_shiftl_1 by assumption.
  destruct (Z.testbit b s); [|reflexivity].
  apply negb_true_iff, Z.eqb_neq. pose proof (Z.pow_pos_nonneg 2 s). lia.
Qed.

Lemma shiftr_land_1 b s : 0 <= s -> truthy (Z.land (Z.shiftr b s) 1) = Z.testbit b s.
Proof.
  intros Hs. change (Z.land (Z.shiftr b s) 1) with (Z.land (Z.shiftr b s) (Z.shiftl 1 0)).
  fold (bit_is_set (Z.shiftr b s) 0). rewrite bit_is_set_testbit by lia.
  rewrite Z.shiftr_spec by lia. reflexivity.
Qed.

Lemma bit_is_set_0 s : bit_is_set 0 s = false.
Proof. unfold bit_is_set. rewrite Z.land_0_l. reflexivity. Qed.

(** Clearing bit [s] of a flag byte. *)
Lemma bit_is_set_clear b s k :
  0 <= s -> 0 <= k < 8 ->
  bit_is_set (byte (Z.land b (Z.lnot (Z.shiftl 1 s)))) k
  = if k =? s then false else bit_is_set b k.
Proof.
  intros Hs Hk. rewrite !bit_is_set_testbit by lia. unfold byte.
  rewrite Z.mod_pow2_bits_low by lia.
  rewrite Z.land_spec, Z.lnot_spec, Z.shiftl_1_l, Z.pow2_bits_eqb by lia.
  destruct (Z.eqb_spec k s), (Z.eqb_spec s k); subst; try lia;
    cbn; rewrite ?andb_false_r, ?andb_true_r; reflexivity.
Qed.

(** Setting bit [s] of a flag byte. *)
Lemma bit_is_set_set b s k :
  0 <= s -> 0 <= k < 8 ->
  bit_is_set (byte (Z.lor b (Z.shiftl 1 s))) k
  = if k =? s then true else bit_is_set b k.
Proof.
  intros Hs Hk. rewrite !bit_is_set_testbit by lia. unfold byte.
  rewrite Z.mod_pow2_bits_low by lia.
  rewrite Z.lor_spec, Z.shiftl_1_l, Z.pow2_bits_eqb by lia.
  destruct (Z.eqb_spec k s), (Z.eqb_spec s k); subst; try lia;
    cbn; rewrite ?orb_false_r, ?orb_true_r; reflexivity.
Qed.

(** Board and bit of a station id. *)
Lemma sid_bit_range sid : 0 <= Z.land sid 7 < 8.
Proof.
  change 7 with (Z.ones 3). rewrite Z.land_ones by lia.
  apply Z.mod_pos_bound. lia.
Qed.

Lemma sid_split sid : sid = 8 * Z.shiftr sid 3 + Z.land sid 7.
Proof.
  change 7 with (Z.ones 3). rewrite Z.land_ones, Z.shiftr_div_pow2 by lia.
  change (2 ^ 3) with 8. apply Z.div_mod. lia.
Qed.

Lemma sid_of_board_bit bid s :
  0 <= s < 8 -> Z.shiftr (bid * 8 + s) 3 = bid /\ Z.land (bid * 8 + s) 7 = s.
Proof.
  intros Hs. change 7 with (Z.ones 3).
  rewrite Z.land_ones, Z.shiftr_div_pow2 by lia. change (2 ^ 3) with 8.
  split.
  - rewrite Z.div_add_l by lia. rewrite Z.div_small by lia. lia.
  - rewrite Z.add_comm, Z.mod_add by lia. apply Z.mod_small. lia.
Qed.

(** ** Arrays *)

Lemma in_table_true t i : in_table t i = true <-> 0 <= i < Z.of_nat (length t).
Proof. unfold in_table. rewrite andb_true_iff, Z.leb_le, Z.ltb_lt. tauto. Qed.

Lemma length_store t i v : length (store t i v) = length t.
Proof. unfold store. destruct (in_table t i); [apply length_insert | reflexivity]. Qed.

Lemma in_table_store t i v j : in_table (store t i v) j = in_table t j.
Proof. unfold in_table. rewrite length_store. reflexivity. Qed.

Lemma load_store t i v j :
  load (store t i v) j = if (i =? j) && in_table t i then v else load t j.
Proof.
  unfold load. rewrite in_table_store. unfold store.
  destruct (Z.eqb_spec i j) as [->|Hne]; cbn [andb].
  - destruct (in_table t j) eqn:E; [|reflexivity].
    apply in_table_true in E.
    rewrite list_lookup_insert_eq by lia. reflexivity.
  - destruct (in_table t i) eqn:Ei; [|reflexivity].
    destruct (in_table t j) eqn:Ej; [|reflexivity].
    apply in_table_true in Ei, Ej.
    rewrite list_lookup_insert_ne by lia. reflexivity.
Qed.

Lemma load_store_eq t i v : in_table t i = true -> load (store t i v) i = v.
Proof. intros H. rewrite load_store, Z.eqb_refl, H. reflexivity. Qed.

Lemma load_store_ne t i v j : i <> j -> load (store t i v) j = load t j.
Proof.
  intros H. rewrite load_store. destruct (Z.eqb_spec i j); [contradiction|reflexivity].
Qed.

Lemma load_outside t i : in_table t i = false -> load t i = 0.
Proof. unfold load. intros ->. reflexivity. Qed.

(** ** Loops *)

Lemma for_loop_step {A} (n : Z) (body : Z -> A -> A) (a : A) :
  0 <= n -> for_loop (n + 1) body a = body n (for_loop n body a).
Proof.
  intros Hn. unfold for_loop.
  replace (Z.to_nat (n + 1)) with (S (Z.to_nat n)) by lia.
  rewrite seq_S, fold_left_app. cbn. rewrite Z2Nat.id by lia. reflexivity.
Qed.

Lemma for_loop_0 {A} (n : Z) (body : Z -> A -> A) (a : A) :
  n <= 0 -> for_loop n body a = a.
Proof.
  intros Hn. unfold for_loop. replace (Z.to_nat n) with 0%nat by lia. reflexivity.
Qed.

(** Loop invariant rule: [Inv i] holds before iteration [i]. *)
Lemma for_loop_inv {A} (Inv : Z -> A -> Prop) (n : Z) (body : Z -> A -> A) (a : A) :
  0 <= n ->
  Inv 0 a ->
  (forall i x, 0 <= i < n -> Inv i x -> Inv (i + 1) (body i x)) ->
  Inv n (for_loop n body a).
Proof.
  intros Hn H0 Hstep.
  assert (forall k : nat, (Z.of_nat k <= n) ->
            Inv (Z.of_nat k) (for_loop (Z.of_nat k) body a)) as H.
  { induction k as [|k IH]; intros Hk.
    - rewrite for_loop_0 by lia. exact H0.
    - replace (Z.of_nat (S k)) with (Z.of_nat k + 1) by lia.
      rewrite for_loop_step by lia. apply Hstep; [lia|]. apply IH. lia. }
  specialize (H (Z.to_nat n)). rewrite Z2Nat.id in H by lia. apply H. lia.
Qed.

(** Invariant that does not depend on the iteration. *)
Lemma for_loop_preserves {A} (P : A -> Prop) (n : Z) (body : Z -> A -> A) (a : A) :
  P a ->
  (forall i x, 0 <= i < n -> P x -> P (body i x)) ->
  P (for_loop n body a).
Proof.
  intros H0 Hstep. destruct (Z.le_gt_cases 0 n).
  - apply (for_loop_inv (fun _ => P)); auto.
  - rewrite for_loop_0 by lia. exact H0.
Qed.

(** ** Field updates: what each assignment leaves alone *)

Lemma os_set_start i v c : os (set_start i v c) = os c.
Proof. reflexivity. Qed.

Lemma os_set_stop i v c : os (set_stop i v c) = os c.
Proof. unfold set_stop. destruct (in_table _ i); reflexivity. Qed.

Lemma os_set_index i v c : os (set_index i v c) = os c.
Proof. reflexivity. Qed.

Lemma pd_set_station_bit sid v c : pd (set_station_bit sid v c) = pd c.
Proof. reflexivity. Qed.

Lemma pd_set_stop i v c :
  pd (set_stop i v c) = with_stop (store (scheduled_stop_time (pd c)) i v) (pd c).
Proof. unfold set_stop. destruct (in_table _ i); reflexivity. Qed.

Lemma oob_set_stop i v c :
  oob_writes (set_stop i v c)
  = if in_table (scheduled_stop_time (pd c)) i then oob_writes c else i :: oob_writes c.
Proof. unfold set_stop. destruct (in_table _ i); reflexivity. Qed.

Lemma sd_log_set_stop i v c : sd_log (set_stop i v c) = sd_log c.
Proof. unfold set_stop. destruct (in_table _ i); reflexivity. Qed.

Lemma os_write_log_station t c : os (write_log_station t c) = os c.
Proof. unfold write_log_station. destruct (negb _); reflexivity. Qed.

Lemma pd_write_log_station t c : pd (write_log_station t c) = pd c.
Proof. unfold write_log_station. destruct (negb _); reflexivity. Qed.

Lemma oob_write_log_station t c : oob_writes (write_log_station t c) = oob_writes c.
Proof. unfold write_log_station. destruct (negb _); reflexivity. Qed.

(** Reading the schedule tables after an assignment. *)

Lemma start_of_set_start i v c k :
  start_of (set_start i v c) k
  = if (i =? k) && in_table (scheduled_start_time (pd c)) i then v else start_of c k.
Proof. unfold start_of, set_start. cbn. apply load_store. Qed.

Lemma stop_of_set_stop i v c k :
  stop_of (set_stop i v c) k
  = if (i =? k) && in_table (scheduled_stop_time (pd c)) i then v else stop_of c k.
Proof. unfold stop_of. rewrite pd_set_stop. cbn. apply load_store. Qed.

Lemma index_of_set_index i v c k :
  index_of (set_index i v c) k
  = if (i =? k) && in_table (scheduled_program_index (pd c)) i then v else index_of c k.
Proof. unfold index_of, set_index. cbn. apply load_store. Qed.

(** ** Station bits *)

Lemma station_on_set_station_bit_0 sid c k :
  station_on (set_station_bit sid 0 c) k
  = if k =? sid then false else station_on c k.
Proof.
  unfold station_on, set_station_bit. cbn. rewrite load_store.
  pose proof (sid_bit_range sid). pose proof (sid_bit_range k).
  destruct (Z.eqb_spec (Z.shiftr sid 3) (Z.shiftr k 3)) as [Hb|Hb]; cbn [andb].
  - destruct (in_table (station_bits (os c)) (Z.shiftr sid 3)) eqn:Ht.
    + rewrite bit_is_set_clear by lia. rewrite Hb.
      destruct (Z.eqb_spec (Z.land k 7) (Z.land sid 7)) as [Hs|Hs];
        destruct (Z.eqb_spec k sid) as [He|He]; try reflexivity.
      * exfalso. apply He. rewrite (sid_split k), (sid_split sid). lia.
      * subst. contradiction.
    + rewrite <- Hb. rewrite (load_outside _ _ Ht), bit_is_set_0.
      destruct (k =? sid); reflexivity.
  - destruct (Z.eqb_spec k sid); [subst; contradiction | reflexivity].
Qed.

Lemma station_on_set_station_bit_1 sid v c k :
  truthy v = true ->
  in_table (station_bits (os c)) (Z.shiftr sid 3) = true ->
  station_on (set_station_bit sid v c) k
  = if k =? sid then true else station_on c k.
Proof.
  intros Hv Ht. unfold station_on, set_station_bit. rewrite Hv. cbn. rewrite load_store, Ht.
  pose proof (sid_bit_range sid). pose proof (sid_bit_range k).
  destruct (Z.eqb_spec (Z.shiftr sid 3) (Z.shiftr k 3)) as [Hb|Hb]; cbn [andb].
  - rewrite bit_is_set_set by lia. rewrite Hb.
    destruct (Z.eqb_spec (Z.land k 7) (Z.land sid 7)) as [Hs|Hs];
      destruct (Z.eqb_spec k sid) as [He|He]; try reflexivity.
    + exfalso. apply He. rewrite (sid_split k), (sid_split sid). lia.
    + subst. contradiction.
  - destruct (Z.eqb_spec k sid); [subst; contradiction | reflexivity].
Qed.

(** ** turn_off_station: the state it leaves *)

Lemma masop_set_station_bit sid v c :
  masop_bits (os (set_station_bit sid v c)) = masop_bits (os c).
Proof. reflexivity. Qed.

Lemma actrelay_set_station_bit sid v c :
  actrelay_bits (os (set_station_bit sid v c)) = actrelay_bits (os c).
Proof. reflexivity. Qed.

Lemma options_set_station_bit sid v c :
  options (os (set_station_bit sid v c)) = options (os c).
Proof. reflexivity. Qed.

Lemma status_set_station_bit sid v c :
  status (os (set_station_bit sid v c)) = status (os c).
Proof. reflexivity. Qed.

Lemma start_of_set_station_bit sid v c k : start_of (set_station_bit sid v c) k = start_of c k.
Proof. reflexivity. Qed.

Lemma stop_of_set_station_bit sid v c k : stop_of (set_station_bit sid v c) k = stop_of c k.
Proof. reflexivity. Qed.

Lemma index_of_set_station_bit sid v c k : index_of (set_station_bit sid v c) k = index_of c k.
Proof. reflexivity. Qed.

Ltac proj_simpl :=
  repeat first
    [ rewrite os_set_stop | rewrite os_write_log_station
    | rewrite pd_set_stop | rewrite pd_write_log_station
    | rewrite sd_log_set_stop | rewrite oob_write_log_station
    | rewrite pd_set_station_bit
    | rewrite masop_set_station_bit | rewrite actrelay_set_station_bit
    | rewrite options_set_station_bit | rewrite status_set_station_bit
    | rewrite start_of_set_station_bit | rewrite stop_of_set_station_bit
    | rewrite index_of_set_station_bit
    | progress cbn [os pd sd_log pin_relay valves oob_writes
                    last_minute last_check_time last_dhcp_time
                    digitalWrite_relay upd_pd upd_os upd_status append_log
                    with_valves note_oob set_start set_index
                    with_last_minute with_last_check_time with_last_dhcp_time
                    with_start with_stop with_index with_lastrun with_last_stop_time
                    scheduled_start_time scheduled_stop_time scheduled_program_index
                    last_stop_time lastrun programs] ].

Ltac case_if :=
  match goal with
  | |- context [if ?b then _ else _] =>
      lazymatch b with
      | context [if _ then _ else _] => fail
      | _ => destruct b eqn:?
      end
  end.

Ltac case_ifs := proj_simpl; repeat (case_if; proj_simpl).

Lemma os_turn_off_station sid mas t c :
  os (turn_off_station sid mas t c) = os (set_station_bit sid 0 c).
Proof. unfold turn_off_station. proj_simpl. case_ifs; proj_simpl; reflexivity. Qed.

Lemma start_turn_off_station sid mas t c :
  scheduled_start_time (pd (turn_off_station sid mas t c))
  = store (scheduled_start_time (pd c)) sid 0.
Proof. unfold turn_off_station. proj_simpl. case_ifs; proj_simpl; reflexivity. Qed.

Lemma index_turn_off_station sid mas t c :
  scheduled_program_index (pd (turn_off_station sid mas t c))
  = store (scheduled_program_index (pd c)) sid 0.
Proof. unfold turn_off_station. proj_simpl. case_ifs; proj_simpl; reflexivity. Qed.

Lemma stop_turn_off_station sid mas t c :
  scheduled_stop_time (pd (turn_off_station sid mas t c))
  = store (if retracts_master sid mas c
           then store (scheduled_stop_time (pd c)) (mas - 1)
                  (ulong (t + OPTION_MASTER_OFF_ADJ (options (os c)) - 60))
           else scheduled_stop_time (pd c)) sid 0.
Proof.
  unfold turn_off_station, retracts_master. proj_simpl.
  case_ifs; proj_simpl; reflexivity.
Qed.

Lemma sd_log_turn_off_station sid mas t c :
  sd_log (turn_off_station sid mas t c)
  = if logs_run sid mas t c && status_has_sd (status (os c))
    then LOGDATA_STATION (index_of c sid) sid (ulong (t - start_of c sid)) t :: sd_log c
    else sd_log c.
Proof.
  unfold turn_off_station, logs_run, write_log_station.
  case_ifs; cbn in *; try reflexivity; try discriminate;
    match goal with
    | H : negb ?a = _, H' : ?a = _ |- _ => rewrite H' in H; discriminate
    end.
Qed.

Lemma oob_turn_off_station sid mas t c :
  oob_writes (turn_off_station sid mas t c)
  = let o := if retracts_master sid mas c
             then (if in_table (scheduled_stop_time (pd c)) (mas - 1)
                   then oob_writes c else (mas - 1) :: oob_writes c)
             else oob_writes c in
    if in_table (scheduled_stop_time (pd c)) sid then o else sid :: o.
Proof.
  unfold turn_off_station, retracts_master. proj_simpl.
  rewrite oob_set_stop. proj_simpl. rewrite ?in_table_store.
  repeat (case_if; proj_simpl; rewrite ?oob_set_stop; proj_simpl;
          rewrite ?in_table_store);
    reflexivity.
Qed.

(** ** turn_off_station: the master's stop time *)

(** C10.  With no master configured ([mas = 0]), in sequential mode, turning
    off station 0 whose activate-master bit is set stores to
    [pd.scheduled_stop_time[mas-1]], that is to index -1, outside the table:
    the store is not guarded by [mas > 0]. *)
Theorem turn_off_station_no_master_stores_outside :
  status_mas (status (os example_controller)) = 0
  /\ retracts_master 0 0 example_controller = true
  /\ oob_writes (turn_off_station 0 0 100 example_controller) = [-1].
Proof. repeat split. Qed.

(** Whenever line 525 fires without a master, index -1 is written. *)
Lemma turn_off_station_no_master sid t c :
  retracts_master sid 0 c = true ->
  In (-1) (oob_writes (turn_off_station sid 0 t c)).
Proof.
  intros H. rewrite oob_turn_off_station, H. cbn zeta.
  assert (in_table (scheduled_stop_time (pd c)) (0 - 1) = false) as -> by reflexivity.
  destruct (in_table _ sid); cbn; auto.
Qed.

(** C7 as stated fails: with off-adjust option 60 the master's stop time
    becomes [curr_time], not [curr_time + 60]. *)
Lemma turn_off_station_master_stop_counterexample :
  let c := example_with_master in
  retracts_master 0 (status_mas (status (os c))) c = true
  /\ stop_of (turn_off_station 0 (status_mas (status (os c))) 1000 c) 1
     <> 1000 + OPTION_MASTER_OFF_ADJ (options (os c)).
Proof. split; [reflexivity | vm_compute; discriminate]. Qed.

(** C7 (amended).  When [turn_off_station] is called on a non-master station
    whose activate-master bit is set, in sequential mode and with a master
    configured, the master's scheduled stop time becomes
    [curr_time + OPTION_MASTER_OFF_ADJ - 60] (in [unsigned long] arithmetic),
    whatever it was before. *)
Theorem turn_off_station_master_stop sid mas t c :
  mas <> sid + 1 ->
  bit_is_set (load (masop_bits (os c)) (Z.shiftr sid 3)) (Z.land sid 7) = true ->
  truthy (status_seq (status (os c))) = true ->
  0 < mas ->
  mas - 1 < Z.of_nat (length (scheduled_stop_time (pd c))) ->
  stop_of (turn_off_station sid mas t c) (mas - 1)
  = ulong (t + OPTION_MASTER_OFF_ADJ (options (os c)) - 60).
Proof.
  intros Hmas Hbit Hseq Hpos Hlen. unfold stop_of.
  rewrite stop_turn_off_station. unfold retracts_master.
  rewrite Hbit, Hseq. destruct (Z.eqb_spec mas (sid + 1)); [contradiction|].
  cbn [negb andb]. rewrite load_store_ne by lia.
  apply load_store_eq. apply in_table_true. lia.
Qed.

Lemma turn_off_station_master_stop_witness :
  stop_of (turn_off_station 0 2 1000 example_with_master) (2 - 1)
  = ulong (1000 + OPTION_MASTER_OFF_ADJ (options (os example_with_master)) - 60).
Proof.
  apply turn_off_station_master_stop; [lia | reflexivity | reflexivity | lia | cbn; lia].
Defined.

(** ** turn_off_station on an idle station *)

Lemma store_same t i : load t i = 0 -> store t i 0 = t.
Proof.
  unfold load, store. destruct (in_table t i) eqn:E; [|reflexivity].
  apply in_table_true in E. intros H.
  destruct (lookup_lt_is_Some_2 t (Z.to_nat i) ltac:(lia)) as [v Hv].
  rewrite Hv in H. cbn in H. subst v. apply list_insert_id. exact Hv.
Qed.

Lemma lastrun_turn_off_station sid mas t c :
  lastrun (pd (turn_off_station sid mas t c))
  = if logs_run sid mas t c
    then {| lastrun_station := sid; lastrun_program := index_of c sid;
            lastrun_duration := ulong (t - start_of c sid);
            lastrun_endtime := t |}
    else lastrun (pd c).
Proof. unfold turn_off_station, logs_run. case_ifs; reflexivity. Qed.

(** C6 as stated fails: station 0 is idle, yet turning it off appends a log
    line and rewrites the stop time of the master (sid 1). *)
Lemma turn_off_station_idle_counterexample :
  let c := example_with_master in
  let c' := turn_off_station 0 (status_mas (status (os c))) 1000 c in
  idle c 0
  /\ sd_log c' <> sd_log c
  /\ stop_of c' 1 <> stop_of c 1.
Proof.
  repeat split; vm_compute; discriminate.
Qed.

(** C6 (amended).  On an already idle station [turn_off_station] leaves the
    station idle, and leaves the start-time table, the program-index table
    and every station bit as they were.  It is not a no-op in general: unless
    the station is the master itself, a log record (program 0, duration
    [curr_time]) is produced whenever [curr_time > 0], and in sequential mode
    with the activate-master bit set the stop time at index [mas - 1] is
    overwritten with [curr_time + OPTION_MASTER_OFF_ADJ - 60].  When the
    station is the master itself, the stop-time table, [lastrun] and the log
    are unchanged as well. *)
Theorem turn_off_station_idle sid mas t c :
  idle c sid ->
  let c' := turn_off_station sid mas t c in
  idle c' sid
  /\ scheduled_start_time (pd c') = scheduled_start_time (pd c)
  /\ scheduled_program_index (pd c') = scheduled_program_index (pd c)
  /\ (forall k, station_on c' k = station_on c k)
  /\ scheduled_stop_time (pd c')
     = (if retracts_master sid mas c
        then store (scheduled_stop_time (pd c)) (mas - 1)
               (ulong (t + OPTION_MASTER_OFF_ADJ (options (os c)) - 60))
        else scheduled_stop_time (pd c))
  /\ sd_log c'
     = (if negb (mas =? sid + 1) && (0 <? t) && status_has_sd (status (os c))
        then LOGDATA_STATION 0 sid (ulong t) t :: sd_log c
        else sd_log c)
  /\ (mas = sid + 1 ->
      scheduled_stop_time (pd c') = scheduled_stop_time (pd c)
      /\ lastrun (pd c') = lastrun (pd c)
      /\ sd_log c' = sd_log c).
Proof.
  intros (Hstart & Hstop & Hidx & Hoff) c'.
  assert (Hbits : forall k, station_on c' k = station_on c k).
  { intros k. unfold c', station_on. rewrite os_turn_off_station.
    fold (station_on (set_station_bit sid 0 c) k). fold (station_on c k).
    rewrite station_on_set_station_bit_0.
    destruct (Z.eqb_spec k sid); [subst; symmetry; exact Hoff | reflexivity]. }
  assert (Hst : scheduled_start_time (pd c') = scheduled_start_time (pd c)).
  { unfold c'. rewrite start_turn_off_station. apply store_same. exact Hstart. }
  assert (Hix : scheduled_program_index (pd c') = scheduled_program_index (pd c)).
  { unfold c'. rewrite index_turn_off_station. apply store_same. exact Hidx. }
  assert (Hsp : scheduled_stop_time (pd c')
     = (if retracts_master sid mas c
        then store (scheduled_stop_time (pd c)) (mas - 1)
               (ulong (t + OPTION_MASTER_OFF_ADJ (options (os c)) - 60))
        else scheduled_stop_time (pd c))).
  { unfold c'. rewrite stop_turn_off_station. apply store_same.
    destruct (retracts_master sid mas c) eqn:R; [|exact Hstop].
    rewrite load_store_ne; [exact Hstop|].
    unfold retracts_master in R. destruct (Z.eqb_spec mas (sid + 1)); [discriminate|lia]. }
  assert (Hlog : sd_log c'
     = (if negb (mas =? sid + 1) && (0 <? t) && status_has_sd (status (os c))
        then LOGDATA_STATION 0 sid (ulong t) t :: sd_log c
        else sd_log c)).
  { unfold c'. rewrite sd_log_turn_off_station. unfold logs_run.
    rewrite Hstart, Hidx, Z.sub_0_r. reflexivity. }
  repeat split; try assumption.
  - unfold start_of. rewrite Hst. exact Hstart.
  - unfold stop_of. rewrite Hsp.
    destruct (retracts_master sid mas c) eqn:R; [|exact Hstop].
    rewrite load_store_ne; [exact Hstop|].
    unfold retracts_master in R. destruct (Z.eqb_spec mas (sid + 1)); [discriminate|lia].
  - unfold index_of. rewrite Hix. exact Hidx.
  - rewrite Hbits. exact Hoff.
  - rewrite Hsp. unfold retracts_master. subst mas. rewrite Z.eqb_refl. reflexivity.
  - unfold c'. rewrite lastrun_turn_off_station. unfold logs_run.
    subst mas. rewrite Z.eqb_refl. reflexivity.
  - rewrite Hlog. subst mas. rewrite Z.eqb_refl. reflexivity.
Qed.

Lemma turn_off_station_idle_witness :
  let c := example_with_master in
  let c' := turn_off_station 1 2 1000 c in
  idle c' 1 /\ scheduled_stop_time (pd c') = scheduled_stop_time (pd c)
  /\ sd_log c' = sd_log c.
Proof.
  assert (H : idle example_with_master 1) by (repeat split).
  pose proof (turn_off_station_idle 1 2 1000 example_with_master H) as T.
  cbv zeta in T. destruct T as (Hi & _ & _ & _ & _ & _ & Hm).
  destruct (Hm eq_refl) as (Hs & _ & Hl).
  cbv zeta. exact (conj Hi (conj Hs Hl)).
Defined.

(** ** process_dynamic_events *)

Lemma load_store_0 t i k : load (store t i 0) k = if k =? i then 0 else load t k.
Proof.
  rewrite load_store. rewrite (Z.eqb_sym k i).
  destruct (Z.eqb_spec i k) as [->|]; cbn [andb]; [|reflexivity].
  destruct (in_table t k) eqn:E; [reflexivity|]. apply load_outside. exact E.
Qed.

Lemma station_on_turn_off_station sid mas t c k :
  station_on (turn_off_station sid mas t c) k
  = if k =? sid then false else station_on c k.
Proof.
  unfold station_on at 1. rewrite os_turn_off_station.
  apply station_on_set_station_bit_0.
Qed.

Lemma index_of_turn_off_station sid mas t c k :
  index_of (turn_off_station sid mas t c) k = if k =? sid then 0 else index_of c k.
Proof. unfold index_of. rewrite index_turn_off_station. apply load_store_0. Qed.

Lemma start_of_turn_off_station sid mas t c k :
  start_of (turn_off_station sid mas t c) k = if k =? sid then 0 else start_of c k.
Proof. unfold start_of. rewrite start_turn_off_station. apply load_store_0. Qed.

Lemma stop_of_turn_off_station sid mas t c k :
  k <> mas - 1 ->
  stop_of (turn_off_station sid mas t c) k = if k =? sid then 0 else stop_of c k.
Proof.
  intros Hk. unfold stop_of. rewrite stop_turn_off_station, load_store_0.
  destruct (k =? sid); [reflexivity|].
  destruct (retracts_master sid mas c); [|reflexivity].
  apply load_store_ne. lia.
Qed.

Lemma os_config_turn_off_station sid mas t c :
  os_config (os (turn_off_station sid mas t c)) = os_config (os c).
Proof. rewrite os_turn_off_station. reflexivity. Qed.

Lemma os_reset_schedule_entry sid c : os (reset_schedule_entry sid c) = os c.
Proof. unfold reset_schedule_entry. proj_simpl. reflexivity. Qed.

Lemma sd_log_reset_schedule_entry sid c : sd_log (reset_schedule_entry sid c) = sd_log c.
Proof. unfold reset_schedule_entry. proj_simpl. reflexivity. Qed.

Lemma index_of_reset_schedule_entry sid c k :
  index_of (reset_schedule_entry sid c) k = if k =? sid then 0 else index_of c k.
Proof.
  unfold reset_schedule_entry, index_of. proj_simpl. apply load_store_0.
Qed.

Lemma start_of_reset_schedule_entry sid c k :
  start_of (reset_schedule_entry sid c) k = if k =? sid then 0 else start_of c k.
Proof.
  unfold reset_schedule_entry, start_of. proj_simpl. apply load_store_0.
Qed.

Lemma stop_of_reset_schedule_entry sid c k :
  stop_of (reset_schedule_entry sid c) k = if k =? sid then 0 else stop_of c k.
Proof.
  unfold reset_schedule_entry, stop_of. proj_simpl. apply load_store_0.
Qed.

(** The configuration part of [os_config]. *)
Lemma os_config_fields o o' :
  os_config o' = os_config o ->
  nboards o' = nboards o /\ ignrain_bits o' = ignrain_bits o
  /\ masop_bits o' = masop_bits o /\ options o' = options o /\ status o' = status o.
Proof.
  unfold os_config, with_station_bits. intros H. injection H. intros. auto.
Qed.

(** What one iteration of the inner loop does to the station state. *)
Lemma dynamic_event_station_effect t en rain bid rbits sbits s c :
  let sid := byte (bid * 8 + s) in
  let cond := (index_of c sid <? 99) && (negb en || (rain && negb (bit_is_set rbits s))) in
  let running := bit_is_set sbits s in
  let c' := dynamic_event_station t en rain bid rbits sbits s c in
  os_config (os c') = os_config (os c)
  /\ (forall k, station_on c' k
                = if (k =? sid) && cond && running then false else station_on c k)
  /\ (forall k, index_of c' k
                = if (k =? sid) && cond && (running || (0 <? index_of c sid))
                  then 0 else index_of c k)
  /\ (forall k, start_of c' k
                = if (k =? sid) && cond && (running || (0 <? index_of c sid))
                  then 0 else start_of c k)
  /\ (forall k, k <> status_mas (status (os c)) - 1 ->
                stop_of c' k
                = if (k =? sid) && cond && (running || (0 <? index_of c sid))
                  then 0 else stop_of c k)
  /\ sd_log c'
     = (if cond && running && logs_run sid (status_mas (status (os c))) t c
           && status_has_sd (status (os c))
        then LOGDATA_STATION (index_of c sid) sid (ulong (t - start_of c sid)) t
             :: sd_log c
        else sd_log c).
Proof.
  intros sid cond running c'. unfold c', dynamic_event_station.
  fold sid. fold cond. fold running.
  destruct cond; [|rewrite ?andb_false_r; cbn [andb]; repeat split; auto;
                   intros k; rewrite andb_false_r; reflexivity].
  destruct running; cbn [orb].
  - rewrite os_config_turn_off_station. split; [reflexivity|].
    repeat split; intros.
    + rewrite station_on_turn_off_station, !andb_true_r. reflexivity.
    + rewrite index_of_turn_off_station, !andb_true_r. reflexivity.
    + rewrite start_of_turn_off_station, !andb_true_r. reflexivity.
    + rewrite stop_of_turn_off_station, !andb_true_r by assumption. reflexivity.
    + rewrite sd_log_turn_off_station. reflexivity.
  - destruct (0 <? index_of c sid).
    + rewrite os_reset_schedule_entry. split; [reflexivity|].
      repeat split; intros.
      * rewrite andb_false_r. unfold station_on.
        rewrite os_reset_schedule_entry. reflexivity.
      * rewrite index_of_reset_schedule_entry, !andb_true_r. reflexivity.
      * rewrite start_of_reset_schedule_entry, !andb_true_r. reflexivity.
      * rewrite stop_of_reset_schedule_entry, !andb_true_r. reflexivity.
      * apply sd_log_reset_schedule_entry.
    + repeat split; auto; intros; rewrite andb_false_r; reflexivity.
Qed.

Lemma byte_small x : 0 <= x < 256 -> byte x = x.
Proof. intros H. unfold byte. apply Z.mod_small. change (2 ^ 8) with 256. lia. Qed.

Lemma dyn_inv_start t c : dyn_inv t c 0 c.
Proof.
  constructor; auto; try (intros; lia).
  - intros k _. destruct (Z.leb_spec 0 k), (Z.ltb_spec k 0); try lia; reflexivity.
  - exists []. split; [reflexivity | constructor].
Qed.

Lemma dynamic_event_station_inv c0 t bid rbits sbits s c :
  0 <= bid -> 0 <= s < 8 -> bid * 8 + s < 256 ->
  bit_is_set sbits s = station_on c0 (bid * 8 + s) ->
  rbits = load (ignrain_bits (os c0)) bid ->
  dyn_inv t c0 (bid * 8 + s) c ->
  dyn_inv t c0 (bid * 8 + (s + 1))
    (dynamic_event_station t (status_enabled (status (os c0))) (rain_active c0)
       bid rbits sbits s c).
Proof.
  intros Hbid Hs Hlt Hsb Hrb Inv.
  pose proof (dynamic_event_station_effect t (status_enabled (status (os c0)))
                (rain_active c0) bid rbits sbits s c) as E.
  cbv zeta in E. rewrite byte_small in E by lia.
  remember (bid * 8 + s) as sid eqn:Hsid.
  destruct (dyn_todo _ _ _ _ Inv sid ltac:(lia)) as (Hon0 & Hidx0 & Hst0).
  destruct (os_config_fields _ _ (dyn_config _ _ _ _ Inv)) as (_ & _ & _ & _ & Hstatus).
  assert (Hcond : (index_of c sid <? 99)
                  && (negb (status_enabled (status (os c0)))
                      || (rain_active c0 && negb (bit_is_set rbits s)))
                  = dyn_target c0 sid).
  { unfold dyn_target, override_applies. rewrite Hidx0, Hsid.
    destruct (sid_of_board_bit bid s Hs) as [-> ->]. subst rbits. reflexivity. }
  assert (Hlr : logs_run sid (status_mas (status (os c))) t c
                = logs_run sid (status_mas (status (os c0))) t c0).
  { unfold logs_run. rewrite Hst0, Hstatus. reflexivity. }
  rewrite Hcond, Hsb, Hidx0, Hst0, Hlr, Hstatus in E.
  destruct E as (Ecfg & Eon & Eidx & Est & Esp & Elog).
  constructor.
  - rewrite Ecfg. apply Inv.
  - intros k Hk. rewrite Eon, Eidx, Est.
    destruct (Z.eqb_spec k sid); [lia|]. cbn [andb]. apply Inv. lia.
  - intros k Hk. rewrite Eon.
    destruct (Z.eqb_spec k sid) as [->|Hne]; cbn [andb].
    + rewrite Hon0.
      destruct (dyn_target c0 sid), (station_on c0 sid); reflexivity.
    + apply Inv. lia.
  - intros k Hk. rewrite Eidx.
    destruct (Z.eqb_spec k sid) as [->|Hne]; cbn [andb].
    + rewrite Hidx0. destruct (dyn_target c0 sid && _); reflexivity.
    + apply Inv. lia.
  - intros k Hk. rewrite Est.
    destruct (Z.eqb_spec k sid) as [->|Hne]; cbn [andb].
    + rewrite Hst0. destruct (dyn_target c0 sid && _); reflexivity.
    + apply Inv. lia.
  - intros k Hk. rewrite (Esp k Hk), (dyn_stop _ _ _ _ Inv k Hk).
    destruct (Z.eqb_spec k sid) as [->|Hne]; cbn [andb].
    + destruct (Z.leb_spec 0 sid), (Z.ltb_spec sid sid), (Z.ltb_spec sid (bid * 8 + (s + 1)));
        try lia. cbn [andb]. reflexivity.
    + destruct (Z.leb_spec 0 k), (Z.ltb_spec k sid), (Z.ltb_spec k (bid * 8 + (s + 1)));
        try lia; reflexivity.
  - destruct (dyn_log _ _ _ _ Inv) as (new & Hnew & Hall). rewrite Elog.
    destruct (dyn_target c0 sid && station_on c0 sid) eqn:Hc; cbn [andb];
      [|exists new; split; assumption].
    destruct (logs_run _ _ _ _ && _); [|exists new; split; assumption].
    eexists (_ :: new). split.
    + rewrite Hnew. reflexivity.
    + constructor; [|assumption]. cbn. apply andb_true_iff in Hc. apply Hc.
  - intros k Hk Ht Hr Hl Hsd. rewrite Elog.
    destruct (Z.eqb_spec k sid) as [->|Hne].
    + rewrite Ht, Hr, Hl, Hsd. cbn. left. reflexivity.
    + assert (In (LOGDATA_STATION (index_of c0 k) k (ulong (t - start_of c0 k)) t)
                 (sd_log c)) as HIn by (apply (dyn_logged _ _ _ _ Inv); auto; lia).
      destruct (_ && _); [right|]; exact HIn.
Qed.

Lemma dynamic_event_board_inv c0 t bid c :
  0 <= bid -> bid * 8 + 8 <= 256 ->
  dyn_inv t c0 (bid * 8) c ->
  dyn_inv t c0 ((bid + 1) * 8)
    (dynamic_event_board t (status_enabled (status (os c0))) (rain_active c0) bid c).
Proof.
  intros Hbid Hlt Inv. unfold dynamic_event_board.
  replace ((bid + 1) * 8) with (bid * 8 + 8) by lia.
  apply (for_loop_inv (fun s x => dyn_inv t c0 (bid * 8 + s) x)); [lia | |].
  - rewrite Z.add_0_r. exact Inv.
  - intros s x Hs Hx. apply dynamic_event_station_inv; try lia; try assumption.
    + destruct (dyn_todo _ _ _ _ Inv (bid * 8 + s) ltac:(lia)) as (Hon & _).
      rewrite <- Hon. unfold station_on.
      destruct (sid_of_board_bit bid s Hs) as [-> ->]. reflexivity.
    + destruct (os_config_fields _ _ (dyn_config _ _ _ _ Inv)) as (_ & -> & _). reflexivity.
Qed.

Lemma process_dynamic_events_inv t c :
  0 <= nboards (os c) <= 32 ->
  dyn_inv t c (8 * nboards (os c)) (process_dynamic_events t c).
Proof.
  intros Hn. unfold process_dynamic_events.
  replace (8 * nboards (os c)) with (nboards (os c) * 8) by lia.
  apply (for_loop_inv (fun b x => dyn_inv t c (b * 8) x)); [lia | |].
  - apply dyn_inv_start.
  - intros b x Hb Hx. apply dynamic_event_board_inv; [lia | lia | exact Hx].
Qed.

Lemma os_relay_on bid s c : os (relay_on bid s c) = os c.
Proof. unfold relay_on. case_ifs; reflexivity. Qed.

Lemma pd_relay_on bid s c : pd (relay_on bid s c) = pd c.
Proof. unfold relay_on. case_ifs; reflexivity. Qed.

(** ** Frame: what the station functions leave alone in [os]

    [view] is any part of the [os] object that does not depend on the
    station bits, such as [os_config] or [override_inputs]. *)

Section Frame.

Context {V : Type} (view : OpenSprinkler -> V).
Hypothesis view_station_bits : forall b o, view (with_station_bits b o) = view o.

Lemma view_for_loop {A} (proj : A -> Controller) n (body : Z -> A -> A) a :
  (forall i x, view (os (proj (body i x))) = view (os (proj x))) ->
  view (os (proj (for_loop n body a))) = view (os (proj a)).
Proof.
  intros H.
  apply (for_loop_preserves (fun x => view (os (proj x)) = view (os (proj a))));
    [reflexivity|].
  intros i x _ Hx. rewrite H. exact Hx.
Qed.

Lemma view_set_station_bit sid v c :
  view (os (set_station_bit sid v c)) = view (os c).
Proof using view_station_bits. apply view_station_bits. Qed.

Lemma view_clear_all_station_bits c :
  view (os (clear_all_station_bits c)) = view (os c).
Proof using view_station_bits. apply view_station_bits. Qed.

Lemma view_turn_off_station sid mas t c :
  view (os (turn_off_station sid mas t c)) = view (os c).
Proof using view_station_bits.
  rewrite os_turn_off_station. apply view_set_station_bit.
Qed.

Ltac view_simpl :=
  repeat first
    [ rewrite view_set_station_bit | rewrite view_turn_off_station
    | rewrite os_set_index | rewrite os_set_stop | rewrite os_set_start
    | rewrite os_write_log_station | rewrite os_reset_schedule_entry ].

Lemma view_dynamic_event_station t en rain bid rbits sbits s c :
  view (os (dynamic_event_station t en rain bid rbits sbits s c)) = view (os c).
Proof using view_station_bits.
  unfold dynamic_event_station. repeat case_if; view_simpl; reflexivity.
Qed.

Lemma view_process_dynamic_events t c :
  view (os (process_dynamic_events t c)) = view (os c).
Proof using view_station_bits.
  unfold process_dynamic_events.
  apply (view_for_loop (fun x => x)). intros b x. unfold dynamic_event_board.
  apply (view_for_loop (fun x => x)). intros. apply view_dynamic_event_station.
Qed.

Lemma view_schedule_master t sid c :
  view (os (schedule_master t sid c)) = view (os c).
Proof using view_station_bits.
  unfold schedule_master. cbv zeta.
  match goal with |- context [if ?b then _ else _] => destruct b end;
    view_simpl; reflexivity.
Qed.

Lemma view_relay_on bid s c : view (os (relay_on bid s c)) = view (os c).
Proof. rewrite os_relay_on. reflexivity. Qed.

Lemma view_run_station t bid bitvalue s c :
  view (os (run_station t bid bitvalue s c)) = view (os c).
Proof using view_station_bits.
  unfold run_station. cbv zeta.
  repeat first [ rewrite view_relay_on | rewrite view_schedule_master
               | progress view_simpl | case_if ];
    reflexivity.
Qed.

Lemma view_run_stations t c : view (os (run_stations t c)) = view (os c).
Proof using view_station_bits.
  unfold run_stations.
  apply (view_for_loop (fun x => x)). intros b x. unfold run_board.
  apply (view_for_loop (fun x => x)). intros. apply view_run_station.
Qed.

Lemma view_master_parallel c : view (os (master_parallel c)) = view (os c).
Proof using view_station_bits.
  unfold master_parallel. case_if; view_simpl; reflexivity.
Qed.

Lemma view_match_station decode pid prog sid cm :
  view (os (fst (match_station decode pid prog sid cm))) = view (os (fst cm)).
Proof.
  unfold match_station. cbv zeta.
  repeat first [ progress (cbn [fst]; view_simpl) | case_if ]; reflexivity.
Qed.

Lemma view_match_programs decode t c :
  view (os (fst (match_programs decode t c))) = view (os c).
Proof.
  unfold match_programs. apply (view_for_loop fst (nprograms (pd c)) _ (c, false)).
  intros pid x. unfold match_program.
  destruct (programs (pd (fst x)) !! Z.to_nat pid); [|reflexivity].
  destruct (check_match _ _); [|reflexivity].
  apply (view_for_loop fst). intros. apply view_match_station.
Qed.

(** The functions below also assign [program_busy], [seq] and [mas]. *)

Hypothesis view_program_busy :
  forall b o, view (with_status (with_program_busy b) o) = view o.
Hypothesis view_seq_mas :
  forall sq ms o, view (with_status (with_seq_mas sq ms) o) = view o.

Lemma view_upd_program_busy b c :
  view (os (upd_status (with_program_busy b) c)) = view (os c).
Proof using view_program_busy. apply view_program_busy. Qed.

Lemma view_upd_seq_mas sq ms c :
  view (os (upd_status (with_seq_mas sq ms) c)) = view (os c).
Proof using view_seq_mas. apply view_seq_mas. Qed.

Lemma view_update_program_busy c :
  view (os (update_program_busy c)) = view (os c).
Proof using view_station_bits view_program_busy view_seq_mas.
  unfold update_program_busy.
  assert (H : forall a, view (os (fst (for_loop (nstations (os c)) last_stop_station a)))
                   = view (os (fst a))).
  { intros a. apply (view_for_loop fst). intros i x.
    unfold last_stop_station. case_ifs; reflexivity. }
  destruct (snd _).
  - rewrite H. reflexivity.
  - cbv zeta. rewrite view_upd_seq_mas, view_upd_program_busy,
      view_clear_all_station_bits, H.
    reflexivity.
Qed.

Lemma view_run_program_data t c :
  view (os (run_program_data t c)) = view (os c).
Proof using view_station_bits view_program_busy view_seq_mas.
  unfold run_program_data. destruct (status_program_busy _); [|reflexivity].
  rewrite view_update_program_busy. unfold apply_all_station_bits. cbn [os with_valves].
  rewrite view_process_dynamic_events. apply view_run_stations.
Qed.

Lemma view_schedule_all_stations decode t sq c :
  view (os (schedule_all_stations decode t sq c)) = view (os c).
Proof using view_program_busy.
  unfold schedule_all_stations.
  apply (view_for_loop fst (nstations (os c)) _ (c, _)).
  intros i x. unfold schedule_station. cbv zeta.
  repeat first [ rewrite view_upd_program_busy | progress (cbn [fst]; view_simpl)
               | case_if ];
    reflexivity.
Qed.

Lemma view_schedule_program_data decode t c :
  view (os (schedule_program_data decode t c)) = view (os c).
Proof using view_program_busy.
  unfold schedule_program_data. destruct (negb _); [|reflexivity].
  destruct (snd _).
  - rewrite view_schedule_all_stations, view_match_programs. reflexivity.
  - rewrite view_match_programs. reflexivity.
Qed.

Lemma view_loop_second decode t c :
  exists c2,
    loop_second decode t c = apply_all_station_bits (process_dynamic_events t c2)
    /\ view (os c2) = view (os c).
Proof using view_station_bits view_program_busy view_seq_mas.
  eexists. split; [reflexivity|].
  rewrite view_master_parallel, view_run_program_data.
  apply view_schedule_program_data.
Qed.

End Frame.

Lemma override_applies_inputs c c' sid :
  override_inputs (os c') = override_inputs (os c) ->
  override_applies c' sid = override_applies c sid.
Proof.
  unfold override_inputs, override_applies, rain_active. intros H.
  injection H. intros -> -> -> -> -> _ _. reflexivity.
Qed.

Lemma loop_second_ends_with_override_pass decode t c :
  exists c2,
    loop_second decode t c = apply_all_station_bits (process_dynamic_events t c2)
    /\ override_inputs (os c2) = override_inputs (os c).
Proof. apply view_loop_second; reflexivity. Qed.

(** ** Override precedence *)



(** ** Master station scheduling in sequential mode *)

Lemma wf_in_tables c k :
  wf_controller c -> 0 <= k < nstations (os c) ->
  in_table (scheduled_start_time (pd c)) k = true
  /\ in_table (scheduled_stop_time (pd c)) k = true
  /\ in_table (scheduled_program_index (pd c)) k = true
  /\ in_table (station_bits (os c)) (Z.shiftr k 3) = true.
Proof.
  intros W Hk. destruct W. rewrite !in_table_true.
  repeat split; try lia.
  - apply Z.shiftr_nonneg. lia.
  - rewrite Z.shiftr_div_pow2 by lia. change (2 ^ 3) with 8.
    apply Z.div_lt_upper_bound; lia.
Qed.

(** The schedule entry and station bits left by [schedule_master]. *)
Lemma schedule_master_effect t sid c :
  let masid := byte (status_mas (status (os c)) - 1) in
  let mstart := ulong (start_of c sid + OPTION_MASTER_ON_ADJ (options (os c))) in
  let mstop := ulong (stop_of c sid + OPTION_MASTER_OFF_ADJ (options (os c)) - 60) in
  let c' := schedule_master t sid c in
  in_table (scheduled_start_time (pd c)) masid = true ->
  in_table (scheduled_stop_time (pd c)) masid = true ->
  in_table (scheduled_program_index (pd c)) masid = true ->
  in_table (station_bits (os c)) (Z.shiftr masid 3) = true ->
  (forall k, start_of c' k = if k =? masid then mstart else start_of c k)
  /\ (forall k, stop_of c' k = if k =? masid then mstop else stop_of c k)
  /\ (forall k, index_of c' k = if k =? masid then index_of c sid else index_of c k)
  /\ (forall k, station_on c' k
                = if (k =? masid) && (mstart <=? t) && (t <? mstop)
                  then true else station_on c k).
Proof.
  intros masid mstart mstop c' Hst Hsp Hix Hbit.
  set (c1 := set_start masid mstart c).
  set (c2 := set_stop masid mstop c1).
  set (c3 := set_index masid (index_of c2 sid) c2).
  assert (E0 : forall k, index_of c2 k = index_of c k).
  { intros k. unfold c2, c1, index_of. proj_simpl. reflexivity. }
  assert (E1 : forall k, start_of c3 k = if k =? masid then mstart else start_of c k).
  { intros k. unfold c3, c2, c1, start_of. proj_simpl.
    rewrite load_store, Hst, andb_true_r, (Z.eqb_sym masid k). reflexivity. }
  assert (E2 : forall k, stop_of c3 k = if k =? masid then mstop else stop_of c k).
  { intros k. unfold c3, c2, c1, stop_of. proj_simpl.
    rewrite load_store, Hsp, andb_true_r, (Z.eqb_sym masid k). reflexivity. }
  assert (E3 : forall k, index_of c3 k = if k =? masid then index_of c sid else index_of c k).
  { intros k. unfold c3. rewrite index_of_set_index, !E0.
    assert (scheduled_program_index (pd c2) = scheduled_program_index (pd c)) as ->
      by (unfold c2, c1; proj_simpl; reflexivity).
    rewrite Hix, andb_true_r, (Z.eqb_sym masid k). reflexivity. }
  assert (Eos : os c3 = os c).
  { unfold c3, c2, c1. rewrite os_set_index, os_set_stop. reflexivity. }
  assert (Hc' : c' = if (start_of c3 masid <=? t) && (t <? stop_of c3 masid)
                     then set_station_bit masid 1 c3 else c3) by reflexivity.
  rewrite E1, E2, Z.eqb_refl in Hc'. rewrite Hc'.
  destruct ((mstart <=? t) && (t <? mstop)) eqn:W.
  - repeat split; intros k;
      rewrite ?start_of_set_station_bit, ?stop_of_set_station_bit,
        ?index_of_set_station_bit; auto.
    rewrite station_on_set_station_bit_1 by (rewrite ?Eos; auto).
    rewrite <- andb_assoc, W, andb_true_r.
    destruct (k =? masid); [reflexivity|]. unfold station_on. rewrite Eos. reflexivity.
  - repeat split; intros k; auto.
    rewrite <- andb_assoc, W, andb_false_r. unfold station_on. rewrite Eos. reflexivity.
Qed.

Lemma if_same {A} (b : bool) (x : A) : (if b then x else x) = x.
Proof. destruct b; reflexivity. Qed.

(** The copy [bitvalue] taken by [run_board] tells whether the station is on
    when the board's loop starts. *)
Lemma run_board_bitvalue bid s c :
  0 <= s < 8 ->
  truthy (Z.land (Z.shiftr (load (station_bits (os c)) bid) s) 1)
  = station_on c (bid * 8 + s).
Proof.
  intros Hs. rewrite shiftr_land_1 by lia. unfold station_on.
  destruct (sid_of_board_bit bid s Hs) as [-> ->].
  symmetry. apply bit_is_set_testbit. lia.
Qed.

(** A station that opens in sequential mode and activates the master runs
    [schedule_master]. *)
Lemma run_station_opens t bid bitvalue s c :
  0 <= bid -> 0 <= s < 8 -> bid * 8 + s < 256 ->
  let sid := bid * 8 + s in
  let mas := status_mas (status (os c)) in
  truthy (Z.land (Z.shiftr bitvalue s) 1) = false ->
  start_of c sid <= t < stop_of c sid ->
  0 < mas -> mas <> sid + 1 ->
  bit_is_set (load (masop_bits (os c)) bid) s = true ->
  truthy (status_seq (status (os c))) = true ->
  run_station t bid bitvalue s c
  = relay_on bid s (schedule_master t sid (set_station_bit sid 1 c)).
Proof.
  intros Hbid Hs Hlt sid mas Hoff Hwin Hmas Hne Hmasop Hseq.
  unfold run_station. rewrite byte_small by lia. fold sid. cbv zeta.
  assert ((stop_of c sid <=? t) = false) as -> by (apply Z.leb_gt; lia).
  rewrite !if_same, Hoff.
  assert ((start_of c sid <=? t) = true) as -> by (apply Z.leb_le; lia).
  assert ((t <? stop_of c sid) = true) as -> by (apply Z.ltb_lt; lia).
  cbn [negb andb]. rewrite masop_set_station_bit, status_set_station_bit.
  fold mas. rewrite Hmasop, Hseq.
  assert ((0 <? mas) = true) as -> by (apply Z.ltb_lt; lia).
  destruct (Z.eqb_spec mas (sid + 1)); [contradiction|]. reflexivity.
Qed.

(** C3.  A station with window [S, E) that opens (its bit is clear in the
    board's copy and S <= curr_time < E) in sequential mode, with a master
    configured, its activate-master bit set and not itself the master, gives
    the master the schedule entry start = S + a, stop = E + b - 60 with the
    station's program index, where a and b are the master on and off adjust
    options; the sums are [unsigned long] sums and are the exact integers
    whenever these fit.  If curr_time lies in the master's window, the
    master's station bit is set in the same iteration. *)
Theorem run_station_schedules_master t bid bitvalue s c :
  wf_controller c -> 0 <= bid < nboards (os c) -> 0 <= s < 8 ->
  let sid := bid * 8 + s in
  let mas := status_mas (status (os c)) in
  let S := start_of c sid in
  let E := stop_of c sid in
  let a := OPTION_MASTER_ON_ADJ (options (os c)) in
  let b := OPTION_MASTER_OFF_ADJ (options (os c)) in
  truthy (Z.land (Z.shiftr bitvalue s) 1) = false ->
  S <= t < E ->
  0 < mas <= nstations (os c) -> mas <> sid + 1 ->
  bit_is_set (load (masop_bits (os c)) bid) s = true ->
  truthy (status_seq (status (os c))) = true ->
  let c' := run_station t bid bitvalue s c in
  station_on c' sid = true
  /\ start_of c' (mas - 1) = ulong (S + a)
  /\ stop_of c' (mas - 1) = ulong (E + b - 60)
  /\ index_of c' (mas - 1) = index_of c sid
  /\ (ulong (S + a) <= t < ulong (E + b - 60) -> station_on c' (mas - 1) = true)
  /\ (0 <= S + a < 2 ^ 32 -> start_of c' (mas - 1) = S + a)
  /\ (0 <= E + b - 60 < 2 ^ 32 -> stop_of c' (mas - 1) = E + b - 60).
Proof.
  intros W Hbid Hs sid mas S E a b Hoff Hwin Hmas Hne Hmasop Hseq c'.
  pose proof (wf_nboards _ W) as Hnb. pose proof (wf_nstations _ W) as Hns.
  assert (Hsid : 0 <= sid < nstations (os c)) by (unfold sid; lia).
  unfold c'. rewrite run_station_opens by (try assumption; lia).
  fold sid. set (c1 := set_station_bit sid 1 c).
  destruct (wf_in_tables c (mas - 1) W ltac:(lia)) as (T1 & T2 & T3 & T4).
  destruct (wf_in_tables c sid W Hsid) as (_ & _ & _ & T5).
  assert (Hmasid : byte (status_mas (status (os c1)) - 1) = mas - 1).
  { unfold c1. rewrite status_set_station_bit. apply byte_small. fold mas. lia. }
  pose proof (schedule_master_effect t sid c1) as Eff. cbv zeta in Eff.
  rewrite Hmasid in Eff.
  destruct Eff as (E1 & E2 & E3 & E4); try assumption.
  { unfold c1, set_station_bit. cbn. rewrite in_table_store. exact T4. }
  assert (Hon1 : forall k, station_on c1 k = if k =? sid then true else station_on c k).
  { intros k. unfold c1. apply station_on_set_station_bit_1; [reflexivity | exact T5]. }
  assert (Hstart : start_of (relay_on bid s (schedule_master t sid c1)) (mas - 1)
                   = ulong (S + a)).
  { unfold start_of at 1. rewrite pd_relay_on. fold (start_of (schedule_master t sid c1) (mas - 1)).
    rewrite E1, Z.eqb_refl. reflexivity. }
  assert (Hstop : stop_of (relay_on bid s (schedule_master t sid c1)) (mas - 1)
                  = ulong (E + b - 60)).
  { unfold stop_of at 1. rewrite pd_relay_on. fold (stop_of (schedule_master t sid c1) (mas - 1)).
    rewrite E2, Z.eqb_refl. reflexivity. }
  assert (Hbits : forall k, station_on (relay_on bid s (schedule_master t sid c1)) k
                            = station_on (schedule_master t sid c1) k).
  { intros k. unfold station_on. rewrite os_relay_on. reflexivity. }
  repeat split.
  - rewrite Hbits, E4, Hon1, Z.eqb_refl. destruct (_ && _); reflexivity.
  - exact Hstart.
  - exact Hstop.
  - unfold index_of at 1. rewrite pd_relay_on.
    fold (index_of (schedule_master t sid c1) (mas - 1)).
    rewrite E3, Z.eqb_refl. reflexivity.
  - intros [Hlo Hhi]. rewrite Hbits, E4, Z.eqb_refl. cbn [andb].
    change (start_of c1 sid) with S. change (stop_of c1 sid) with E.
    change (options (os c1)) with (options (os c)). fold a. fold b.
    assert ((ulong (S + a) <=? t) = true) as -> by (apply Z.leb_le; lia).
    assert ((t <? ulong (E + b - 60)) = true) as -> by (apply Z.ltb_lt; lia).
    reflexivity.
  - intros Hfit. rewrite Hstart. unfold ulong. apply Z.mod_small. exact Hfit.
  - intros Hfit. rewrite Hstop. unfold ulong. apply Z.mod_small. exact Hfit.
Qed.

Lemma run_station_schedules_master_witness :
  let c' := run_station 100 0 0 0 example_queued in
  station_on c' 0 = true
  /\ start_of c' (2 - 1) = 100 /\ stop_of c' (2 - 1) = 700
  /\ index_of c' (2 - 1) = 1 /\ station_on c' (2 - 1) = true.
Proof.
  assert (W : wf_controller example_queued)
    by (constructor; [change (0 <= 1 <= 32); lia | reflexivity ..]).
  pose proof (run_station_schedules_master 100 0 0 0 example_queued W
                ltac:(change (0 <= 0 < 1); lia) ltac:(lia) eq_refl
                ltac:(change (100 <= 100 < 700); lia)
                ltac:(change (0 < 2 <= 8); lia)
                ltac:(change (2 <> 0 * 8 + 0 + 1); lia) eq_refl eq_refl) as H.
  cbv zeta in H. destruct H as (H1 & H2 & H3 & H4 & H5 & _).
  refine (conj H1 (conj H2 (conj H3 (conj H4 (H5 _))))).
  change (100 <= 100 < 700). lia.
Defined.

(** ** The busy bit *)

Lemma pending_stop_true sst : pending_stop sst = true <-> 0 < sst < ULONG_MAX.
Proof. unfold pending_stop. rewrite andb_true_iff, !Z.ltb_lt. tauto. Qed.

(** The loop of lines 351-358 only assigns [pd.last_stop_time], and reports
    whether some station has a pending stop time. *)
Lemma last_stop_loop c n :
  let r := for_loop n last_stop_station (c, false) in
  os (fst r) = os c
  /\ scheduled_stop_time (pd (fst r)) = scheduled_stop_time (pd c)
  /\ (snd r = true <-> some_pending c n).
Proof.
  cbv zeta. destruct (Z.le_gt_cases 0 n) as [Hn|Hn].
  - apply (for_loop_inv (fun i r =>
        os (fst r) = os c
        /\ scheduled_stop_time (pd (fst r)) = scheduled_stop_time (pd c)
        /\ (snd r = true <-> some_pending c i))); [exact Hn | |].
    + repeat split; [discriminate|]. intros (sid & Hs & _). lia.
    + intros i x Hi (Hos & Hst & Hiff). unfold last_stop_station.
      assert (Hsst : stop_of (fst x) i = stop_of c i) by (unfold stop_of; rewrite Hst; reflexivity).
      rewrite Hsst. destruct (pending_stop (stop_of c i)) eqn:P.
      * cbn. repeat split; try assumption.
        intros _. exists i. split; [lia|]. apply pending_stop_true. exact P.
      * repeat split; try assumption.
        -- intros H. apply Hiff in H. destruct H as (sid & Hs & Hp).
           exists sid. split; [lia | exact Hp].
        -- intros (sid & Hs & Hp). apply Hiff.
           destruct (Z.eq_dec sid i) as [->|Hne].
           ++ apply pending_stop_true in Hp. congruence.
           ++ exists sid. split; [lia | exact Hp].
  - rewrite for_loop_0 by lia. repeat split; [discriminate|].
    intros (sid & Hs & _). lia.
Qed.

Lemma station_on_clear_all_station_bits c k :
  station_on (clear_all_station_bits c) k = false.
Proof.
  unfold station_on, clear_all_station_bits. cbn.
  assert (H : forall l i, load (map (fun _ : Z => 0) l) i = 0).
  { intros l i. unfold load. destruct (in_table _ i); [|reflexivity].
    rewrite list_lookup_fmap. destruct (l !! Z.to_nat i); reflexivity. }
  rewrite H. apply bit_is_set_0.
Qed.

Lemma update_program_busy_spec c :
  let c' := update_program_busy c in
  nstations (os c') = nstations (os c)
  /\ scheduled_stop_time (pd c') = scheduled_stop_time (pd c)
  /\ ((some_pending c (nstations (os c)) /\ os c' = os c)
      \/ (~ some_pending c (nstations (os c))
          /\ status_program_busy (status (os c')) = false
          /\ forall k, station_on c' k = false)).
Proof.
  cbv zeta. unfold update_program_busy.
  pose proof (last_stop_loop (upd_pd (with_last_stop_time 0) c) (nstations (os c)))
    as (Hos & Hst & Hiff).
  cbv zeta in Hos, Hst, Hiff. change (os (upd_pd (with_last_stop_time 0) c)) with (os c) in *.
  change (scheduled_stop_time (pd (upd_pd (with_last_stop_time 0) c)))
    with (scheduled_stop_time (pd c)) in Hst.
  change (some_pending (upd_pd (with_last_stop_time 0) c) (nstations (os c)))
    with (some_pending c (nstations (os c))) in Hiff.
  destruct (for_loop (nstations (os c)) last_stop_station
              (upd_pd (with_last_stop_time 0) c, false)) as [c1 b].
  cbn [fst snd] in *. destruct b.
  - rewrite Hos, Hst. repeat split. left. split; [apply Hiff; reflexivity | reflexivity].
  - split; [change (nstations (os c1) = nstations (os c)); rewrite Hos; reflexivity|].
    split; [exact Hst|].
    right. split; [|split; [reflexivity|]].
    + intros H. apply Hiff in H. discriminate.
    + intros k. apply (station_on_clear_all_station_bits c1 k).
Qed.




(** ** The program matcher *)

Lemma truthy_false x : truthy x = false <-> x = 0.
Proof. unfold truthy. rewrite negb_false_iff, Z.eqb_eq. tauto. Qed.

(** One iteration of the station loop only touches the stop time and program
    index of its own station, and only when the program claims it. *)
Lemma match_station_effect decode pid prog sid c mf :
  let c' := fst (match_station decode pid prog sid (c, mf)) in
  in_table (scheduled_stop_time (pd c)) sid = true ->
  in_table (scheduled_program_index (pd c)) sid = true ->
  os c' = os c
  /\ programs (pd c') = programs (pd c)
  /\ scheduled_start_time (pd c') = scheduled_start_time (pd c)
  /\ length (scheduled_stop_time (pd c')) = length (scheduled_stop_time (pd c))
  /\ length (scheduled_program_index (pd c')) = length (scheduled_program_index (pd c))
  /\ (forall k, stop_of c' k = if (k =? sid) && claims decode c prog sid
                               then scaled_water_time decode c prog sid
                               else stop_of c k)
  /\ (forall k, index_of c' k = if (k =? sid) && claims decode c prog sid
                                then byte (pid + 1) else index_of c k)
  /\ snd (match_station decode pid prog sid (c, mf)) = mf || claims decode c prog sid.
Proof.
  intros c' Hst Hix. unfold c', match_station, claims. cbn [fst snd].
  fold (matcher_skips c sid).
  destruct (matcher_skips c sid); cbn [negb andb fst snd];
    [repeat split; intros; rewrite ?andb_false_r, ?orb_false_r; reflexivity|].
  destruct (truthy (load (durations prog) sid)); cbn [andb snd];
    [|repeat split; intros; rewrite ?andb_false_r, ?orb_false_r; reflexivity].
  destruct (truthy (stop_of c sid)) eqn:Hs0; cbn [negb andb snd];
    [repeat split; intros; rewrite ?andb_false_r, ?orb_false_r; reflexivity|].
  apply truthy_false in Hs0.
  set (w := scaled_water_time decode c prog sid).
  assert (Hw : forall k, stop_of (set_stop sid w c) k = if k =? sid then w else stop_of c k).
  { intros k. rewrite stop_of_set_stop, Hst, andb_true_r, (Z.eqb_sym sid k). reflexivity. }
  rewrite Hw, Z.eqb_refl.
  assert (Hi : forall k v, index_of (set_index sid v (set_stop sid w c)) k
                           = if k =? sid then v else index_of c k).
  { intros k v. rewrite index_of_set_index, pd_set_stop.
    cbn [with_stop scheduled_program_index]. rewrite Hix, andb_true_r, (Z.eqb_sym sid k).
    unfold index_of. rewrite pd_set_stop. destruct (k =? sid); reflexivity. }
  destruct (truthy w) eqn:Tw; cbn [fst snd].
  - split; [rewrite os_set_index, os_set_stop; reflexivity|].
    split; [proj_simpl; reflexivity|]. split; [proj_simpl; reflexivity|].
    split; [proj_simpl; apply length_store|].
    split; [proj_simpl; apply length_store|].
    split; [|split; [|rewrite orb_true_r; reflexivity]]; intros k; rewrite andb_true_r.
    + change (stop_of (set_index sid (byte (pid + 1)) (set_stop sid w c)) k)
        with (stop_of (set_stop sid w c) k). apply Hw.
    + apply Hi.
  - split; [apply os_set_stop|].
    split; [proj_simpl; reflexivity|]. split; [proj_simpl; reflexivity|].
    split; [proj_simpl; apply length_store|].
    split; [proj_simpl; reflexivity|].
    split; [|split; [|rewrite orb_false_r; reflexivity]]; intros k; rewrite andb_false_r.
    + rewrite Hw. apply truthy_false in Tw.
      destruct (Z.eqb_spec k sid); [subst; congruence | reflexivity].
    + unfold index_of. rewrite pd_set_stop. reflexivity.
Qed.

Lemma same_frame_refl c : same_frame c c.
Proof. repeat split. Qed.

Lemma same_frame_trans c1 c2 c3 :
  same_frame c1 c2 -> same_frame c2 c3 -> same_frame c1 c3.
Proof.
  intros (A1 & A2 & A3 & A4 & A5) (B1 & B2 & B3 & B4 & B5).
  repeat split; congruence.
Qed.

Lemma wf_same_frame c c' : wf_controller c -> same_frame c c' -> wf_controller c'.
Proof.
  intros [] (A1 & A2 & A3 & A4 & A5). constructor; rewrite ?A1, ?A3, ?A4, ?A5; assumption.
Qed.

Lemma claims_ext decode c c' prog k :
  os c' = os c -> stop_of c' k = stop_of c k ->
  claims decode c' prog k = claims decode c prog k
  /\ scaled_water_time decode c' prog k = scaled_water_time decode c prog k.
Proof.
  intros Hos Hst. unfold claims, matcher_skips, scaled_water_time.
  rewrite Hos, Hst. split; reflexivity.
Qed.

(** The station loop for one program. *)
Lemma match_stations_effect decode pid prog c mf :
  wf_controller c ->
  let c' := fst (for_loop (nstations (os c)) (match_station decode pid prog) (c, mf)) in
  same_frame c c'
  /\ (forall k, stop_of c' k
                = if (0 <=? k) && (k <? nstations (os c)) && claims decode c prog k
                  then scaled_water_time decode c prog k else stop_of c k)
  /\ (forall k, index_of c' k
                = if (0 <=? k) && (k <? nstations (os c)) && claims decode c prog k
                  then byte (pid + 1) else index_of c k)
  /\ (snd (for_loop (nstations (os c)) (match_station decode pid prog) (c, mf)) = true
      <-> mf = true
          \/ exists k, 0 <= k < nstations (os c) /\ claims decode c prog k = true).
Proof.
  intros W. cbv zeta.
  pose proof (wf_nboards _ W) as Hnb. pose proof (wf_nstations _ W) as Hns.
  apply (for_loop_inv (fun i x =>
    same_frame c (fst x)
    /\ (forall k, stop_of (fst x) k
                  = if (0 <=? k) && (k <? i) && claims decode c prog k
                    then scaled_water_time decode c prog k else stop_of c k)
    /\ (forall k, index_of (fst x) k
                  = if (0 <=? k) && (k <? i) && claims decode c prog k
                    then byte (pid + 1) else index_of c k)
    /\ (snd x = true
        <-> mf = true \/ exists k, 0 <= k < i /\ claims decode c prog k = true)));
    [lia | |].
  - split; [apply same_frame_refl|]. cbn [fst snd].
    split; [|split];
      [intros k; destruct (Z.leb_spec 0 k), (Z.ltb_spec k 0); try lia; reflexivity ..|].
    split; [auto|]. intros [H|(k & Hk & _)]; [exact H | lia].
  - intros i [ci mfi] Hi (Hf & Hs & Hx & Hfound). cbn [fst snd] in *.
    pose proof (wf_same_frame _ _ W Hf) as Wi.
    destruct Hf as (Hos & Hf').
    assert (Hin : 0 <= i < nstations (os ci)) by (rewrite Hos; exact Hi).
    destruct (wf_in_tables ci i Wi Hin) as (_ & T2 & T3 & _).
    destruct (match_station_effect decode pid prog i ci mfi T2 T3)
      as (E1 & E2 & E3 & E4 & E5 & E6 & E7 & E8).
    assert (Hsi : stop_of ci i = stop_of c i).
    { rewrite Hs. destruct (Z.ltb_spec i i); [lia|].
      rewrite andb_false_r. reflexivity. }
    destruct (claims_ext decode c ci prog i Hos Hsi) as (Hc & Hw).
    rewrite Hc, Hw in E6. rewrite Hc in E7.
    rewrite Hc in E8.
    split; [apply (same_frame_trans c ci); repeat split; tauto|].
    split; [|split]; [intros k ..|].
    + rewrite E6, Hs.
      destruct (Z.eqb_spec k i) as [->|Hne]; cbn [andb].
      * destruct (Z.leb_spec 0 i), (Z.ltb_spec i (i + 1)), (Z.ltb_spec i i); try lia.
        cbn [andb]. destruct (claims decode c prog i); reflexivity.
      * destruct (Z.leb_spec 0 k), (Z.ltb_spec k (i + 1)), (Z.ltb_spec k i); try lia;
          reflexivity.
    + rewrite E7, Hx.
      destruct (Z.eqb_spec k i) as [->|Hne]; cbn [andb].
      * destruct (Z.leb_spec 0 i), (Z.ltb_spec i (i + 1)), (Z.ltb_spec i i); try lia.
        cbn [andb]. destruct (claims decode c prog i); reflexivity.
      * destruct (Z.leb_spec 0 k), (Z.ltb_spec k (i + 1)), (Z.ltb_spec k i); try lia;
          reflexivity.
    + rewrite E8, orb_true_iff, Hfound. split.
      * intros [[H|(k & Hk & Hck)]|H]; [left; exact H | right .. ].
        -- exists k. split; [lia | exact Hck].
        -- exists i. split; [lia | exact H].
      * intros [H|(k & Hk & Hck)]; [left; left; exact H|].
        destruct (Z.eq_dec k i) as [->|Hne]; [right; exact Hck|].
        left. right. exists k. split; [lia | exact Hck].
Qed.

Lemma claims_scaled decode c prog k :
  claims decode c prog k = true -> truthy (scaled_water_time decode c prog k) = true.
Proof. unfold claims. rewrite !andb_true_iff. tauto. Qed.

Lemma claims_pending decode c prog k :
  truthy (stop_of c k) = true -> claims decode c prog k = false.
Proof.
  intros H. unfold claims. rewrite H. cbn [negb].
  rewrite andb_false_r. reflexivity.
Qed.

Lemma unclaimed_step decode t c k p :
  unclaimed decode t c k p ->
  (forall prog, programs (pd c) !! Z.to_nat p = Some prog ->
                check_match prog t = true -> claims decode c prog k = false) ->
  unclaimed decode t c k (p + 1).
Proof.
  intros Hu Hp pid prog Hpid Hl Hm.
  destruct (Z.eq_dec pid p) as [->|Hne]; [apply Hp; assumption|].
  apply (Hu pid); [lia | assumption | assumption].
Qed.

(** A program that changes nothing (not stored, or not firing at [t]). *)
Lemma matcher_inv_skip decode t c p x :
  0 <= p ->
  (forall prog, programs (pd c) !! Z.to_nat p = Some prog -> check_match prog t = false) ->
  matcher_inv decode t c p x -> matcher_inv decode t c (p + 1) x.
Proof.
  intros Hp Hno (Hf & Hk & Hfound). split; [exact Hf|]. split.
  - intros k. destruct (Hk k) as (Ho & Hi). split; [exact Ho|].
    intros Hr. destruct (Hi Hr) as [(Hu & Hs)|(pid & prog & Hlt & Hrest)].
    + left. split; [|exact Hs]. apply unclaimed_step; [exact Hu|].
      intros prog Hl Hm. rewrite (Hno prog Hl) in Hm. discriminate.
    + right. exists pid, prog. split; [lia|exact Hrest].
  - rewrite Hfound. split.
    + intros (k & pid & prog & Hr & Hlt & Hfc). exists k, pid, prog. split; [exact Hr|]. split; [lia | exact Hfc].
    + intros (k & pid & prog & Hr & Hlt & Hfc). exists k, pid, prog.
      split; [exact Hr|]. split; [|exact Hfc].
      destruct (Z.eq_dec pid p) as [->|]; [|lia].
      destruct Hfc as (_ & Hl & Hm & _). rewrite (Hno prog Hl) in Hm. discriminate.
Qed.

Lemma match_programs_inv decode t c :
  wf_controller c ->
  matcher_inv decode t c (nprograms (pd c)) (match_programs decode t c).
Proof.
  intros W. unfold match_programs.
  apply (for_loop_inv (fun p x => matcher_inv decode t c p x));
    [unfold nprograms; lia | |].
  - split; [apply same_frame_refl|]. split.
    + intros k. split; [auto|].
      intros _. left. split; [|auto]. intros pid prog Hp. lia.
    + cbn [snd]. split; [discriminate|]. intros (k & pid & prog & _ & Hlt & Hfc).
      destruct Hfc as (H0 & _). lia.
  - intros p [cp mf] Hp Inv. pose proof Inv as (Hf & Hk & Hfound). cbn [fst snd] in *.
    pose proof (wf_same_frame _ _ W Hf) as Wp.
    pose proof Hf as (Hos & Hprogs & _).
    unfold match_program. cbn [fst]. rewrite Hprogs.
    destruct (programs (pd c) !! Z.to_nat p) as [prog|] eqn:Hl;
      [|apply matcher_inv_skip;
       [lia | intros ? H; rewrite Hl in H; discriminate | exact Inv]].
    destruct (check_match prog t) eqn:Hm;
      [|apply matcher_inv_skip;
       [lia | intros ? H; rewrite Hl in H; injection H as <-; exact Hm | exact Inv]].
    destruct (match_stations_effect decode p prog cp mf Wp) as (Hf2 & Hs2 & Hx2 & Hfd2).
    cbv zeta in Hf2, Hs2, Hx2, Hfd2. unfold matcher_inv.
    rewrite Hos in Hf2, Hs2, Hx2, Hfd2 |- *.
    (* what the stations of this program see *)
    assert (Hsee : forall k, 0 <= k < nstations (os c) ->
              claims decode cp prog k = true <->
              (unclaimed decode t c k p /\ claims decode c prog k = true)).
    { intros k Hr. destruct (Hk k) as (_ & Hi).
      destruct (Hi Hr) as [(Hu & Hs & Hx)|(pid & prog' & Hlt & Hfc & Hs & Hx)].
      - destruct (claims_ext decode c cp prog k Hos Hs) as (-> & _). tauto.
      - assert (claims decode cp prog k = false) as ->.
        { apply claims_pending. rewrite Hs. apply claims_scaled. apply Hfc. }
        split; [discriminate|]. intros (Hu & _).
        destruct Hfc as (H0 & Hl' & Hm' & Hc' & _).
        rewrite (Hu pid prog' ltac:(lia) Hl' Hm') in Hc'. discriminate. }
    split; [apply (same_frame_trans c cp); assumption|]. split.
    + intros k. destruct (Hk k) as (Ho & Hi). rewrite Hs2, Hx2. split.
      * intros Hr. destruct (Z.leb_spec 0 k), (Z.ltb_spec k (nstations (os c)));
          try lia; cbn [andb]; apply Ho; exact Hr.
      * intros Hr. destruct (Z.leb_spec 0 k); [|lia].
        destruct (Z.ltb_spec k (nstations (os c))); [|lia]. cbn [andb].
        destruct (Hi Hr) as [(Hu & Hs & Hx)|(pid & prog' & Hlt & Hfc & Hs & Hx)].
        -- destruct (claims_ext decode c cp prog k Hos Hs) as (-> & ->).
           destruct (claims decode c prog k) eqn:Hc.
           ++ right. exists p, prog. split; [lia|].
              split; [|split; reflexivity]. repeat split; try assumption. lia.
           ++ left. split; [|split; assumption]. apply unclaimed_step; [exact Hu|].
              intros prog' Hl'. congruence.
        -- assert (claims decode cp prog k = false) as ->.
           { apply claims_pending. rewrite Hs. apply claims_scaled. apply Hfc. }
           right. exists pid, prog'. split; [lia|]. split; [exact Hfc|]. split; assumption.
    + rewrite Hfd2, Hfound. split.
      * intros [(k & pid & prog' & Hr & Hlt & Hfc)|(k & Hr & Hc)].
        -- exists k, pid, prog'. split; [exact Hr|]. split; [lia | exact Hfc].
        -- apply (Hsee k Hr) in Hc. destruct Hc as (Hu & Hc).
           exists k, p, prog. split; [exact Hr|]. split; [lia|].
           repeat split; try assumption; lia.
      * intros (k & pid & prog' & Hr & Hlt & Hfc).
        destruct (Z.eq_dec pid p) as [->|Hne].
        -- right. exists k. split; [exact Hr|]. apply (Hsee k Hr).
           destruct Hfc as (_ & Hl' & _ & Hc' & Hu). split; [exact Hu|]. congruence.
        -- left. exists k, pid, prog'. split; [exact Hr|]. split; [lia | exact Hfc].
Qed.

(** C8.  The matcher never assigns [os] or the start-time table.  A station
    that is the master, running or disabled, and a station that already has
    a non-zero stop time, keep their schedule entry.  Any other station
    either keeps its entry or receives the demand of the first program
    (lowest id) firing at this time that claims it: the scaled water time,
    which is not zero, as stop time and that program's id + 1 as program
    index. *)
Theorem match_programs_frame decode t c k :
  wf_controller c ->
  let c' := fst (match_programs decode t c) in
  os c' = os c
  /\ scheduled_start_time (pd c') = scheduled_start_time (pd c)
  /\ (matcher_skips c k = true ->
      stop_of c' k = stop_of c k /\ index_of c' k = index_of c k)
  /\ (stop_of c k <> 0 ->
      stop_of c' k = stop_of c k /\ index_of c' k = index_of c k)
  /\ ((stop_of c' k = stop_of c k /\ index_of c' k = index_of c k)
      \/ (0 <= k < nstations (os c) /\ stop_of c k = 0
          /\ exists pid prog,
               first_claimant decode t c k pid prog
               /\ stop_of c' k = scaled_water_time decode c prog k
               /\ stop_of c' k <> 0
               /\ index_of c' k = byte (pid + 1))).
Proof.
  intros W c'. destruct (match_programs_inv decode t c W) as (Hf & Hk & _).
  fold c' in Hf, Hk. destruct Hf as (Hos & _ & Hst & _).
  split; [exact Hos|]. split; [exact Hst|].
  assert (Hcases : (stop_of c' k = stop_of c k /\ index_of c' k = index_of c k)
      \/ (0 <= k < nstations (os c)
          /\ exists pid prog,
               first_claimant decode t c k pid prog
               /\ stop_of c' k = scaled_water_time decode c prog k
               /\ index_of c' k = byte (pid + 1))).
  { destruct (Hk k) as (Ho & Hi).
    destruct (Z.le_gt_cases 0 k); [|left; apply Ho; lia].
    destruct (Z.lt_ge_cases k (nstations (os c))) as [Hlt|]; [|left; apply Ho; lia].
    destruct (Hi ltac:(lia)) as [(_ & Hs)|(pid & prog & _ & Hrest)]; [left; exact Hs|].
    right. split; [lia|]. exists pid, prog. exact Hrest. }
  assert (Hclaim : forall pid prog, first_claimant decode t c k pid prog ->
            matcher_skips c k = false /\ stop_of c k = 0
            /\ scaled_water_time decode c prog k <> 0).
  { intros pid prog (_ & _ & _ & Hc & _). unfold claims in Hc.
    rewrite !andb_true_iff, !negb_true_iff in Hc.
    destruct Hc as (((Hsk & _) & Hs0) & Hw).
    split; [exact Hsk|]. split; [apply truthy_false; exact Hs0 | apply truthy_true; exact Hw]. }
  split; [intros Hskip | split; [intros Hne|]].
  - destruct Hcases as [H|(_ & pid & prog & Hfc & _)]; [exact H|].
    destruct (Hclaim _ _ Hfc) as (Hsk & _). congruence.
  - destruct Hcases as [H|(_ & pid & prog & Hfc & _)]; [exact H|].
    destruct (Hclaim _ _ Hfc) as (_ & Hs0 & _). contradiction.
  - destruct Hcases as [H|(Hr & pid & prog & Hfc & Hs & Hx)]; [left; exact H|].
    destruct (Hclaim _ _ Hfc) as (_ & Hs0 & Hw).
    right. split; [exact Hr|]. split; [exact Hs0|]. exists pid, prog.
    split; [exact Hfc|]. split; [exact Hs|]. split; [rewrite Hs; exact Hw | exact Hx].
Qed.

Lemma match_programs_frame_witness :
  let c := loop_read_options example_master_first in
  let c' := fst (match_programs (fun d => d) 6000 c) in
  os c' = os c /\ stop_of c' 0 = stop_of c 0 /\ index_of c' 0 = index_of c 0.
Proof.
  assert (W : wf_controller (loop_read_options example_master_first))
    by (constructor; [change (0 <= 1 <= 32); lia | reflexivity ..]).
  pose proof (match_programs_frame (fun d => d) 6000
                (loop_read_options example_master_first) 0 W) as H.
  cbv zeta in H. destruct H as (H1 & _ & H3 & _).
  destruct (H3 eq_refl) as [H4 H5]. exact (conj H1 (conj H4 H5)).
Defined.

(** ** The schedule builder *)

Lemma schedule_skips_ext c c' k :
  erase_busy (os c') = erase_busy (os c) ->
  start_of c' k = start_of c k -> stop_of c' k = stop_of c k ->
  schedule_skips c' k = schedule_skips c k.
Proof.
  intros Hos Hst Hsp. unfold schedule_skips, station_on. rewrite Hst, Hsp.
  unfold erase_busy, with_status, with_program_busy in Hos.
  injection Hos. intros _ Hmas _ _ _ _ _ _ _ _ _ _ Hbits _ _. rewrite Hmas, Hbits.
  reflexivity.
Qed.

Lemma erase_busy_upd b c :
  erase_busy (os (upd_status (with_program_busy b) c)) = erase_busy (os c).
Proof. reflexivity. Qed.

Lemma cursor_at_0 c sq delay init : cursor_at c sq delay init 0 = init.
Proof. reflexivity. Qed.

Lemma cursor_at_succ c sq delay init k :
  0 <= k ->
  cursor_at c sq delay init (k + 1)
  = if schedule_skips c k then cursor_at c sq delay init k
    else if truthy sq
         then ulong (ulong (cursor_at c sq delay init k + stop_of c k) + delay)
         else cursor_at c sq delay init k.
Proof.
  intros Hk. unfold cursor_at.
  replace (Z.to_nat (k + 1)) with (S (Z.to_nat k)) by lia.
  cbn [spec_cursor]. rewrite Z2Nat.id by lia. reflexivity.
Qed.

Lemma schedule_station_inv c sq delay init i x :
  wf_controller c -> 0 <= i < nstations (os c) ->
  builder_inv c sq delay init i x ->
  builder_inv c sq delay init (i + 1) (schedule_station sq delay i x).
Proof.
  intros W Hi (Hos & Hl1 & Hl2 & Hix & Hacc & Hk). destruct x as [ci acc]. cbn [fst snd] in *.
  destruct (wf_in_tables c i W Hi) as (T1 & T2 & _).
  assert (T1' : in_table (scheduled_start_time (pd ci)) i = true)
    by (unfold in_table in *; rewrite Hl1; exact T1).
  assert (T2' : in_table (scheduled_stop_time (pd ci)) i = true)
    by (unfold in_table in *; rewrite Hl2; exact T2).
  pose proof (Hk i) as Hii. destruct (Z.ltb_spec i i); [lia|].
  rewrite andb_false_r in Hii. cbn [andb] in Hii. destruct Hii as (Hsi & Hpi).
  unfold schedule_station. cbn [fst snd].
  rewrite (schedule_skips_ext c ci i Hos Hsi Hpi).
  unfold builder_inv. rewrite cursor_at_succ by lia.
  destruct (schedule_skips c i) eqn:Hskip; cbn [fst snd].
  - repeat split; try assumption. intros k. specialize (Hk k).
    destruct (Z.eqb_spec k i) as [->|Hne].
    + rewrite Hskip, andb_false_r. split; assumption.
    + destruct (Z.leb_spec 0 k), (Z.ltb_spec k i), (Z.ltb_spec k (i + 1));
        try lia; exact Hk.
  - assert (Hstop1 : stop_of (set_start i acc ci) i = stop_of c i) by exact Hpi.
    destruct (truthy sq); cbn [fst snd]; rewrite Hstop1.
    + split; [rewrite erase_busy_upd, os_set_stop; exact Hos|].
      split; [proj_simpl; rewrite length_store; exact Hl1|].
      split; [proj_simpl; rewrite length_store; exact Hl2|].
      split; [proj_simpl; exact Hix|].
      split; [rewrite Hacc; reflexivity|].
      intros k. specialize (Hk k).
      unfold start_of, stop_of. proj_simpl. rewrite !load_store, T1', T2', !andb_true_r.
      fold (start_of ci k). fold (stop_of ci k). rewrite (Z.eqb_sym i k).
      destruct (Z.eqb_spec k i) as [->|Hne].
      * destruct (Z.leb_spec 0 i), (Z.ltb_spec i (i + 1)); try lia.
        rewrite Hskip. cbn [andb negb]. rewrite Hacc. split; reflexivity.
      * destruct (Z.leb_spec 0 k), (Z.ltb_spec k i), (Z.ltb_spec k (i + 1));
          try lia; exact Hk.
    + split; [rewrite erase_busy_upd, os_set_stop; exact Hos|].
      split; [proj_simpl; rewrite length_store; exact Hl1|].
      split; [proj_simpl; rewrite length_store; exact Hl2|].
      split; [proj_simpl; exact Hix|].
      split; [exact Hacc|].
      intros k. specialize (Hk k).
      unfold start_of, stop_of. proj_simpl. rewrite !load_store, T1', T2', !andb_true_r.
      fold (start_of ci k). fold (stop_of ci k). rewrite (Z.eqb_sym i k).
      destruct (Z.eqb_spec k i) as [->|Hne].
      * destruct (Z.leb_spec 0 i), (Z.ltb_spec i (i + 1)); try lia.
        rewrite Hskip. cbn [andb negb]. rewrite Hacc. split; reflexivity.
      * destruct (Z.leb_spec 0 k), (Z.ltb_spec k i), (Z.ltb_spec k (i + 1));
          try lia; exact Hk.
Qed.

Lemma schedule_all_stations_inv decode t sq c :
  wf_controller c ->
  builder_inv c sq (station_delay_of decode c) (initial_accumulate_time decode t sq c)
    (nstations (os c))
    (for_loop (nstations (os c)) (schedule_station sq (station_delay_of decode c))
       (c, initial_accumulate_time decode t sq c)).
Proof.
  intros W. pose proof (wf_nboards _ W). pose proof (wf_nstations _ W).
  apply (for_loop_inv (builder_inv c sq (station_delay_of decode c)
                         (initial_accumulate_time decode t sq c))); [lia | |].
  - repeat split. intros k.
    destruct (Z.leb_spec 0 k), (Z.ltb_spec k 0); try lia; split; reflexivity.
  - intros i x Hi Hx. apply schedule_station_inv; assumption.
Qed.

(** C4 as stated fails.  After the first run of program 1 the stale stop
    time 6011 of the master keeps [pd.last_stop_time] at 6011.
    When program 1 fires again at 6060 the cursor starts at 6011 + 5 = 6016,
    not at max(6061, 6016) = 6061, and station 2 is given the window
    [6016, 6026), which is already over. *)
Lemma schedule_cursor_counterexample :
  let c := loop_read_options
             (run_seconds (fun d => d) (seconds 6000 60) example_master_first) in
  let c1 := fst (match_programs (fun d => d) 6060 c) in
  let c' := schedule_all_stations (fun d => d) 6060 (status_seq (status (os c1))) c1 in
  last_stop_time (pd c1) = 6011
  /\ station_delay_of (fun d => d) c1 = 5
  /\ initial_accumulate_time (fun d => d) 6060 (status_seq (status (os c1))) c1 = 6016
  /\ Z.max (6060 + 1) (last_stop_time (pd c1) + station_delay_of (fun d => d) c1) = 6061
  /\ schedule_skips c1 1 = false
  /\ start_of c' 1 = 6016 /\ stop_of c' 1 = 6026.
Proof. vm_compute. repeat split. Qed.

(** What the station loop of [schedule_all_stations] leaves in the tables, in
    terms of the specification's cursor. *)
Lemma schedule_all_stations_cursor decode t sq c :
  wf_controller c ->
  let delay := station_delay_of decode c in
  let cursor := cursor_at c sq delay (initial_accumulate_time decode t sq c) in
  let c' := schedule_all_stations decode t sq c in
  forall k, 0 <= k < nstations (os c) ->
    (schedule_skips c k = true ->
     start_of c' k = start_of c k /\ stop_of c' k = stop_of c k
     /\ cursor (k + 1) = cursor k)
    /\ (schedule_skips c k = false ->
        start_of c' k = cursor k
        /\ stop_of c' k = ulong (cursor k + stop_of c k)
        /\ cursor (k + 1) = if truthy sq then ulong (stop_of c' k + delay) else cursor k).
Proof.
  intros W delay cursor c' k Hk.
  destruct (schedule_all_stations_inv decode t sq c W) as (_ & _ & _ & _ & _ & Hall).
  specialize (Hall k). unfold c', schedule_all_stations, cursor, delay in *.
  clear cursor c' delay.
  destruct (Z.leb_spec 0 k); [|lia]. destruct (Z.ltb_spec k (nstations (os c))); [|lia].
  cbn [andb] in Hall. rewrite cursor_at_succ by lia.
  destruct (schedule_skips c k); cbn [negb] in Hall; split; intros Hs; try discriminate.
  - destruct Hall as [-> ->]. repeat split.
  - destruct Hall as [-> ->]. repeat split.
Qed.

(** C4 (amended).  In sequential mode the cursor of the schedule builder
    starts at [last_stop_time + station_delay] when [last_stop_time > 0] and at
    [curr_time + 1] otherwise; this is max(curr_time + 1, last_stop_time +
    station_delay) only when the latter is not the smaller one (or, with no
    last stop time, when the delay does not exceed curr_time + 1).  Then, for
    the stations in ascending id order, a skipped station keeps its entry and
    leaves the cursor alone, and a qualifying station gets start = cursor,
    stop = cursor + demand, after which the cursor is stop + station_delay
    (all sums in [unsigned long]). *)
Theorem schedule_all_stations_sequential decode t sq c :
  wf_controller c -> truthy sq = true ->
  let delay := station_delay_of decode c in
  let last := last_stop_time (pd c) in
  let init := if 0 <? last then ulong (last + delay) else ulong (t + 1) in
  let cursor := cursor_at c sq delay init in
  let c' := schedule_all_stations decode t sq c in
  initial_accumulate_time decode t sq c = init
  /\ cursor 0 = init
  /\ (forall k, 0 <= k < nstations (os c) ->
        (schedule_skips c k = true ->
         start_of c' k = start_of c k /\ stop_of c' k = stop_of c k
         /\ cursor (k + 1) = cursor k)
        /\ (schedule_skips c k = false ->
            start_of c' k = cursor k
            /\ stop_of c' k = ulong (cursor k + stop_of c k)
            /\ cursor (k + 1) = ulong (stop_of c' k + delay)))
  /\ (0 <= t ->
      (if 0 <? last then t + 1 <= last + delay < 2 ^ 32
       else delay <= t + 1 < 2 ^ 32) ->
      init = Z.max (t + 1) (last + delay)).
Proof.
  intros W Hsq delay last init cursor c'.
  assert (Hinit : initial_accumulate_time decode t sq c = init).
  { unfold initial_accumulate_time, init, last, delay. rewrite Hsq. reflexivity. }
  split; [exact Hinit|]. split; [reflexivity|]. split.
  - intros k Hk.
    pose proof (schedule_all_stations_cursor decode t sq c W k Hk) as Hall.
    cbv zeta in Hall. rewrite Hinit, Hsq in Hall. exact Hall.
  - intros Ht Hfit. unfold init. destruct (Z.ltb_spec 0 last).
    + unfold ulong. rewrite Z.mod_small by lia. lia.
    + unfold ulong. rewrite Z.mod_small by lia. lia.
Qed.

Lemma schedule_all_stations_sequential_witness :
  let c' := schedule_all_stations (fun d => d) 6000 1 example_demand in
  start_of c' 1 = 6001 /\ stop_of c' 1 = 6601
  /\ start_of c' 2 = 6606 /\ stop_of c' 2 = 7206.
Proof.
  assert (W : wf_controller example_demand)
    by (constructor; [change (0 <= 1 <= 32); lia | reflexivity ..]).
  pose proof (schedule_all_stations_sequential (fun d => d) 6000 1 example_demand
                W eq_refl) as H.
  cbv zeta in H. destruct H as (_ & _ & H & _).
  destruct (H 1 ltac:(change (0 <= 1 < 8); lia)) as (_ & H1).
  destruct (H 2 ltac:(change (0 <= 2 < 8); lia)) as (_ & H2).
  destruct (H1 eq_refl) as (A1 & A2 & _). destruct (H2 eq_refl) as (B1 & B2 & _).
  exact (conj (eq_trans A1 eq_refl) (conj (eq_trans A2 eq_refl)
          (conj (eq_trans B1 eq_refl) (eq_trans B2 eq_refl)))).
Defined.

(** ** The two-station scenario *)

Lemma last_stop_time_match_programs decode t c :
  last_stop_time (pd (fst (match_programs decode t c))) = last_stop_time (pd c).
Proof.
  unfold match_programs.
  apply (for_loop_preserves
           (fun x => last_stop_time (pd (fst x)) = last_stop_time (pd c)));
    [reflexivity|].
  intros pid x _ Hx. unfold match_program.
  destruct (programs (pd (fst x)) !! Z.to_nat pid); [|exact Hx].
  destruct (check_match _ _); [|exact Hx].
  apply (for_loop_preserves
           (fun y => last_stop_time (pd (fst y)) = last_stop_time (pd c)));
    [exact Hx|].
  intros sid y _ Hy. unfold match_station. cbv zeta.
  repeat (case_if; cbn [fst]); proj_simpl; exact Hy.
Qed.

(** With a single stored program that fires, every station in range gets the
    program's demand exactly when the program claims it. *)
Lemma single_program_demand decode t c prog :
  wf_controller c -> programs (pd c) = [prog] -> check_match prog t = true ->
  let cm := match_programs decode t c in
  (forall k, 0 <= k < nstations (os c) ->
     stop_of (fst cm) k = if claims decode c prog k
                          then scaled_water_time decode c prog k else stop_of c k)
  /\ ((exists k, 0 <= k < nstations (os c) /\ claims decode c prog k = true) ->
      snd cm = true).
Proof.
  intros W Hprogs Hm cm. destruct (match_programs_inv decode t c W) as (_ & Hk & Hfound).
  fold cm in Hk, Hfound.
  assert (Hone : forall k pid prog', pid < nprograms (pd c) ->
            first_claimant decode t c k pid prog' -> pid = 0 /\ prog' = prog).
  { intros k pid prog' Hlt (H0 & Hl & _). unfold nprograms in Hlt. rewrite Hprogs in Hlt, Hl.
    cbn in Hlt. assert (pid = 0) as -> by lia.
    change ([prog] !! Z.to_nat 0) with (Some prog) in Hl.
    injection Hl as ->. split; reflexivity. }
  assert (Hfirst : forall k, claims decode c prog k = true ->
            first_claimant decode t c k 0 prog).
  { intros k Hc. repeat split; try assumption; try lia.
    - rewrite Hprogs. reflexivity.
    - intros pid prog' Hp. lia. }
  split.
  - intros k Hr. destruct (Hk k) as (_ & Hi).
    destruct (Hi Hr) as [(Hu & Hs & _)|(pid & prog' & Hlt & Hfc & Hs & _)].
    + assert (claims decode c prog k = false) as ->; [|exact Hs].
      apply (Hu 0); [unfold nprograms; rewrite Hprogs; cbn; lia | | exact Hm].
      rewrite Hprogs. reflexivity.
    + destruct (Hone k pid prog' Hlt Hfc) as (-> & ->).
      destruct Hfc as (_ & _ & _ & -> & _). exact Hs.
  - intros (k & Hr & Hc). apply Hfound. exists k, 0, prog.
    split; [exact Hr|]. split; [unfold nprograms; rewrite Hprogs; cbn; lia|].
    apply Hfirst. exact Hc.
Qed.

(** Skipped stations leave the cursor where it is. *)
Lemma cursor_at_skip_range c sq delay init i k :
  0 <= i <= k ->
  (forall j, i <= j < k -> schedule_skips c j = true) ->
  cursor_at c sq delay init k = cursor_at c sq delay init i.
Proof.
  intros Hik Hskip.
  assert (forall n : nat, i + Z.of_nat n <= k ->
            cursor_at c sq delay init (i + Z.of_nat n) = cursor_at c sq delay init i) as H.
  { induction n as [|n IH]; intros Hn.
    - rewrite Z.add_0_r. reflexivity.
    - replace (i + Z.of_nat (S n)) with (i + Z.of_nat n + 1) by lia.
      rewrite cursor_at_succ by lia. rewrite Hskip by lia. apply IH. lia. }
  specialize (H (Z.to_nat (k - i))). rewrite Z2Nat.id in H by lia.
  replace (i + (k - i)) with k in H by lia. apply H. lia.
Qed.

(** C5.  A program of 600 seconds for two stations [a < b] (stations 1 and 2
    in the scenario), sequential mode, watering percentage 100, station delay
    5 seconds, nothing scheduled before, scheduled at time [T]: the first
    station receives the window [T+1, T+601) and the second the window
    [T+606, T+1206). *)
Theorem two_station_program_windows decode c T prog a b :
  two_station_scenario decode c T prog a b ->
  let c' := schedule_program_data decode T c in
  start_of c' a = T + 1 /\ stop_of c' a = T + 601
  /\ start_of c' b = T + 606 /\ stop_of c' b = T + 1206.
Proof.
  intros [W Hprogs Hmatch Hmin (Ha & Hab & Hb) (Hda & Hwa) (Hdb & Hwb) Hoth
            Hpct Hdelay Hseq Hidle Hlast Hfa Hfb (HT & HT')] c'.
  set (c0 := with_last_minute (T / 60) c).
  assert (W0 : wf_controller c0) by (destruct W; constructor; assumption).
  unfold c', schedule_program_data.
  destruct (Z.eqb_spec (T / 60) (last_minute c)); [contradiction|]. cbn [negb]. fold c0.
  destruct (single_program_demand decode T c0 prog W0 Hprogs Hmatch) as (Hdem & Hfound).
  destruct (match_programs_inv decode T c0 W0) as (Hf & _ & _).
  pose proof (last_stop_time_match_programs decode T c0) as Hlast1.
  cbv zeta in Hdem, Hfound.
  set (cm := match_programs decode T c0) in *. set (c1 := fst cm) in *.
  pose proof (wf_same_frame _ _ W0 Hf) as W1.
  destruct Hf as (Hos & _ & Hstart & _).
  change (os c0) with (os c) in *.
  (* demand recorded by the matcher *)
  assert (Hscaled : forall k, decode (load (durations prog) k) = 600 ->
                              scaled_water_time decode c0 prog k = 600).
  { intros k Hk. unfold scaled_water_time. change (os c0) with (os c).
    rewrite Hk, Hpct. reflexivity. }
  assert (Hclaim : forall k, matcher_skips c k = false -> load (durations prog) k <> 0 ->
                             decode (load (durations prog) k) = 600 ->
                             claims decode c0 prog k = true).
  { intros k Hfree Hd Hw. unfold claims. change (matcher_skips c0 k) with (matcher_skips c k).
    rewrite Hfree, (Hscaled k Hw). change (stop_of c0 k) with (stop_of c k).
    rewrite (proj2 (Hidle k)). apply truthy_true in Hd. rewrite Hd. reflexivity. }
  assert (Hnoclaim : forall k, k <> a -> k <> b -> claims decode c0 prog k = false).
  { intros k Hka Hkb. unfold claims. rewrite (Hoth k Hka Hkb).
    rewrite andb_false_r. reflexivity. }
  assert (Hstop1 : forall k, 0 <= k < nstations (os c) ->
            stop_of c1 k = if (k =? a) || (k =? b) then 600 else 0).
  { intros k Hk. rewrite (Hdem k Hk).
    destruct (Z.eqb_spec k a) as [->|Hka]; cbn [orb].
    - rewrite (Hclaim a Hfa Hda Hwa). apply Hscaled. exact Hwa.
    - destruct (Z.eqb_spec k b) as [->|Hkb].
      + rewrite (Hclaim b Hfb Hdb Hwb). apply Hscaled. exact Hwb.
      + rewrite (Hnoclaim k Hka Hkb). apply (Hidle k). }
  assert (Hstart1 : forall k, start_of c1 k = 0).
  { intros k. unfold start_of. rewrite Hstart. apply (Hidle k). }
  assert (Hfound1 : snd cm = true).
  { apply Hfound. exists a. split; [lia|]. apply Hclaim; assumption. }
  rewrite Hfound1.
  (* the builder *)
  assert (Hskip : forall k, 0 <= k < nstations (os c) ->
            schedule_skips c1 k
            = if (k =? a) || (k =? b) then false else true).
  { intros k Hk. unfold schedule_skips, station_on.
    rewrite Hstart1, (Hstop1 k Hk), Hos.
    destruct ((k =? a) || (k =? b)) eqn:Hsel.
    - assert (matcher_skips c k = false) as Hfree.
      { apply orb_true_iff in Hsel. destruct Hsel as [E|E]; apply Z.eqb_eq in E; subst; assumption. }
      unfold matcher_skips in Hfree. apply orb_false_elim in Hfree as (Hfree & _).
      apply orb_false_elim in Hfree as (-> & ->). reflexivity.
    - cbn. rewrite orb_true_r. reflexivity. }
  assert (Hsq1 : truthy (status_seq (status (os c1))) = true) by (rewrite Hos; exact Hseq).
  assert (Hd1 : station_delay_of decode c1 = 5).
  { unfold station_delay_of. rewrite Hos, Hdelay. reflexivity. }
  assert (Hinit : initial_accumulate_time decode T (status_seq (status (os c1))) c1 = T + 1).
  { unfold initial_accumulate_time. rewrite Hsq1, Hlast1.
    change (last_stop_time (pd c0)) with (last_stop_time (pd c)). rewrite Hlast.
    cbn [Z.ltb Z.compare andb]. unfold ulong. apply Z.mod_small. lia. }
  pose proof (schedule_all_stations_cursor decode T (status_seq (status (os c1))) c1 W1)
    as Hall.
  cbv zeta in Hall. rewrite Hd1, Hinit, Hsq1 in Hall.
  assert (Hn1 : nstations (os c1) = nstations (os c)) by (rewrite Hos; reflexivity).
  rewrite Hn1 in Hall.
  set (cursor := cursor_at c1 (status_seq (status (os c1))) 5 (T + 1)) in *.
  assert (Hca : cursor a = T + 1).
  { unfold cursor. rewrite (cursor_at_skip_range _ _ _ _ 0 a) by
      (try lia; intros j Hj; rewrite Hskip by lia;
       destruct (Z.eqb_spec j a), (Z.eqb_spec j b); try lia; reflexivity).
    reflexivity. }
  destruct (Hall a ltac:(lia)) as (_ & Hqa).
  rewrite Hskip, Z.eqb_refl in Hqa by lia. destruct (Hqa eq_refl) as (Sa & Pa & Ca).
  rewrite Hca, (Hstop1 a), Z.eqb_refl in Pa by lia. cbn [orb] in Pa.
  assert (Pa' : stop_of (schedule_all_stations decode T (status_seq (status (os c1))) c1) a
                = T + 601).
  { rewrite Pa. unfold ulong. rewrite Z.mod_small by lia. lia. }
  rewrite Pa' in Ca.
  assert (Hcb : cursor b = T + 606).
  { unfold cursor. rewrite (cursor_at_skip_range _ _ _ _ (a + 1) b) by
      (try lia; intros j Hj; rewrite Hskip by lia;
       destruct (Z.eqb_spec j a), (Z.eqb_spec j b); try lia; reflexivity).
    fold cursor. rewrite Ca. unfold ulong. rewrite Z.mod_small by lia. lia. }
  destruct (Hall b ltac:(lia)) as (_ & Hqb).
  rewrite Hskip, Z.eqb_refl, orb_true_r in Hqb by lia.
  destruct (Hqb eq_refl) as (Sb & Pb & _).
  rewrite Hcb, (Hstop1 b), Z.eqb_refl, orb_true_r in Pb by lia.
  repeat split.
  - rewrite Sa. exact Hca.
  - exact Pa'.
  - rewrite Sb. exact Hcb.
  - rewrite Pb. unfold ulong. rewrite Z.mod_small by lia. lia.
Qed.

Lemma load_literal_cases (P : Z -> Prop) :
  P 0 -> P 1 -> P 2 -> P 3 -> P 4 -> P 5 -> P 6 -> P 7 ->
  forall k, 0 <= k < 8 -> P k.
Proof.
  intros H0 H1 H2 H3 H4 H5 H6 H7 k Hk.
  assert (k = 0 \/ k = 1 \/ k = 2 \/ k = 3 \/ k = 4 \/ k = 5 \/ k = 6 \/ k = 7)
    as Hc by lia.
  repeat (destruct Hc as [->|Hc]; [assumption|]). subst. assumption.
Defined.

Lemma two_station_program_windows_witness :
  let c' := schedule_program_data example_decode 6000 example_two_station in
  start_of c' 1 = 6000 + 1 /\ stop_of c' 1 = 6000 + 601
  /\ start_of c' 2 = 6000 + 606 /\ stop_of c' 2 = 6000 + 1206.
Proof.
  apply (two_station_program_windows example_decode example_two_station 6000
           example_program 1 2).
  assert (Hzero : forall t k, (forall j, 0 <= j < 8 -> load t j = 0) ->
                    length t = 8%nat -> load t k = 0).
  { intros t k Hin Hlen. destruct (Z.le_gt_cases 0 k) as [H0|H0].
    - destruct (Z.lt_ge_cases k 8) as [H8|H8]; [apply Hin; lia|].
      apply load_outside. unfold in_table. rewrite Hlen.
      destruct (Z.ltb_spec k (Z.of_nat 8)); [lia|]. apply andb_false_r.
    - apply load_outside. unfold in_table.
      destruct (Z.leb_spec 0 k); [lia|]. reflexivity. }
  constructor.
  - constructor; [change (0 <= 1 <= 32); lia | reflexivity ..].
  - reflexivity.
  - reflexivity.
  - change (6000 / 60 <> 0). discriminate.
  - change (0 <= 1 /\ 1 < 2 /\ 2 < 8). lia.
  - split; [discriminate | reflexivity].
  - split; [discriminate | reflexivity].
  - intros k Ha Hb. change (durations example_program) with [0; 10; 10; 0; 0; 0; 0; 0].
    destruct (Z.le_gt_cases 0 k) as [H0|H0].
    + destruct (Z.lt_ge_cases k 8) as [H8|H8].
      * revert Ha Hb. apply (load_literal_cases (fun k => k <> 1 -> k <> 2 ->
            load [0; 10; 10; 0; 0; 0; 0; 0] k = 0)); try reflexivity; try lia.
      * apply load_outside. unfold in_table.
        destruct (Z.ltb_spec k (Z.of_nat (length [0; 10; 10; 0; 0; 0; 0; 0])));
          [cbn in *; lia | apply andb_false_r].
    + apply load_outside. unfold in_table. destruct (Z.leb_spec 0 k); [lia|]. reflexivity.
  - reflexivity.
  - reflexivity.
  - reflexivity.
  - intros k. split; apply Hzero; try reflexivity;
      apply (load_literal_cases (fun j => load _ j = 0)); reflexivity.
  - reflexivity.
  - reflexivity.
  - reflexivity.
  - split; [lia | reflexivity].
Defined.

(** ** The network check *)

Lemma check_interval_small fails :
  0 <= fails <= 6 -> check_interval fails = CHECK_NETWORK_INTERVAL * 2 ^ fails.
Proof.
  intros H.
  assert (fails = 0 \/ fails = 1 \/ fails = 2 \/ fails = 3 \/ fails = 4
          \/ fails = 5 \/ fails = 6) as Hc by lia.
  repeat (destruct Hc as [->|Hc]; [reflexivity|]). subst. reflexivity.
Qed.

Lemma fails_after_ping_range failed fails :
  0 <= fails <= 6 -> 0 <= fails_after_ping failed fails <= 6.
Proof.
  intros H. unfold fails_after_ping. destruct failed; [|lia].
  destruct (Z.ltb_spec 6 (fails + 1)); lia.
Qed.

(** [network_fails] after a call of [check_network]. *)
Lemma check_network_fails ping started t c :
  status_network_fails (status (os (check_network ping started t c)))
  = if check_due t c then
      let f1 := fails_after_ping (negb ping) (status_network_fails (status (os c))) in
      if reconnect_attempted t c f1 && started then 0 else f1
    else status_network_fails (status (os c)).
Proof.
  unfold check_network, check_due, reconnect_attempted,
    effective_last_check, effective_last_dhcp.
  destruct (last_check_time c =? 0); cbn [os with_last_dhcp_time with_last_check_time
    last_check_time last_dhcp_time];
    destruct (status_program_busy (status (os c))); cbn [negb andb]; try reflexivity;
    destruct (check_interval _ <? _); try reflexivity;
    cbn [os upd_status upd_os with_status status with_network_fails status_network_fails
         options last_dhcp_time with_last_check_time];
    destruct ((2 <? _) || _); cbn [andb]; try reflexivity;
    destruct (truthy _); cbn [andb]; try reflexivity;
    destruct started; reflexivity.
Qed.

(** C9 as stated fails.  With two failures so far a third failed ping raises
    the count to 3, which triggers the reconnect; when [os.start_network]
    succeeds the count is reset in the same call.  So a failed probe leaves
    [network_fails] at 0 instead of 3, and the check interval drops from 120
    to 30 seconds although no probe succeeded. *)
Lemma check_network_backoff_counterexample :
  let c := example_network in
  let c' := check_network false true 221 c in
  check_due 221 c = true
  /\ status_network_fails (status (os c)) = 2
  /\ status_network_fails (status (os c')) = 0
  /\ check_interval (status_network_fails (status (os c')))
     < check_interval (status_network_fails (status (os c))).
Proof. vm_compute. repeat split. Qed.

(** C9 (amended).  With [network_fails] between 0 and 6 the check interval is
    CHECK_NETWORK_INTERVAL * 2^fails, and after any call the count is again
    between 0 and 6, so the interval never exceeds base * 2^6.  While a
    program is running nothing happens beyond the first-call initialisation
    of the two timers.  When a check is made, a successful ping resets the
    count to 0 and the interval to the base.  A failed ping raises the count
    by one, up to 6, and the interval does not decrease, unless the same call
    attempts a reconnect (count above 2 or DHCP renewal due, with the
    reconnect option set) and [os.start_network] succeeds: then the count is
    reset to 0. *)
Theorem check_network_backoff ping started t c :
  let fails := status_network_fails (status (os c)) in
  let c' := check_network ping started t c in
  let fails' := status_network_fails (status (os c')) in
  0 <= fails <= 6 ->
  check_interval fails = CHECK_NETWORK_INTERVAL * 2 ^ fails
  /\ 0 <= fails' <= 6
  /\ check_interval fails' <= CHECK_NETWORK_INTERVAL * 2 ^ 6
  /\ (status_program_busy (status (os c)) = true ->
      c' = if last_check_time c =? 0
           then with_last_dhcp_time t (with_last_check_time t c) else c)
  /\ (check_due t c = false -> fails' = fails)
  /\ (check_due t c = true -> ping = true ->
      fails' = 0 /\ check_interval fails' = CHECK_NETWORK_INTERVAL)
  /\ (check_due t c = true -> ping = false ->
      let f1 := Z.min (fails + 1) 6 in
      (reconnect_attempted t c f1 && started = false ->
       fails' = f1 /\ check_interval fails <= check_interval fails')
      /\ (reconnect_attempted t c f1 && started = true -> fails' = 0)).
Proof.
  intros fails c' fails' Hf.
  assert (E : fails' = if check_due t c then
                let f1 := fails_after_ping (negb ping) fails in
                if reconnect_attempted t c f1 && started then 0 else f1
              else fails) by apply check_network_fails.
  assert (Hmin : fails_after_ping true fails = Z.min (fails + 1) 6).
  { unfold fails_after_ping. destruct (Z.ltb_spec 6 (fails + 1)); lia. }
  assert (Hmono : forall x y, 0 <= x <= y -> y <= 6 -> check_interval x <= check_interval y).
  { intros x y Hx Hy. rewrite !check_interval_small by lia.
    apply Z.mul_le_mono_nonneg_l; [unfold CHECK_NETWORK_INTERVAL; lia|].
    apply Z.pow_le_mono_r; lia. }
  assert (Hr : 0 <= fails' <= 6).
  { rewrite E. cbv zeta. pose proof (fails_after_ping_range (negb ping) fails Hf).
    destruct (check_due t c); [|lia]. destruct (_ && _); lia. }
  split; [apply check_interval_small; exact Hf|].
  split; [exact Hr|].
  split; [rewrite check_interval_small by exact Hr;
          apply Z.mul_le_mono_nonneg_l; [unfold CHECK_NETWORK_INTERVAL; lia|];
          apply Z.pow_le_mono_r; lia|].
  split.
  { intros Hb. unfold c', check_network.
    destruct (last_check_time c =? 0); cbn [os with_last_dhcp_time with_last_check_time];
      rewrite Hb; reflexivity. }
  split; [intros Hd; rewrite E, Hd; reflexivity|].
  split.
  - intros Hd ->. rewrite E, Hd. cbn [negb fails_after_ping]. cbv zeta.
    rewrite if_same. split; reflexivity.
  - intros Hd ->. cbv zeta. rewrite E, Hd. cbn [negb]. cbv zeta. rewrite Hmin. split.
    + intros ->. split; [reflexivity|]. apply Hmono; lia.
    + intros ->. reflexivity.
Qed.

Lemma check_network_backoff_witness :
  let c := example_network in
  let c' := check_network false false 221 c in
  status_network_fails (status (os c')) = 3
  /\ check_interval (status_network_fails (status (os c)))
     <= check_interval (status_network_fails (status (os c'))).
Proof.
  pose proof (check_network_backoff false false 221 example_network
                ltac:(change (0 <= 2 <= 6); lia)) as H.
  destruct H as (_ & _ & _ & _ & _ & _ & H).
  destruct (H eq_refl eq_refl) as (H1 & _). exact (H1 eq_refl).
Defined.

(** * Further properties *)

(** ** The run-time pass, station by station *)

Lemma run_station_phases t bid bitvalue s c :
  run_station t bid bitvalue s c
  = open_station t bid bitvalue s (status_mas (status (os c)))
      (expire_station t (byte (bid * 8 + s)) c).
Proof. reflexivity. Qed.

Lemma station_on_set_station_bit_ne sid v c k :
  k <> sid -> station_on (set_station_bit sid v c) k = station_on c k.
Proof.
  intros Hne. unfold station_on, set_station_bit. cbn. rewrite load_store.
  pose proof (sid_bit_range sid). pose proof (sid_bit_range k).
  destruct (Z.eqb_spec (Z.shiftr sid 3) (Z.shiftr k 3)) as [Hb|Hb]; cbn [andb];
    [|reflexivity].
  destruct (in_table (station_bits (os c)) (Z.shiftr sid 3)); [|reflexivity].
  assert (Hs : Z.land k 7 <> Z.land sid 7).
  { intros E. apply Hne. rewrite (sid_split k), (sid_split sid). lia. }
  rewrite Hb. destruct (truthy v).
  - rewrite bit_is_set_set by lia.
    destruct (Z.eqb_spec (Z.land k 7) (Z.land sid 7)); [contradiction | reflexivity].
  - rewrite bit_is_set_clear by lia.
    destruct (Z.eqb_spec (Z.land k 7) (Z.land sid 7)); [contradiction | reflexivity].
Qed.

Lemma bits_length_set_station_bit sid v c :
  length (station_bits (os (set_station_bit sid v c))) = length (station_bits (os c)).
Proof. unfold set_station_bit. cbn. apply length_store. Qed.

Lemma bits_length_turn_off_station sid mas t c :
  length (station_bits (os (turn_off_station sid mas t c)))
  = length (station_bits (os c)).
Proof. rewrite os_turn_off_station. apply bits_length_set_station_bit. Qed.

(** The expiry half of an iteration. *)
Lemma expire_station_effect t sid c k :
  k <> status_mas (status (os c)) - 1 ->
  let c' := expire_station t sid c in
  os_config (os c') = os_config (os c)
  /\ length (station_bits (os c')) = length (station_bits (os c))
  /\ station_on c' k = (if (k =? sid) && expired t c sid then false else station_on c k)
  /\ start_of c' k = (if (k =? sid) && expired t c sid then 0 else start_of c k)
  /\ stop_of c' k = (if (k =? sid) && expired t c sid then 0 else stop_of c k)
  /\ index_of c' k = (if (k =? sid) && expired t c sid then 0 else index_of c k).
Proof.
  intros Hk. cbv zeta. unfold expire_station, expired.
  destruct (0 <? index_of c sid); cbn [andb];
    [|rewrite !andb_false_r; repeat split; reflexivity].
  destruct (stop_of c sid <=? t);
    [|rewrite !andb_false_r; repeat split; reflexivity].
  rewrite !andb_true_r, os_config_turn_off_station, bits_length_turn_off_station,
    station_on_turn_off_station, start_of_turn_off_station,
    index_of_turn_off_station, stop_of_turn_off_station by exact Hk.
  repeat split.
Qed.

(** [schedule_master] only assigns the master's entry and bit. *)
Lemma schedule_master_frame t sid c k :
  k <> byte (status_mas (status (os c)) - 1) ->
  let c' := schedule_master t sid c in
  station_on c' k = station_on c k /\ start_of c' k = start_of c k
  /\ stop_of c' k = stop_of c k /\ index_of c' k = index_of c k.
Proof.
  intros Hk. cbv zeta. unfold schedule_master. cbv zeta.
  set (masid := byte (status_mas (status (os c)) - 1)) in *.
  match goal with |- context [if ?b then _ else _] => destruct b end.
  - rewrite station_on_set_station_bit_ne by exact Hk.
    rewrite start_of_set_station_bit, stop_of_set_station_bit, index_of_set_station_bit.
    unfold station_on, start_of, stop_of, index_of. proj_simpl.
    rewrite !load_store_ne by lia. repeat split.
  - unfold station_on, start_of, stop_of, index_of. proj_simpl.
    rewrite !load_store_ne by lia. repeat split.
Qed.

Lemma bits_length_schedule_master t sid c :
  length (station_bits (os (schedule_master t sid c))) = length (station_bits (os c)).
Proof.
  unfold schedule_master. cbv zeta.
  match goal with |- context [if ?b then _ else _] => destruct b end;
    rewrite ?bits_length_set_station_bit; proj_simpl; reflexivity.
Qed.

Lemma os_config_station_bits b o : os_config (with_station_bits b o) = os_config o.
Proof. reflexivity. Qed.

Lemma station_on_relay_on bid s c k : station_on (relay_on bid s c) k = station_on c k.
Proof. unfold station_on. rewrite os_relay_on. reflexivity. Qed.

Lemma entries_relay_on bid s c k :
  start_of (relay_on bid s c) k = start_of c k
  /\ stop_of (relay_on bid s c) k = stop_of c k
  /\ index_of (relay_on bid s c) k = index_of c k.
Proof. unfold start_of, stop_of, index_of. rewrite pd_relay_on. repeat split. Qed.

(** The opening half of an iteration. *)
Lemma open_station_effect t bid bitvalue s mas c k :
  0 <= s < 8 -> 0 <= bid * 8 + s < 256 -> 0 <= mas <= 256 ->
  status_mas (status (os c)) = mas ->
  in_table (station_bits (os c)) bid = true ->
  k <> mas - 1 ->
  let sid := bid * 8 + s in
  let opening := negb (truthy (Z.land (Z.shiftr bitvalue s) 1))
                 && (start_of c sid <=? t) && (t <? stop_of c sid) in
  let c' := open_station t bid bitvalue s mas c in
  os_config (os c') = os_config (os c)
  /\ length (station_bits (os c')) = length (station_bits (os c))
  /\ station_on c' k = (if (k =? sid) && opening then true else station_on c k)
  /\ start_of c' k = start_of c k
  /\ stop_of c' k = stop_of c k
  /\ index_of c' k = index_of c k.
Proof.
  intros Hs Hsid Hmas Hm Hin Hk. cbv zeta. unfold open_station.
  rewrite byte_small by lia. cbv zeta.
  destruct (negb (truthy (Z.land (Z.shiftr bitvalue s) 1))); cbn [andb];
    [|rewrite andb_false_r; repeat split; reflexivity].
  destruct ((start_of c (bid * 8 + s) <=? t) && (t <? stop_of c (bid * 8 + s)));
    [|rewrite andb_false_r; repeat split; reflexivity].
  rewrite andb_true_r.
  set (sid := bid * 8 + s) in *. set (c1 := set_station_bit sid 1 c).
  assert (Hon1 : station_on c1 k = if k =? sid then true else station_on c k).
  { unfold c1. apply station_on_set_station_bit_1; [reflexivity|].
    unfold sid. destruct (sid_of_board_bit bid s Hs) as [-> _]. exact Hin. }
  rewrite view_relay_on, station_on_relay_on.
  destruct (entries_relay_on bid s
              (if (0 <? mas) && negb (mas =? sid + 1)
                  && bit_is_set (load (masop_bits (os c1)) bid) s
                  && truthy (status_seq (status (os c1)))
               then schedule_master t sid c1 else c1) k) as (-> & -> & ->).
  rewrite os_relay_on.
  destruct ((0 <? mas) && negb (mas =? sid + 1)
            && bit_is_set (load (masop_bits (os c1)) bid) s
            && truthy (status_seq (status (os c1)))) eqn:Hcond.
  - assert (Hpos : 0 < mas).
    { rewrite !andb_true_iff in Hcond. destruct Hcond as (((Hp & _) & _) & _).
      apply Z.ltb_lt. exact Hp. }
    assert (Hk' : k <> byte (status_mas (status (os c1)) - 1)).
    { unfold c1. rewrite status_set_station_bit, Hm, byte_small by lia. exact Hk. }
    destruct (schedule_master_frame t sid c1 k Hk') as (-> & -> & -> & ->).
    rewrite (view_schedule_master os_config os_config_station_bits),
      bits_length_schedule_master.
    unfold c1 at 1 2. rewrite bits_length_set_station_bit.
    split; [reflexivity|]. split; [reflexivity|]. split; [exact Hon1|].
    repeat split.
  - unfold c1 at 1 2. rewrite bits_length_set_station_bit.
    split; [reflexivity|]. split; [reflexivity|]. split; [exact Hon1|].
    repeat split.
Qed.

(** One iteration of the run-time loop, seen from a station [k] that is not
    the master. *)
Lemma run_station_effect t bid bitvalue s c k :
  0 <= t -> 0 <= s < 8 -> 0 <= bid * 8 + s < 256 ->
  0 <= status_mas (status (os c)) <= 256 ->
  in_table (station_bits (os c)) bid = true ->
  k <> status_mas (status (os c)) - 1 ->
  let sid := bid * 8 + s in
  let opening := negb (expired t c sid)
                 && negb (truthy (Z.land (Z.shiftr bitvalue s) 1))
                 && (start_of c sid <=? t) && (t <? stop_of c sid) in
  let c' := run_station t bid bitvalue s c in
  os_config (os c') = os_config (os c)
  /\ length (station_bits (os c')) = length (station_bits (os c))
  /\ station_on c' k = (if k =? sid
                        then if expired t c sid then false
                             else if opening then true else station_on c k
                        else station_on c k)
  /\ start_of c' k = (if (k =? sid) && expired t c sid then 0 else start_of c k)
  /\ stop_of c' k = (if (k =? sid) && expired t c sid then 0 else stop_of c k)
  /\ index_of c' k = (if (k =? sid) && expired t c sid then 0 else index_of c k).
Proof.
  intros Ht Hs Hsid Hmas Hin Hk. cbv zeta. rewrite run_station_phases.
  rewrite byte_small by lia. set (sid := bid * 8 + s) in *.
  destruct (expire_station_effect t sid c k Hk) as (E1 & E2 & E3 & E4 & E5 & E6).
  cbv zeta in *. set (c1 := expire_station t sid c) in *.
  assert (Hm1 : status_mas (status (os c1)) = status_mas (status (os c))).
  { destruct (os_config_fields _ _ E1) as (_ & _ & _ & _ & ->). reflexivity. }
  assert (Hin1 : in_table (station_bits (os c1)) bid = true).
  { unfold in_table in *. rewrite E2. exact Hin. }
  destruct (open_station_effect t bid bitvalue s (status_mas (status (os c))) c1 k
              Hs Hsid Hmas Hm1 Hin1 Hk) as (O1 & O2 & O3 & O4 & O5 & O6).
  cbv zeta in *. fold sid in O1, O2, O3, O4, O5, O6 |- *.
  rewrite O1, O2, O3, O4, O5, O6, E1, E2, E3, E4, E5, E6.
  split; [reflexivity|]. split; [reflexivity|].
  split; [|repeat split].
  destruct (Z.eqb_spec k sid) as [->|Hne]; cbn [andb]; [|reflexivity].
  (* the station of this iteration *)
  destruct (expire_station_effect t sid c sid Hk) as (_ & _ & _ & S4 & S5 & _).
  cbv zeta in S4, S5. fold c1 in S4, S5. rewrite Z.eqb_refl in S4, S5. cbn [andb] in S4, S5.
  rewrite S4, S5.
  destruct (expired t c sid); cbn [negb andb].
  - assert ((t <? 0) = false) as -> by (apply Z.ltb_ge; lia).
    rewrite !andb_false_r. reflexivity.
  - reflexivity.
Qed.

Lemma run_station_inv t c0 k bid bitvalue s c :
  wf_controller c0 -> 0 <= t ->
  0 <= status_mas (status (os c0)) <= 256 ->
  k <> status_mas (status (os c0)) - 1 ->
  0 <= bid < nboards (os c0) -> 0 <= s < 8 ->
  (bid * 8 + s = k ->
   truthy (Z.land (Z.shiftr bitvalue s) 1) = station_on c0 k) ->
  run_inv t c0 k (bid * 8 + s) c ->
  run_inv t c0 k (bid * 8 + (s + 1)) (run_station t bid bitvalue s c).
Proof.
  intros W Ht Hmas Hk Hbid Hs Hsnap [Icfg Ilen Itodo Idone].
  pose proof (wf_nboards _ W) as Hnb.
  destruct (os_config_fields _ _ Icfg) as (_ & _ & _ & _ & Hstatus).
  assert (Hin : in_table (station_bits (os c)) bid = true).
  { apply in_table_true. rewrite Ilen, (wf_station_bits _ W). lia. }
  destruct (run_station_effect t bid bitvalue s c k Ht Hs ltac:(lia)
              ltac:(rewrite Hstatus; exact Hmas) Hin ltac:(rewrite Hstatus; exact Hk))
    as (E1 & E2 & E3 & E4 & E5 & E6).
  cbv zeta in *. set (sid := bid * 8 + s) in *.
  constructor.
  - rewrite E1. exact Icfg.
  - rewrite E2. exact Ilen.
  - intros Hn. rewrite E3, E4, E5, E6.
    destruct (Z.eqb_spec k sid); [lia|]. cbn [andb]. apply Itodo. lia.
  - intros Hn. rewrite E3, E4, E5, E6.
    destruct (Z.eqb_spec k sid) as [->|Hne]; cbn [andb].
    + destruct (Itodo ltac:(lia)) as (T1 & T2 & T3 & T4).
      assert (Hexp : expired t c sid = expired t c0 sid).
      { unfold expired. rewrite T3, T4. reflexivity. }
      rewrite Hexp, T1, T2, T3, T4, (Hsnap eq_refl).
      unfold opens. destruct (expired t c0 sid); repeat split.
    + apply Idone. lia.
Qed.

Lemma run_board_inv t c0 k bid c :
  wf_controller c0 -> 0 <= t ->
  0 <= status_mas (status (os c0)) <= 256 ->
  k <> status_mas (status (os c0)) - 1 ->
  0 <= bid < nboards (os c0) ->
  run_inv t c0 k (bid * 8) c ->
  run_inv t c0 k ((bid + 1) * 8) (run_board t bid c).
Proof.
  intros W Ht Hmas Hk Hbid Inv. unfold run_board.
  replace ((bid + 1) * 8) with (bid * 8 + 8) by lia.
  apply (for_loop_inv (fun s x => run_inv t c0 k (bid * 8 + s) x)); [lia | |].
  - rewrite Z.add_0_r. exact Inv.
  - intros s x Hs Hx. apply run_station_inv; try assumption.
    intros Hsk. rewrite run_board_bitvalue by lia. rewrite Hsk.
    apply (run_todo _ _ _ _ _ Inv). lia.
Qed.

(** The run-time pass, seen from a station that is not the master: a station
    whose stop time has come ends up off with its entry reset; otherwise a
    station that was off and is inside its window is on; otherwise nothing
    about it changes. *)
Lemma run_stations_station t c k :
  wf_controller c -> 0 <= t ->
  0 <= status_mas (status (os c)) <= 256 ->
  k <> status_mas (status (os c)) - 1 ->
  0 <= k < nstations (os c) ->
  run_inv t c k (8 * nboards (os c)) (run_stations t c).
Proof.
  intros W Ht Hmas Hk Hr. pose proof (wf_nboards _ W) as Hnb. unfold run_stations.
  replace (8 * nboards (os c)) with (nboards (os c) * 8) by lia.
  apply (for_loop_inv (fun b x => run_inv t c k (b * 8) x)); [lia | |].
  - constructor; auto. intros; lia.
  - intros b x Hb Hx. apply run_board_inv; assumption.
Qed.

Lemma wf_example_queued : wf_controller example_queued.
Proof. constructor; [change (0 <= 1 <= 32); lia | reflexivity ..]. Qed.

(** X1.  In the run-time pass a station other than the master that is
    scheduled (program index above 0) and whose stop time has come
    ([curr_time >= stop]) ends up off with its schedule entry reset to idle,
    whether it was running or still waiting. *)
Theorem run_stations_expiry t c k :
  wf_controller c -> 0 <= t ->
  0 <= status_mas (status (os c)) <= 256 ->
  k <> status_mas (status (os c)) - 1 ->
  0 <= k < nstations (os c) ->
  0 < index_of c k -> stop_of c k <= t ->
  idle (run_stations t c) k.
Proof.
  intros W Ht Hmas Hk Hr Hidx Hstop.
  pose proof (run_stations_station t c k W Ht Hmas Hk Hr) as Inv.
  destruct (run_done _ _ _ _ _ Inv) as (D1 & D2 & D3 & D4);
    [rewrite <- (wf_nstations _ W); lia|].
  assert (expired t c k = true) as He.
  { unfold expired. apply andb_true_iff. split; [apply Z.ltb_lt | apply Z.leb_le]; lia. }
  rewrite He in D1, D2, D3, D4. repeat split; assumption.
Qed.

Lemma run_stations_expiry_witness : idle (run_stations 700 example_queued) 0.
Proof.
  apply run_stations_expiry;
    [exact wf_example_queued | lia | change (0 <= 2 <= 256); lia
    | change (0 <> 2 - 1); lia | change (0 <= 0 < 8); lia
    | change (0 < 1); lia | change (700 <= 700); lia].
Defined.

(** X2.  In the run-time pass a station other than the master that is off and
    whose window contains the current time ([start <= curr_time < stop]) is
    turned on, and its schedule entry is kept. *)
Theorem run_stations_opening t c k :
  wf_controller c -> 0 <= t ->
  0 <= status_mas (status (os c)) <= 256 ->
  k <> status_mas (status (os c)) - 1 ->
  0 <= k < nstations (os c) ->
  station_on c k = false -> start_of c k <= t < stop_of c k ->
  let c' := run_stations t c in
  station_on c' k = true
  /\ start_of c' k = start_of c k /\ stop_of c' k = stop_of c k
  /\ index_of c' k = index_of c k.
Proof.
  intros W Ht Hmas Hk Hr Hoff Hwin.
  pose proof (run_stations_station t c k W Ht Hmas Hk Hr) as Inv.
  destruct (run_done _ _ _ _ _ Inv) as (D1 & D2 & D3 & D4);
    [rewrite <- (wf_nstations _ W); lia|].
  assert (expired t c k = false) as He.
  { unfold expired. apply andb_false_iff. right. apply Z.leb_gt. lia. }
  assert (opens t c k = true) as Ho.
  { unfold opens. rewrite He, Hoff. cbn [negb andb].
    apply andb_true_iff. split; [apply Z.leb_le | apply Z.ltb_lt]; lia. }
  rewrite He in D1, D2, D3, D4. rewrite Ho in D1. cbv zeta. repeat split; assumption.
Qed.

Lemma run_stations_opening_witness :
  station_on (run_stations 100 example_queued) 0 = true
  /\ stop_of (run_stations 100 example_queued) 0 = stop_of example_queued 0.
Proof.
  pose proof (run_stations_opening 100 example_queued 0 wf_example_queued
                ltac:(lia) ltac:(change (0 <= 2 <= 256); lia)
                ltac:(change (0 <> 2 - 1); lia) ltac:(change (0 <= 0 < 8); lia)
                eq_refl ltac:(change (100 <= 100 < 700); lia)) as H.
  cbv zeta in H. destruct H as (H1 & _ & H3 & _). exact (conj H1 H3).
Defined.

(** X3.  The run-time pass leaves every other station (not the master) as it
    is: a station whose stop time has not come and that is either already on
    or outside its window keeps its station bit and its schedule entry.  In
    particular idle stations are never touched. *)
Theorem run_stations_untouched t c k :
  wf_controller c -> 0 <= t ->
  0 <= status_mas (status (os c)) <= 256 ->
  k <> status_mas (status (os c)) - 1 ->
  0 <= k < nstations (os c) ->
  expired t c k = false -> opens t c k = false ->
  let c' := run_stations t c in
  station_on c' k = station_on c k
  /\ start_of c' k = start_of c k /\ stop_of c' k = stop_of c k
  /\ index_of c' k = index_of c k.
Proof.
  intros W Ht Hmas Hk Hr He Ho.
  pose proof (run_stations_station t c k W Ht Hmas Hk Hr) as Inv.
  destruct (run_done _ _ _ _ _ Inv) as (D1 & D2 & D3 & D4);
    [rewrite <- (wf_nstations _ W); lia|].
  rewrite He in D1, D2, D3, D4. rewrite Ho in D1. cbv zeta. repeat split; assumption.
Qed.

Lemma run_stations_untouched_witness :
  station_on (run_stations 100 example_queued) 2 = station_on example_queued 2
  /\ index_of (run_stations 100 example_queued) 2 = index_of example_queued 2.
Proof.
  pose proof (run_stations_untouched 100 example_queued 2 wf_example_queued
                ltac:(lia) ltac:(change (0 <= 2 <= 256); lia)
                ltac:(change (2 <> 2 - 1); lia) ltac:(change (0 <= 2 < 8); lia)
                eq_refl eq_refl) as H.
  cbv zeta in H. destruct H as (H1 & _ & _ & H4). exact (conj H1 H4).
Defined.

(** ** reset_all_stations *)

Lemma reset_all_stations_effect t c :
  wf_controller c ->
  let c' := reset_all_stations t c in
  os c' = os c
  /\ scheduled_start_time (pd c') = scheduled_start_time (pd c)
  /\ scheduled_program_index (pd c') = scheduled_program_index (pd c)
  /\ length (scheduled_stop_time (pd c')) = length (scheduled_stop_time (pd c))
  /\ forall k, stop_of c' k
               = if (0 <=? k) && (k <? nstations (os c)) && (0 <? index_of c k)
                 then t else stop_of c k.
Proof.
  intros W. cbv zeta. unfold reset_all_stations.
  pose proof (wf_nboards _ W). pose proof (wf_nstations _ W).
  apply (for_loop_inv (fun i x =>
    os x = os c
    /\ scheduled_start_time (pd x) = scheduled_start_time (pd c)
    /\ scheduled_program_index (pd x) = scheduled_program_index (pd c)
    /\ length (scheduled_stop_time (pd x)) = length (scheduled_stop_time (pd c))
    /\ forall k, stop_of x k
                 = if (0 <=? k) && (k <? i) && (0 <? index_of c k)
                   then t else stop_of c k)); [lia | |].
  - repeat split. intros k.
    destruct (Z.leb_spec 0 k), (Z.ltb_spec k 0); try lia; reflexivity.
  - intros i x Hi (Hos & Hst & Hix & Hlen & Hsp).
    assert (Hidx : index_of x i = index_of c i) by (unfold index_of; rewrite Hix; reflexivity).
    rewrite Hidx.
    assert (Hin : in_table (scheduled_stop_time (pd x)) i = true).
    { apply in_table_true. rewrite Hlen, (wf_stop _ W). lia. }
    destruct (0 <? index_of c i) eqn:Hq.
    + rewrite os_set_stop. proj_simpl. rewrite length_store.
      repeat split; try assumption. intros k.
      unfold stop_of. proj_simpl. rewrite load_store, Hin, andb_true_r.
      fold (stop_of x k). rewrite Hsp, (Z.eqb_sym i k).
      destruct (Z.eqb_spec k i) as [->|Hne].
      * destruct (Z.leb_spec 0 i), (Z.ltb_spec i (i + 1)); try lia.
        rewrite Hq. reflexivity.
      * destruct (Z.leb_spec 0 k), (Z.ltb_spec k i), (Z.ltb_spec k (i + 1));
          try lia; reflexivity.
    + repeat split; try assumption. intros k. rewrite Hsp.
      destruct (Z.eqb_spec k i) as [->|Hne].
      * rewrite Hq, !andb_false_r. reflexivity.
      * destruct (Z.leb_spec 0 k), (Z.ltb_spec k i), (Z.ltb_spec k (i + 1));
          try lia; reflexivity.
Qed.

(** X4.  After [reset_all_stations] at time [t], the next run-time pass (at
    any time from [t] on) turns off every scheduled station other than the
    master and resets its entry: stopping everything takes one pass. *)
Theorem reset_all_stations_then_run t t' c k :
  wf_controller c -> 0 <= t <= t' ->
  0 <= status_mas (status (os c)) <= 256 ->
  k <> status_mas (status (os c)) - 1 ->
  0 <= k < nstations (os c) ->
  0 < index_of c k ->
  idle (run_stations t' (reset_all_stations t c)) k.
Proof.
  intros W Ht Hmas Hk Hr Hidx.
  destruct (reset_all_stations_effect t c W) as (Hos & Hst & Hix & Hlen & Hsp).
  cbv zeta in *. set (c1 := reset_all_stations t c) in *.
  assert (W1 : wf_controller c1).
  { destruct W. constructor; rewrite ?Hos, ?Hst, ?Hix, ?Hlen; assumption. }
  pose proof (run_stations_station t' c1 k W1 ltac:(lia)
                ltac:(rewrite Hos; exact Hmas) ltac:(rewrite Hos; exact Hk)
                ltac:(rewrite Hos; exact Hr)) as Inv.
  destruct (run_done _ _ _ _ _ Inv) as (D1 & D2 & D3 & D4);
    [rewrite <- (wf_nstations _ W1), Hos; lia|].
  assert (expired t' c1 k = true) as He.
  { unfold expired. unfold index_of. rewrite Hix. fold (index_of c k). rewrite Hsp.
    destruct (Z.leb_spec 0 k), (Z.ltb_spec k (nstations (os c))), (Z.ltb_spec 0 (index_of c k));
      try lia. cbn [andb]. apply Z.leb_le. lia. }
  rewrite He in D1, D2, D3, D4. repeat split; assumption.
Qed.

Lemma reset_all_stations_then_run_witness :
  idle (run_stations 300 (reset_all_stations 250 example_running)) 0.
Proof.
  apply reset_all_stations_then_run;
    [constructor; [change (0 <= 1 <= 32); lia | reflexivity ..] | lia
    | change (0 <= 2 <= 256); lia | change (0 <> 2 - 1); lia
    | change (0 <= 0 < 8); lia | change (0 < 1); lia].
Defined.

(** ** The override pass: when it does nothing *)

(** The pass changes nothing when every station it would act on is already
    off and not scheduled. *)
Lemma process_dynamic_events_fixed t c :
  0 <= nboards (os c) <= 32 ->
  (forall k, 0 <= k < 8 * nboards (os c) -> dyn_target c k = true ->
             station_on c k = false /\ index_of c k <= 0) ->
  process_dynamic_events t c = c.
Proof.
  intros Hn Hq. unfold process_dynamic_events.
  apply (for_loop_preserves (fun x => x = c)); [reflexivity|].
  intros bid x Hbid ->. unfold dynamic_event_board.
  apply (for_loop_preserves (fun x => x = c)); [reflexivity|].
  intros s x Hs ->. unfold dynamic_event_station.
  rewrite byte_small by lia.
  assert (Hc : (index_of c (bid * 8 + s) <? 99)
               && (negb (status_enabled (status (os c)))
                   || (rain_active c
                       && negb (bit_is_set (load (ignrain_bits (os c)) bid) s)))
               = dyn_target c (bid * 8 + s)).
  { unfold dyn_target, override_applies.
    destruct (sid_of_board_bit bid s Hs) as [-> ->]. reflexivity. }
  rewrite Hc. destruct (dyn_target c (bid * 8 + s)) eqn:Ht; [|reflexivity].
  destruct (Hq (bid * 8 + s) ltac:(lia) Ht) as (Hoff & Hidx).
  assert (bit_is_set (load (station_bits (os c)) bid) s = false) as ->.
  { rewrite <- Hoff. unfold station_on.
    destruct (sid_of_board_bit bid s Hs) as [-> ->]. reflexivity. }
  destruct (Z.ltb_spec 0 (index_of c (bid * 8 + s))); [lia | reflexivity].
Qed.

(** X5.  While the controller is enabled and neither a rain delay nor the
    rain sensor (with its option set) is active, [process_dynamic_events]
    changes nothing at all. *)
Theorem process_dynamic_events_no_override t c :
  0 <= nboards (os c) <= 32 ->
  status_enabled (status (os c)) = true -> rain_active c = false ->
  process_dynamic_events t c = c.
Proof.
  intros Hn Hen Hrain. apply process_dynamic_events_fixed; [exact Hn|].
  intros k _ Ht. unfold dyn_target, override_applies in Ht.
  rewrite Hen, Hrain, andb_false_r in Ht. discriminate.
Qed.

Lemma process_dynamic_events_no_override_witness :
  process_dynamic_events 200 example_running = example_running.
Proof.
  apply process_dynamic_events_no_override;
    [change (0 <= 1 <= 32); lia | reflexivity | reflexivity].
Defined.

(** X6.  [process_dynamic_events] never touches a station with program index
    99 or above (a manual run), nor, while the controller is enabled, a
    station whose ignore-rain bit is set: such a station keeps its station
    bit, its start time and its program index, and, unless it is the master,
    its stop time. *)
Theorem process_dynamic_events_spares t c k :
  0 <= nboards (os c) <= 32 ->
  0 <= k < 8 * nboards (os c) ->
  99 <= index_of c k
  \/ (status_enabled (status (os c)) = true
      /\ bit_is_set (load (ignrain_bits (os c)) (Z.shiftr k 3)) (Z.land k 7) = true) ->
  let c' := process_dynamic_events t c in
  station_on c' k = station_on c k
  /\ start_of c' k = start_of c k /\ index_of c' k = index_of c k
  /\ (k <> status_mas (status (os c)) - 1 -> stop_of c' k = stop_of c k).
Proof.
  intros Hn Hk Hsafe. pose proof (process_dynamic_events_inv t c Hn) as Inv. cbv zeta.
  assert (Ht : dyn_target c k = false).
  { unfold dyn_target, override_applies. destruct Hsafe as [Hidx|(Hen & Hign)].
    - destruct (Z.ltb_spec (index_of c k) 99); [lia | reflexivity].
    - rewrite Hen, Hign. cbn. rewrite !andb_false_r. reflexivity. }
  rewrite (dyn_done_on _ _ _ _ Inv k Hk), (dyn_done_start _ _ _ _ Inv k Hk),
    (dyn_done_index _ _ _ _ Inv k Hk), Ht. cbn [negb andb].
  rewrite andb_true_r. repeat split.
  intros Hm. rewrite (dyn_stop _ _ _ _ Inv k Hm), Ht, !andb_false_r. reflexivity.
Qed.

Lemma process_dynamic_events_spares_witness :
  let c := set_index 0 99 example_disabled in
  station_on (process_dynamic_events 200 c) 0 = station_on c 0
  /\ index_of (process_dynamic_events 200 c) 0 = 99.
Proof.
  pose proof (process_dynamic_events_spares 200 (set_index 0 99 example_disabled) 0
                ltac:(change (0 <= 1 <= 32); lia) ltac:(change (0 <= 0 < 8 * 1); lia)
                ltac:(left; change (99 <= 99); lia)) as H.
  cbv zeta in H. destruct H as (H1 & _ & H3 & _). exact (conj H1 H3).
Defined.

(** X7.  [process_dynamic_events] is idempotent: a second pass at once after
    the first changes nothing (loop() runs it twice in the same second). *)
Theorem process_dynamic_events_idempotent t c :
  0 <= nboards (os c) <= 32 ->
  process_dynamic_events t (process_dynamic_events t c) = process_dynamic_events t c.
Proof.
  intros Hn. pose proof (process_dynamic_events_inv t c Hn) as Inv.
  set (c' := process_dynamic_events t c) in *.
  destruct (os_config_fields _ _ (dyn_config _ _ _ _ Inv)) as (Hnb & Hign & _ & Hopt & Hst).
  apply process_dynamic_events_fixed; [rewrite Hnb; exact Hn|].
  intros k Hk Ht. rewrite Hnb in Hk.
  assert (Hov : override_applies c' k = override_applies c k).
  { unfold override_applies, rain_active. rewrite Hign, Hopt, Hst. reflexivity. }
  unfold dyn_target in Ht. rewrite Hov in Ht.
  rewrite (dyn_done_on _ _ _ _ Inv k Hk).
  rewrite (dyn_done_index _ _ _ _ Inv k Hk) in Ht |- *.
  unfold dyn_target in *.
  apply andb_true_iff in Ht. destruct Ht as (Hlt & Hovt). rewrite Hovt, !andb_true_r in *.
  destruct (Z.ltb_spec (index_of c k) 99) as [Hi|Hi]; cbn [andb negb] in *.
  - rewrite andb_false_r. split; [reflexivity|].
    destruct (station_on c k); cbn [orb]; [lia|].
    destruct (Z.ltb_spec 0 (index_of c k)); lia.
  - apply Z.ltb_lt in Hlt. lia.
Qed.

Lemma process_dynamic_events_idempotent_witness :
  process_dynamic_events 200 (process_dynamic_events 200 example_disabled)
  = process_dynamic_events 200 example_disabled.
Proof.
  apply process_dynamic_events_idempotent. change (0 <= 1 <= 32). lia.
Defined.

(** ** turn_off_station, whatever the station *)

(** X8.  [turn_off_station] always leaves its station off with the schedule
    entry reset (start, stop and program index 0), and touches no other
    station's bit, start time or program index; the only other stop time it
    may assign is the one at index [mas - 1]. *)
Theorem turn_off_station_resets sid mas t c :
  let c' := turn_off_station sid mas t c in
  idle c' sid
  /\ forall k, k <> sid ->
       station_on c' k = station_on c k /\ start_of c' k = start_of c k
       /\ index_of c' k = index_of c k
       /\ (k <> mas - 1 -> stop_of c' k = stop_of c k).
Proof.
  cbv zeta. split.
  - repeat split.
    + rewrite start_of_turn_off_station, Z.eqb_refl. reflexivity.
    + unfold stop_of. rewrite stop_turn_off_station, load_store_0, Z.eqb_refl. reflexivity.
    + rewrite index_of_turn_off_station, Z.eqb_refl. reflexivity.
    + rewrite station_on_turn_off_station, Z.eqb_refl. reflexivity.
  - intros k Hk.
    rewrite station_on_turn_off_station, start_of_turn_off_station,
      index_of_turn_off_station.
    destruct (Z.eqb_spec k sid); [contradiction|]. repeat split.
    intros Hm. rewrite stop_of_turn_off_station by exact Hm.
    destruct (Z.eqb_spec k sid); [contradiction | reflexivity].
Qed.

(** ** The master station in parallel mode *)

Lemma master_parallel_masbit c n :
  let m := for_loop n (master_parallel_station c) 0 in
  (m = 0 \/ m = 1)
  /\ (m = 1 <-> exists sid, 0 <= sid < n /\ triggers_master c sid = true).
Proof.
  cbv zeta. destruct (Z.le_gt_cases 0 n) as [Hn|Hn].
  - apply (for_loop_inv (fun i m =>
        (m = 0 \/ m = 1)
        /\ (m = 1 <-> exists sid, 0 <= sid < i /\ triggers_master c sid = true)));
      [exact Hn | |].
    + split; [left; reflexivity|]. split; [discriminate|]. intros (sid & Hs & _). lia.
    + intros i m Hi (Hm & Hiff). unfold master_parallel_station.
      fold (triggers_master c i).
      destruct Hm as [-> | ->]; cbn [truthy Z.eqb negb].
      * destruct (triggers_master c i) eqn:Ht.
        -- split; [right; reflexivity|]. split; [|reflexivity].
           intros _. exists i. split; [lia | exact Ht].
        -- split; [left; reflexivity|]. split; [discriminate|].
           intros (sid & Hs & Hts).
           destruct (Z.eq_dec sid i) as [->|Hne]; [congruence|].
           assert (0 = 1) as E; [|discriminate E].
           apply Hiff. exists sid. split; [lia | exact Hts].
      * split; [right; reflexivity|]. split; [|reflexivity].
        intros _. destruct (proj1 Hiff eq_refl) as (sid & Hs & Hts).
        exists sid. split; [lia | exact Hts].
  - rewrite for_loop_0 by lia. split; [left; reflexivity|].
    split; [discriminate|]. intros (sid & Hs & _). lia.
Qed.

(** X9.  In parallel mode with a master configured, after the master block of
    loop() the master's station bit is on exactly when some station other
    than the master is on and has its activate-master bit set; no other
    station bit and no schedule entry changes. *)
Theorem master_parallel_or c :
  wf_controller c ->
  0 < status_mas (status (os c)) <= nstations (os c) ->
  status_seq (status (os c)) = 0 ->
  let c' := master_parallel c in
  (station_on c' (status_mas (status (os c)) - 1) = true
   <-> exists sid, 0 <= sid < nstations (os c) /\ triggers_master c sid = true)
  /\ (forall k, k <> status_mas (status (os c)) - 1 -> station_on c' k = station_on c k)
  /\ pd c' = pd c.
Proof.
  intros W Hmas Hseq. cbv zeta. unfold master_parallel.
  pose proof (wf_nboards _ W) as Hnb. pose proof (wf_nstations _ W) as Hns.
  assert ((0 <? status_mas (status (os c))) = true) as -> by (apply Z.ltb_lt; lia).
  rewrite Hseq. cbn [Z.eqb andb]. rewrite byte_small by lia.
  set (mas := status_mas (status (os c))) in *.
  destruct (master_parallel_masbit c (nstations (os c))) as (Hm & Hiff).
  cbv zeta in Hm, Hiff.
  destruct (wf_in_tables c (mas - 1) W ltac:(lia)) as (_ & _ & _ & Hin).
  split; [|split; [|reflexivity]].
  - destruct Hm as [E|E]; rewrite E in *.
    + rewrite station_on_set_station_bit_0, Z.eqb_refl.
      split; [discriminate|]. intros H. apply Hiff in H. discriminate.
    + rewrite (station_on_set_station_bit_1 _ 1 _ _ eq_refl Hin), Z.eqb_refl.
      split; [intros _; apply Hiff; reflexivity | reflexivity].
  - intros k Hk. apply station_on_set_station_bit_ne. exact Hk.
Qed.

Lemma master_parallel_or_witness :
  let c := upd_status (with_seq_mas 0 2) (set_station_bit 0 1 example_controller) in
  station_on (master_parallel c) (2 - 1) = true.
Proof.
  cbv zeta.
  set (c := upd_status (with_seq_mas 0 2) (set_station_bit 0 1 example_controller)).
  assert (W : wf_controller c) by (constructor; [change (0 <= 1 <= 32); lia | reflexivity ..]).
  destruct (master_parallel_or c W ltac:(change (0 < 2 <= 8); lia) eq_refl) as (H & _).
  apply H. exists 0. split; [change (0 <= 0 < 8); lia | reflexivity].
Defined.

(** ** The last stop time *)

Lemma last_stop_loop_max c n :
  last_stop_time (pd c) = 0 ->
  let r := for_loop n last_stop_station (c, false) in
  let l := last_stop_time (pd (fst r)) in
  (forall sid, 0 <= sid < n -> pending_stop (stop_of c sid) = true -> stop_of c sid <= l)
  /\ ((l = 0 /\ forall sid, 0 <= sid < n -> pending_stop (stop_of c sid) = false)
      \/ exists sid, 0 <= sid < n /\ pending_stop (stop_of c sid) = true
                     /\ l = stop_of c sid).
Proof.
  intros H0. cbv zeta. destruct (Z.le_gt_cases 0 n) as [Hn|Hn].
  - apply (for_loop_inv (fun i r =>
        scheduled_stop_time (pd (fst r)) = scheduled_stop_time (pd c)
        -> (forall sid, 0 <= sid < i -> pending_stop (stop_of c sid) = true ->
              stop_of c sid <= last_stop_time (pd (fst r)))
           /\ ((last_stop_time (pd (fst r)) = 0
                /\ forall sid, 0 <= sid < i -> pending_stop (stop_of c sid) = false)
               \/ exists sid, 0 <= sid < i /\ pending_stop (stop_of c sid) = true
                              /\ last_stop_time (pd (fst r)) = stop_of c sid)));
      [exact Hn | | |].
    + intros _. split; [intros; lia|]. left. split; [exact H0 | intros; lia].
    + intros i x Hi IH. unfold last_stop_station.
      destruct (pending_stop (stop_of (fst x) i)) eqn:P; cbn [fst].
      * change (scheduled_stop_time (pd (upd_pd _ (fst x))))
          with (scheduled_stop_time (pd (fst x))).
        intros Hst. destruct (IH Hst) as (Hmax & Hat).
        assert (Hsi : stop_of (fst x) i = stop_of c i)
          by (unfold stop_of; rewrite Hst; reflexivity).
        rewrite Hsi in *.
        change (last_stop_time (pd (upd_pd (with_last_stop_time ?v) (fst x)))) with v.
        pose proof (proj1 (pending_stop_true _) P) as Hp.
        destruct (Z.ltb_spec (last_stop_time (pd (fst x))) (stop_of c i)).
        -- split.
           ++ intros sid Hs Hps. destruct (Z.eq_dec sid i) as [->|Hne]; [lia|].
              specialize (Hmax sid ltac:(lia) Hps). lia.
           ++ right. exists i. split; [lia|]. split; [exact P | reflexivity].
        -- split.
           ++ intros sid Hs Hps. destruct (Z.eq_dec sid i) as [->|Hne]; [lia|].
              apply Hmax; [lia | exact Hps].
           ++ right. destruct Hat as [(Hl0 & _) | (sid & Hs & Hps & Hl)]; [lia|].
              exists sid. split; [lia|]. split; [exact Hps | exact Hl].
      * intros Hst. destruct (IH Hst) as (Hmax & Hat).
        assert (Hsi : stop_of (fst x) i = stop_of c i)
          by (unfold stop_of; rewrite Hst; reflexivity).
        rewrite Hsi in P. split.
        -- intros sid Hs Hps. destruct (Z.eq_dec sid i) as [->|Hne]; [congruence|].
           apply Hmax; [lia | exact Hps].
        -- destruct Hat as [(Hl0 & Hnone) | (sid & Hs & Hps & Hl)].
           ++ left. split; [exact Hl0|]. intros sid Hs.
              destruct (Z.eq_dec sid i) as [->|Hne]; [exact P | apply Hnone; lia].
           ++ right. exists sid. split; [lia|]. split; [exact Hps | exact Hl].
    + apply (last_stop_loop c n).
  - rewrite for_loop_0 by lia. split; [intros; lia|].
    left. split; [exact H0 | intros; lia].
Qed.

(** X10.  After the busy bit has been recomputed (lines 347-369),
    [pd.last_stop_time] is the largest pending stop time of the stations
    (pending: neither 0 nor the ULONG_MAX of an indefinite run), and 0 when no
    station has one. *)
Theorem update_program_busy_last_stop c :
  let l := last_stop_time (pd (update_program_busy c)) in
  (forall sid, 0 <= sid < nstations (os c) ->
     pending_stop (stop_of c sid) = true -> stop_of c sid <= l)
  /\ ((l = 0 /\ forall sid, 0 <= sid < nstations (os c) ->
                  pending_stop (stop_of c sid) = false)
      \/ exists sid, 0 <= sid < nstations (os c)
                     /\ pending_stop (stop_of c sid) = true /\ l = stop_of c sid).
Proof.
  cbv zeta.
  pose proof (last_stop_loop_max (upd_pd (with_last_stop_time 0) c) (nstations (os c))
                eq_refl) as H.
  cbv zeta in H.
  change (stop_of (upd_pd (with_last_stop_time 0) c)) with (stop_of c) in H.
  unfold update_program_busy.
  destruct (for_loop (nstations (os c)) last_stop_station
              (upd_pd (with_last_stop_time 0) c, false)) as [c1 b].
  cbn [fst snd] in *. destruct b; exact H.
Qed.

(** ** What the matcher reports, and the minute in which nothing fires *)

Lemma match_programs_not_found decode t c :
  wf_controller c ->
  snd (match_programs decode t c) = false ->
  let c' := fst (match_programs decode t c) in
  os c' = os c
  /\ forall k, start_of c' k = start_of c k /\ stop_of c' k = stop_of c k
               /\ index_of c' k = index_of c k.
Proof.
  intros W Hnf. cbv zeta.
  destruct (match_programs_inv decode t c W) as (Hf & Hk & Hfound).
  destruct Hf as (Hos & _ & Hst & _). split; [exact Hos|]. intros k.
  split; [unfold start_of; rewrite Hst; reflexivity|].
  destruct (Hk k) as (Hout & Hin).
  destruct (Z.le_gt_cases 0 k), (Z.lt_ge_cases k (nstations (os c)));
    try (apply Hout; lia).
  destruct (Hin ltac:(lia)) as [(_ & He) | (pid & prog & Hlt & Hfc & _)]; [exact He|].
  assert (snd (match_programs decode t c) = true) as E; [|congruence].
  apply Hfound. exists k, pid, prog. split; [lia | auto].
Qed.

(** X11.  The matcher reports a match ([match_found]) exactly when some
    stored program fires at this time and records demand for some station:
    a station that is not the master, not running and not disabled, that the
    program waters for a scaled time other than zero and that has no stop
    time yet. *)
Theorem match_programs_match_found decode t c :
  wf_controller c ->
  snd (match_programs decode t c) = true
  <-> exists k pid prog,
        0 <= k < nstations (os c) /\ 0 <= pid
        /\ programs (pd c) !! Z.to_nat pid = Some prog
        /\ check_match prog t = true /\ claims decode c prog k = true.
Proof.
  intros W. destruct (match_programs_inv decode t c W) as (_ & Hk & Hfound). split.
  - intros H. apply Hfound in H. destruct H as (k & pid & prog & Hr & _ & Hfc).
    destruct Hfc as (H0 & Hl & Hm & Hc & _). exists k, pid, prog. auto.
  - intros (k & pid & prog & Hr & H0 & Hl & Hm & Hc).
    destruct (Hk k) as (_ & Hin).
    destruct (Hin Hr) as [(Hu & _) | (pid' & prog' & Hlt & Hfc & _)].
    + assert (Hp : 0 <= pid < nprograms (pd c)).
      { apply lookup_lt_Some in Hl. unfold nprograms. lia. }
      rewrite (Hu pid prog Hp Hl Hm) in Hc. discriminate.
    + apply Hfound. exists k, pid', prog'. auto.
Qed.

Lemma wf_example_two_station : wf_controller example_two_station.
Proof. constructor; [change (0 <= 1 <= 32); lia | reflexivity ..]. Qed.

Lemma match_programs_match_found_witness :
  snd (match_programs example_decode 6000 example_two_station) = true.
Proof.
  apply (match_programs_match_found example_decode 6000 example_two_station
           wf_example_two_station).
  exists 1, 0, example_program.
  split; [change (0 <= 1 < 8); lia|]. split; [lia|]. repeat split.
Defined.

Lemma wf_with_last_minute m c : wf_controller c -> wf_controller (with_last_minute m c).
Proof. intros []. constructor; assumption. Qed.

(** X12.  In a minute in which no firing program records demand for any
    station, "schedule program data" leaves [os] (the busy flag and the
    station bits included) and every schedule entry as they were. *)
Theorem schedule_program_data_nothing_fires decode t c :
  wf_controller c ->
  (forall k pid prog, 0 <= k < nstations (os c) ->
     programs (pd c) !! Z.to_nat pid = Some prog ->
     check_match prog t = true -> claims decode c prog k = false) ->
  let c' := schedule_program_data decode t c in
  os c' = os c
  /\ forall k, start_of c' k = start_of c k /\ stop_of c' k = stop_of c k
               /\ index_of c' k = index_of c k.
Proof.
  intros W Hnone. cbv zeta. unfold schedule_program_data. cbv zeta.
  destruct (negb (t / 60 =? last_minute c)); [|split; [reflexivity | auto]].
  set (c1 := with_last_minute (t / 60) c).
  assert (W1 : wf_controller c1) by (apply wf_with_last_minute; exact W).
  destruct (snd (match_programs decode t c1)) eqn:Hf.
  - destruct (match_programs_inv decode t c1 W1) as (_ & _ & Hfound).
    apply Hfound in Hf. destruct Hf as (k & pid & prog & Hr & _ & Hfc).
    destruct Hfc as (_ & Hl & Hm & Hc & _).
    change (claims decode c prog k = true) in Hc.
    rewrite (Hnone k pid prog Hr Hl Hm) in Hc. discriminate.
  - apply (match_programs_not_found decode t c1 W1 Hf).
Qed.

Lemma wf_example_master_first : wf_controller example_master_first.
Proof. constructor; [change (0 <= 1 <= 32); lia | reflexivity ..]. Qed.

Lemma schedule_program_data_nothing_fires_witness :
  let c' := schedule_program_data (fun d => d) 5000 example_master_first in
  os c' = os example_master_first
  /\ forall k, start_of c' k = start_of example_master_first k
               /\ stop_of c' k = stop_of example_master_first k
               /\ index_of c' k = index_of example_master_first k.
Proof.
  apply (schedule_program_data_nothing_fires (fun d => d) 5000 example_master_first
           wf_example_master_first).
  intros k pid prog _ Hl Hm.
  destruct (Z.to_nat pid) as [|n]; [|destruct n; discriminate Hl].
  injection Hl as <-. discriminate Hm.
Defined.

(** ** What the schedule builder leaves alone *)

Lemma schedule_all_stations_busy_inv decode t sq c :
  wf_controller c ->
  let r := for_loop (nstations (os c)) (schedule_station sq (station_delay_of decode c))
             (c, initial_accumulate_time decode t sq c) in
  status_program_busy (status (os (fst r))) = true
  <-> status_program_busy (status (os c)) = true
      \/ exists k, 0 <= k < nstations (os c) /\ schedule_skips c k = false.
Proof.
  intros W. cbv zeta.
  pose proof (wf_nboards _ W). pose proof (wf_nstations _ W).
  set (delay := station_delay_of decode c).
  set (init := initial_accumulate_time decode t sq c).
  apply (for_loop_inv (fun i x =>
      builder_inv c sq delay init i x
      /\ (status_program_busy (status (os (fst x))) = true
          <-> status_program_busy (status (os c)) = true
              \/ exists k, 0 <= k < i /\ schedule_skips c k = false)));
    [lia | |].
  - split.
    + repeat split. intros k.
      destruct (Z.leb_spec 0 k), (Z.ltb_spec k 0); try lia; split; reflexivity.
    + split; [left; assumption|]. intros [Hb | (k & Hk & _)]; [exact Hb | lia].
  - intros i x Hi (Hinv & Hbusy).
    split; [apply schedule_station_inv; assumption|].
    destruct Hinv as (Hos & _ & _ & _ & _ & Hk).
    pose proof (Hk i) as Hii. destruct (Z.ltb_spec i i); [lia|].
    rewrite andb_false_r in Hii. cbn [andb] in Hii. destruct Hii as (Hsi & Hpi).
    unfold schedule_station. cbv zeta.
    rewrite (schedule_skips_ext c (fst x) i Hos Hsi Hpi).
    destruct (schedule_skips c i) eqn:Hskip.
    + rewrite Hbusy. split.
      * intros [Hb | (k & Hr & Hs)]; [left; exact Hb|].
        right. exists k. split; [lia | exact Hs].
      * intros [Hb | (k & Hr & Hs)]; [left; exact Hb|].
        destruct (Z.eq_dec k i) as [->|Hne]; [congruence|].
        right. exists k. split; [lia | exact Hs].
    + destruct (truthy sq); cbn [fst]; (split; [|reflexivity]);
        intros _; right; exists i; (split; [lia | exact Hskip]).
Qed.

(** X13.  The schedule builder touches neither the station bits, the options
    nor the program indices, and no schedule entry of a station it skips (the
    master, a station without demand, one that already has a start time, one
    that is on).  It leaves the busy flag set exactly when the flag was set
    before or some station was not skipped. *)
Theorem schedule_all_stations_frame decode t sq c :
  wf_controller c ->
  let c' := schedule_all_stations decode t sq c in
  station_bits (os c') = station_bits (os c)
  /\ options (os c') = options (os c)
  /\ scheduled_program_index (pd c') = scheduled_program_index (pd c)
  /\ (forall k, schedule_skips c k = true ->
        start_of c' k = start_of c k /\ stop_of c' k = stop_of c k)
  /\ (status_program_busy (status (os c')) = true
      <-> status_program_busy (status (os c)) = true
          \/ exists k, 0 <= k < nstations (os c) /\ schedule_skips c k = false).
Proof.
  intros W. cbv zeta. unfold schedule_all_stations.
  destruct (schedule_all_stations_inv decode t sq c W) as (Hos & _ & _ & Hix & _ & Hk).
  unfold erase_busy, with_status, with_program_busy in Hos.
  injection Hos. intros _ _ _ _ _ _ _ Hopt _ _ _ _ Hbits _ _.
  split; [exact Hbits|]. split; [exact Hopt|]. split; [exact Hix|]. split.
  - intros k Hs. specialize (Hk k). rewrite Hs, andb_false_r in Hk. exact Hk.
  - apply schedule_all_stations_busy_inv. exact W.
Qed.

Lemma schedule_all_stations_frame_witness :
  status_program_busy
    (status (os (schedule_all_stations example_decode 6000 1 example_demand))) = true.
Proof.
  assert (W : wf_controller example_demand)
    by (constructor; [change (0 <= 1 <= 32); lia | reflexivity ..]).
  destruct (schedule_all_stations_frame example_decode 6000 1 example_demand W)
    as (_ & _ & _ & _ & H).
  apply H. right. exists 1. split; [change (0 <= 1 < 8); lia | reflexivity].
Defined.

(** ** The windows the schedule builder lays out *)

Lemma cursor_at_parallel c sq delay init k :
  truthy sq = false -> cursor_at c sq delay init k = init.
Proof.
  intros Hsq. unfold cursor_at. induction (Z.to_nat k) as [|n IH]; [reflexivity|].
  cbn [spec_cursor]. rewrite Hsq, IH. destruct (schedule_skips c (Z.of_nat n)); reflexivity.
Qed.

(** X14.  In parallel mode every station the schedule builder does not skip
    starts at [curr_time + 1] and stops its demand later (both as unsigned
    long), whatever [pd.last_stop_time] and the station delay are. *)
Theorem schedule_all_stations_parallel decode t sq c k :
  wf_controller c -> truthy sq = false ->
  0 <= k < nstations (os c) -> schedule_skips c k = false ->
  let c' := schedule_all_stations decode t sq c in
  start_of c' k = ulong (t + 1) /\ stop_of c' k = ulong (t + 1 + stop_of c k).
Proof.
  intros W Hsq Hk Hskip. cbv zeta.
  destruct (schedule_all_stations_cursor decode t sq c W k Hk) as (_ & H).
  destruct (H Hskip) as (Hs & He & _).
  rewrite cursor_at_parallel in Hs, He by exact Hsq.
  unfold initial_accumulate_time in Hs, He. rewrite Hsq in Hs, He. cbn [andb] in Hs, He.
  split; [exact Hs|]. rewrite He. unfold ulong. apply Zplus_mod_idemp_l.
Qed.

Lemma wf_example_demand : wf_controller example_demand.
Proof. constructor; [change (0 <= 1 <= 32); lia | reflexivity ..]. Qed.

Lemma schedule_all_stations_parallel_witness :
  let c' := schedule_all_stations example_decode 6000 0 example_demand in
  start_of c' 2 = ulong (6000 + 1)
  /\ stop_of c' 2 = ulong (6000 + 1 + stop_of example_demand 2).
Proof.
  apply (schedule_all_stations_parallel example_decode 6000 0 example_demand 2
           wf_example_demand eq_refl);
    [change (0 <= 2 < 8); lia | reflexivity].
Defined.

Section Sequential.

Variables (c : Controller) (sq delay init : Z).
Hypothesis sequential : truthy sq = true.
Hypothesis delay_nonneg : 0 <= delay.
Hypothesis init_nonneg : 0 <= init.
Hypothesis demand_nonneg : forall k, 0 <= stop_of c k.

Lemma exact_cursor_succ n :
  exact_cursor c sq delay init n <= exact_cursor c sq delay init (S n).
Proof using sequential delay_nonneg demand_nonneg.
  cbn [exact_cursor]. destruct (schedule_skips c (Z.of_nat n)); [lia|].
  destruct (truthy sq); [|lia]. pose proof (demand_nonneg (Z.of_nat n)). lia.
Qed.

Lemma exact_cursor_mono m n :
  (m <= n)%nat -> exact_cursor c sq delay init m <= exact_cursor c sq delay init n.
Proof using sequential delay_nonneg demand_nonneg.
  induction 1 as [|n Hle IH]; [lia|]. pose proof (exact_cursor_succ n). lia.
Qed.

Lemma exact_cursor_nonneg n : 0 <= exact_cursor c sq delay init n.
Proof using sequential delay_nonneg demand_nonneg init_nonneg.
  pose proof (exact_cursor_mono 0 n ltac:(lia)). cbn [exact_cursor] in *. lia.
Qed.

(** Without overflow the cursor of the code is the exact one. *)
Lemma spec_cursor_exact n m :
  exact_cursor c sq delay init n < 2 ^ 32 -> (m <= n)%nat ->
  spec_cursor c sq delay init m = exact_cursor c sq delay init m.
Proof using sequential delay_nonneg demand_nonneg init_nonneg.
  intros Hn. induction m as [|m IH]; intros Hm; [reflexivity|].
  pose proof (exact_cursor_mono (S m) n Hm) as Hb.
  pose proof (exact_cursor_nonneg m) as H0.
  cbn [spec_cursor exact_cursor] in *. rewrite IH by lia.
  destruct (schedule_skips c (Z.of_nat m)); [reflexivity|].
  rewrite sequential in *. pose proof (demand_nonneg (Z.of_nat m)).
  unfold ulong. rewrite (Z.mod_small (_ + stop_of c _)) by lia.
  apply Z.mod_small. lia.
Qed.

End Sequential.

(** X15.  In sequential mode, when the batch is laid out without overflow of
    the 32-bit cursor, the windows of the stations the schedule builder does
    not skip are disjoint and in station order: each stops no earlier than it
    starts, and the next one starts at least the station delay after it
    stops. *)
Theorem schedule_all_stations_no_overlap decode t sq c i j :
  wf_controller c -> truthy sq = true ->
  0 <= station_delay_of decode c ->
  (forall k, 0 <= stop_of c k) ->
  exact_cursor c sq (station_delay_of decode c) (initial_accumulate_time decode t sq c)
    (Z.to_nat (nstations (os c))) < 2 ^ 32 ->
  0 <= i < j -> j < nstations (os c) ->
  schedule_skips c i = false -> schedule_skips c j = false ->
  let c' := schedule_all_stations decode t sq c in
  start_of c' i <= stop_of c' i
  /\ stop_of c' i + station_delay_of decode c <= start_of c' j.
Proof.
  intros W Hsq Hdelay Hdem Hfit Hij Hj Hsi Hsj. cbv zeta.
  set (delay := station_delay_of decode c) in *.
  set (init := initial_accumulate_time decode t sq c) in *.
  assert (Hinit : 0 <= init).
  { unfold init, initial_accumulate_time.
    destruct (_ && _); unfold ulong; apply Z.mod_pos_bound; lia. }
  destruct (schedule_all_stations_cursor decode t sq c W i ltac:(lia)) as (_ & Hi).
  destruct (Hi Hsi) as (Hstart_i & Hstop_i & _).
  destruct (schedule_all_stations_cursor decode t sq c W j ltac:(lia)) as (_ & Hjj).
  destruct (Hjj Hsj) as (Hstart_j & _ & _).
  cbv zeta in Hstart_i, Hstop_i, Hstart_j. fold delay init in Hstart_i, Hstop_i, Hstart_j.
  rewrite Hstart_i, Hstop_i, Hstart_j. unfold cursor_at.
  set (n := Z.to_nat (nstations (os c))) in *.
  rewrite (spec_cursor_exact c sq delay init Hsq Hdelay Hinit Hdem n (Z.to_nat i) Hfit)
    by lia.
  rewrite (spec_cursor_exact c sq delay init Hsq Hdelay Hinit Hdem n (Z.to_nat j) Hfit)
    by lia.
  pose proof (exact_cursor_mono c sq delay init Hsq Hdelay Hdem (S (Z.to_nat i))
                (Z.to_nat j) ltac:(lia)) as Hmono.
  pose proof (exact_cursor_mono c sq delay init Hsq Hdelay Hdem (S (Z.to_nat i)) n
                ltac:(lia)) as Hend.
  pose proof (exact_cursor_nonneg c sq delay init Hsq Hdelay Hinit Hdem (Z.to_nat i)) as H0.
  cbn [exact_cursor] in Hmono, Hend. rewrite Z2Nat.id in Hmono, Hend by lia.
  rewrite Hsi, Hsq in Hmono, Hend. pose proof (Hdem i).
  unfold ulong. rewrite Z.mod_small by lia. lia.
Qed.

Lemma schedule_all_stations_no_overlap_witness :
  let c' := schedule_all_stations example_decode 6000 1 example_demand in
  start_of c' 1 <= stop_of c' 1
  /\ stop_of c' 1 + station_delay_of example_decode example_demand <= start_of c' 2.
Proof.
  apply (schedule_all_stations_no_overlap example_decode 6000 1 example_demand 1 2
           wf_example_demand eq_refl).
  - discriminate.
  - intros k. unfold stop_of.
    destruct (in_table (scheduled_stop_time (pd example_demand)) k) eqn:Hin.
    + apply in_table_true in Hin. revert Hin.
      change (Z.of_nat (length (scheduled_stop_time (pd example_demand)))) with 8.
      apply (load_literal_cases
               (fun k => 0 <= load (scheduled_stop_time (pd example_demand)) k));
        discriminate.
    + rewrite load_outside by exact Hin. lia.
  - reflexivity.
  - lia.
  - change (2 < 8). lia.
  - reflexivity.
  - reflexivity.
Defined.

(** ** What the scheduler never assigns

    [field] is any part of the state that the assignments made by the
    scheduler leave alone, such as the static [last_minute] of loop(), the
    two statics of check_network, or the sizes of the tables. *)

Section Untouched.

Context {V : Type} (field : Controller -> V).
Hypothesis field_set_station_bit : forall sid v c, field (set_station_bit sid v c) = field c.
Hypothesis field_clear_bits : forall c, field (clear_all_station_bits c) = field c.
Hypothesis field_upd_status : forall f c, field (upd_status f c) = field c.
Hypothesis field_set_start : forall i v c, field (set_start i v c) = field c.
Hypothesis field_set_stop : forall i v c, field (set_stop i v c) = field c.
Hypothesis field_set_index : forall i v c, field (set_index i v c) = field c.
Hypothesis field_lastrun : forall v c, field (upd_pd (with_lastrun v) c) = field c.
Hypothesis field_last_stop : forall v c, field (upd_pd (with_last_stop_time v) c) = field c.
Hypothesis field_append_log : forall l c, field (append_log l c) = field c.
Hypothesis field_relay : forall l c, field (digitalWrite_relay l c) = field c.
Hypothesis field_valves : forall v c, field (with_valves v c) = field c.

Lemma field_write_log_station t c : field (write_log_station t c) = field c.
Proof using All.
  unfold write_log_station. destruct (negb _); [reflexivity | apply field_append_log].
Qed.

Ltac field_simpl :=
  repeat first
    [ rewrite field_set_index | rewrite field_set_stop | rewrite field_set_start
    | rewrite field_set_station_bit | rewrite field_write_log_station
    | rewrite field_relay | rewrite field_lastrun | rewrite field_last_stop
    | rewrite field_upd_status | rewrite field_clear_bits | rewrite field_valves ].

Lemma field_turn_off_station sid mas t c :
  field (turn_off_station sid mas t c) = field c.
Proof using All.
  unfold turn_off_station. cbv zeta. field_simpl.
  repeat (case_if; field_simpl); reflexivity.
Qed.

Lemma field_process_dynamic_events t c :
  field (process_dynamic_events t c) = field c.
Proof using All.
  unfold process_dynamic_events. cbv zeta.
  apply (for_loop_preserves (fun x => field x = field c)); [reflexivity|].
  intros b x _ Hx. unfold dynamic_event_board. cbv zeta.
  apply (for_loop_preserves (fun y => field y = field c)); [exact Hx|].
  intros s y _ Hy. unfold dynamic_event_station, reset_schedule_entry. cbv zeta.
  repeat (case_if; rewrite ?field_turn_off_station; field_simpl); exact Hy.
Qed.

Lemma field_schedule_master t sid c : field (schedule_master t sid c) = field c.
Proof using All.
  unfold schedule_master. cbv zeta. case_if; field_simpl; reflexivity.
Qed.

Lemma field_relay_on bid s c : field (relay_on bid s c) = field c.
Proof using All.
  unfold relay_on. cbv zeta. repeat (case_if; field_simpl); reflexivity.
Qed.

Lemma field_run_stations t c : field (run_stations t c) = field c.
Proof using All.
  unfold run_stations.
  apply (for_loop_preserves (fun x => field x = field c)); [reflexivity|].
  intros b x _ Hx. unfold run_board. cbv zeta.
  apply (for_loop_preserves (fun y => field y = field c)); [exact Hx|].
  intros s y _ Hy. unfold run_station. cbv zeta.
  repeat (case_if;
          rewrite ?field_relay_on, ?field_schedule_master; field_simpl;
          rewrite ?field_turn_off_station);
    rewrite ?field_relay_on, ?field_schedule_master; field_simpl;
    rewrite ?field_turn_off_station; exact Hy.
Qed.

Lemma field_update_program_busy c : field (update_program_busy c) = field c.
Proof using All.
  unfold update_program_busy. cbv zeta.
  assert (H : field (fst (for_loop (nstations (os c)) last_stop_station
                            (upd_pd (with_last_stop_time 0) c, false))) = field c).
  { apply (for_loop_preserves (fun x => field (fst x) = field c));
      [apply field_last_stop|].
    intros i x _ Hx. unfold last_stop_station. cbv zeta.
    destruct (pending_stop _); cbn [fst]; field_simpl; exact Hx. }
  destruct (snd _); [exact H|]. field_simpl. exact H.
Qed.

Lemma field_apply_all_station_bits c : field (apply_all_station_bits c) = field c.
Proof using All. apply field_valves. Qed.

Lemma field_run_program_data t c : field (run_program_data t c) = field c.
Proof using All.
  unfold run_program_data. cbv zeta. destruct (status_program_busy _); [|reflexivity].
  rewrite field_update_program_busy, field_apply_all_station_bits,
    field_process_dynamic_events.
  apply field_run_stations.
Qed.

Lemma field_master_parallel c : field (master_parallel c) = field c.
Proof using All.
  unfold master_parallel. cbv zeta. destruct (_ && _); field_simpl; reflexivity.
Qed.

Lemma field_match_programs decode t c :
  field (fst (match_programs decode t c)) = field c.
Proof using All.
  unfold match_programs.
  apply (for_loop_preserves (fun x => field (fst x) = field c)); [reflexivity|].
  intros pid x _ Hx. unfold match_program.
  destruct (programs (pd (fst x)) !! Z.to_nat pid); [|exact Hx].
  destruct (check_match _ _); [|exact Hx].
  apply (for_loop_preserves (fun y => field (fst y) = field c)); [exact Hx|].
  intros sid y _ Hy. unfold match_station. cbv zeta.
  repeat (case_if; cbn [fst]; field_simpl); exact Hy.
Qed.

Lemma field_schedule_all_stations decode t sq c :
  field (schedule_all_stations decode t sq c) = field c.
Proof using All.
  unfold schedule_all_stations.
  apply (for_loop_preserves (fun x => field (fst x) = field c)); [reflexivity|].
  intros sid x _ Hx. unfold schedule_station. cbv zeta.
  repeat (case_if; cbn [fst]; field_simpl); exact Hx.
Qed.

(** The part of a pass of loop() after the matcher. *)
Lemma field_loop_tail t c :
  field (apply_all_station_bits
           (process_dynamic_events t (master_parallel (run_program_data t c))))
  = field c.
Proof using All.
  rewrite field_apply_all_station_bits, field_process_dynamic_events,
    field_master_parallel.
  apply field_run_program_data.
Qed.

End Untouched.

Ltac untouched := intros; unfold set_stop; cbv zeta; try case_if; reflexivity.

Lemma last_minute_schedule_program_data decode t c :
  last_minute (schedule_program_data decode t c) = t / 60.
Proof.
  unfold schedule_program_data. cbv zeta.
  destruct (Z.eqb_spec (t / 60) (last_minute c)) as [E|E]; cbn [negb]; [symmetry; exact E|].
  destruct (snd _).
  - rewrite (field_schedule_all_stations last_minute) by untouched.
    rewrite (field_match_programs last_minute) by untouched. reflexivity.
  - rewrite (field_match_programs last_minute) by untouched. reflexivity.
Qed.

Lemma last_minute_loop_second decode t c :
  last_minute (loop_second decode t c) = t / 60.
Proof.
  unfold loop_second. cbv zeta.
  rewrite (field_loop_tail last_minute) by untouched.
  apply last_minute_schedule_program_data.
Qed.

(** X16.  Programs are matched once per minute: after a pass of the
    once-per-second part of loop() at time [t], "schedule program data" does
    nothing at any time of the same minute, whatever the stored programs
    are. *)
Theorem schedule_program_data_once_per_minute decode t t' c :
  t' / 60 = t / 60 ->
  schedule_program_data decode t' (loop_second decode t c) = loop_second decode t c.
Proof.
  intros Hm. unfold schedule_program_data at 1. cbv zeta.
  rewrite last_minute_loop_second, Hm, Z.eqb_refl. reflexivity.
Qed.

Lemma schedule_program_data_once_per_minute_witness :
  schedule_program_data example_decode 6001
    (loop_second example_decode 6000 example_two_station)
  = loop_second example_decode 6000 example_two_station.
Proof.
  apply (schedule_program_data_once_per_minute example_decode 6000 6001
           example_two_station).
  reflexivity.
Defined.

(** ** The sizes of the tables *)

Lemma wf_shape c c' : shape c' = shape c -> wf_controller c -> wf_controller c'.
Proof.
  unfold shape. intros E []. injection E as E1 E2 E3 E4 E5 E6.
  constructor; rewrite ?E1, ?E2, ?E3, ?E4, ?E5, ?E6; assumption.
Qed.

Ltac shape_untouched :=
  intros;
  unfold shape, set_station_bit, clear_all_station_bits, set_start, set_stop, set_index;
  cbv zeta; try case_if;
  cbn [os pd upd_os upd_pd upd_status with_status with_station_bits with_start with_stop
       with_index with_lastrun with_last_stop_time append_log digitalWrite_relay
       with_valves note_oob nboards nstations station_bits scheduled_start_time
       scheduled_stop_time scheduled_program_index];
  rewrite ?length_store, ?length_map; reflexivity.

Lemma shape_schedule_program_data decode t c :
  shape (schedule_program_data decode t c) = shape c.
Proof.
  unfold schedule_program_data. cbv zeta. destruct (negb _); [|reflexivity].
  destruct (snd _).
  - rewrite (field_schedule_all_stations shape) by shape_untouched.
    rewrite (field_match_programs shape) by shape_untouched. reflexivity.
  - rewrite (field_match_programs shape) by shape_untouched. reflexivity.
Qed.

Lemma shape_loop_second decode t c : shape (loop_second decode t c) = shape c.
Proof.
  unfold loop_second. cbv zeta.
  rewrite (field_loop_tail shape) by shape_untouched.
  apply shape_schedule_program_data.
Qed.



(** ** The master station and the scheduler *)

Lemma matcher_skips_master c : matcher_skips c (status_mas (status (os c)) - 1) = true.
Proof.
  unfold matcher_skips.
  replace (status_mas (status (os c)) - 1 + 1) with (status_mas (status (os c))) by lia.
  rewrite Z.eqb_refl. reflexivity.
Qed.

Lemma schedule_skips_master c : schedule_skips c (status_mas (status (os c)) - 1) = true.
Proof.
  unfold schedule_skips.
  replace (status_mas (status (os c)) - 1 + 1) with (status_mas (status (os c))) by lia.
  rewrite Z.eqb_refl. reflexivity.
Qed.

(** X18.  "Schedule program data" never writes the schedule entry of the
    master station: no program records demand for it and the schedule
    builder gives it no window.  (Its entry is derived from the stations that
    open, in the run-time pass.) *)
Theorem schedule_program_data_master decode t c :
  wf_controller c ->
  let m := status_mas (status (os c)) - 1 in
  let c' := schedule_program_data decode t c in
  start_of c' m = start_of c m /\ stop_of c' m = stop_of c m
  /\ index_of c' m = index_of c m.
Proof.
  intros W. cbv zeta. unfold schedule_program_data. cbv zeta.
  destruct (negb _); [|auto].
  set (c0 := with_last_minute (t / 60) c).
  assert (W0 : wf_controller c0) by (apply wf_with_last_minute; exact W).
  destruct (match_programs_inv decode t c0 W0) as (Hf & Hk & _).
  set (c1 := fst (match_programs decode t c0)) in *.
  set (m := status_mas (status (os c)) - 1).
  assert (H1 : start_of c1 m = start_of c m /\ stop_of c1 m = stop_of c m
               /\ index_of c1 m = index_of c m).
  { destruct Hf as (_ & _ & Hst & _).
    split; [unfold start_of; rewrite Hst; reflexivity|].
    destruct (Hk m) as (Hout & Hin).
    destruct (Z.le_gt_cases 0 m) as [Hm0|Hm0];
      [destruct (Z.lt_ge_cases m (nstations (os c0))) as [Hmn|Hmn]|];
      try (apply Hout; lia).
    destruct (Hin ltac:(lia)) as [(_ & He) | (pid & prog & _ & Hfc & _)]; [exact He|].
    destruct Hfc as (_ & _ & _ & Hc & _). unfold claims in Hc.
    change (matcher_skips c0 m) with (matcher_skips c (status_mas (status (os c)) - 1)) in Hc.
    rewrite matcher_skips_master in Hc. discriminate. }
  destruct (snd _); [|exact H1].
  pose proof (wf_same_frame _ _ W0 Hf) as W1.
  pose proof Hf as (Hos & _).
  destruct (schedule_all_stations_inv decode t (status_seq (status (os c1))) c1 W1)
    as (_ & _ & _ & Hix & _ & Hk2).
  specialize (Hk2 m).
  assert (Hs : schedule_skips c1 m = true).
  { unfold m. change (os c) with (os c0). rewrite <- Hos. apply schedule_skips_master. }
  rewrite Hs, andb_false_r in Hk2. destruct Hk2 as (Ha & Hb).
  destruct H1 as (H1a & H1b & H1c). unfold schedule_all_stations.
  split; [rewrite Ha; exact H1a|]. split; [rewrite Hb; exact H1b|].
  unfold index_of in *. rewrite Hix. exact H1c.
Qed.

Lemma schedule_program_data_master_witness :
  let c := loop_read_options example_master_first in
  let c' := schedule_program_data (fun d => d) 6000 c in
  start_of c' (1 - 1) = start_of c (1 - 1) /\ stop_of c' (1 - 1) = stop_of c (1 - 1)
  /\ index_of c' (1 - 1) = index_of c (1 - 1).
Proof.
  apply (schedule_program_data_master (fun d => d) 6000
           (loop_read_options example_master_first)).
  constructor; [change (0 <= 1 <= 32); lia | reflexivity ..].
Defined.

(** ** The spacing of the network checks *)

Lemma last_check_time_check_network ping started t c :
  check_due t c = true -> last_check_time (check_network ping started t c) = t.
Proof.
  unfold check_network, check_due, effective_last_check.
  destruct (last_check_time c =? 0);
    cbn [os with_last_dhcp_time with_last_check_time last_check_time];
    destruct (status_program_busy (status (os c))); cbn [negb andb]; try discriminate;
    intros ->;
    cbn [os upd_status upd_os with_status status with_network_fails status_network_fails
         options last_dhcp_time with_last_check_time];
    repeat (case_if; try reflexivity).
Qed.

(** X19.  Two pings of the gateway are more than CHECK_NETWORK_INTERVAL
    seconds apart: when a check is made at time [t], the next call in which a
    check is made comes at a time [t'] with [t' - t] (as unsigned long) above
    the check interval of the failure count the first check left. *)
Theorem check_network_spacing ping started t t' c :
  0 <= status_network_fails (status (os c)) <= 6 ->
  check_due t c = true ->
  let c1 := check_network ping started t c in
  check_due t' c1 = true ->
  CHECK_NETWORK_INTERVAL <= check_interval (status_network_fails (status (os c1)))
  /\ check_interval (status_network_fails (status (os c1))) < ulong (t' - t).
Proof.
  intros Hf Hdue c1 Hdue'.
  assert (Hlast : last_check_time c1 = t) by (apply last_check_time_check_network; exact Hdue).
  assert (Hr : 0 <= status_network_fails (status (os c1)) <= 6).
  { unfold c1. rewrite check_network_fails, Hdue. cbv zeta.
    destruct (_ && _); [lia | apply fails_after_ping_range; exact Hf]. }
  unfold check_due in Hdue'. apply andb_true_iff in Hdue' as (_ & Hlt).
  apply Z.ltb_lt in Hlt. unfold effective_last_check in Hlt. rewrite Hlast in Hlt.
  rewrite check_interval_small in Hlt |- * by exact Hr.
  assert (Hp : 1 <= 2 ^ status_network_fails (status (os c1)))
    by (apply Z.lt_pred_le, Z.pow_pos_nonneg; lia).
  unfold CHECK_NETWORK_INTERVAL in *.
  destruct (t =? 0).
  - rewrite Z.sub_diag in Hlt. change (ulong 0) with 0 in Hlt. lia.
  - split; [lia | exact Hlt].
Qed.

Lemma check_network_spacing_witness :
  let c1 := check_network true true 221 example_network in
  CHECK_NETWORK_INTERVAL <= check_interval (status_network_fails (status (os c1)))
  /\ check_interval (status_network_fails (status (os c1))) < ulong (252 - 221).
Proof.
  apply (check_network_spacing true true 221 252 example_network);
    [change (0 <= 2 <= 6); lia | reflexivity | reflexivity].
Defined.

(** ** The watchdog *)

(** X20.  With [wdt_timeout] at [w] (0 after a pass of loop()), the watchdog
    interrupt calls [sysReset] at the interrupt that brings the count to 16
    and at none before: after [n] interrupts in a row the reset has happened
    exactly when [n >= 16 - w]. *)
Theorem wdt_reset_after_16 n w :
  0 <= w <= 15 ->
  snd (wdt_interrupts n w) = true <-> 16 - w <= Z.of_nat n.
Proof.
  revert w. induction n as [|n IH]; intros w Hw.
  - cbn [wdt_interrupts snd]. split; [discriminate | lia].
  - cbn [wdt_interrupts]. unfold wdt_isr. cbv zeta. cbn [fst snd].
    rewrite byte_small by lia.
    destruct (Z.ltb_spec 15 (w + 1)) as [H15|H15]; cbn [snd].
    + split; [lia | reflexivity].
    + rewrite IH by lia. lia.
Qed.

Lemma wdt_reset_after_16_witness :
  snd (wdt_interrupts 15 0) = false /\ snd (wdt_interrupts 16 0) = true.
Proof.
  split.
  - apply not_true_is_false. intros H.
    apply (wdt_reset_after_16 15 0 ltac:(lia)) in H. lia.
  - apply (wdt_reset_after_16 16 0); lia.
Defined.

(** ** The periodic callers *)

Lemma cons_not_self {A} (x : A) (l : list A) : l = x :: l -> False.
Proof. intros E. apply (f_equal (@length A)) in E. cbn in E. lia. Qed.

(** X21.  [perform_ntp_sync] and [check_weather] record the time of an
    attempt before they know its result, so a query made at a time [t] other
    than 0 is not repeated within the interval, whether it succeeded or not
    and whatever the network and busy state are at the later call. *)
Theorem periodic_no_retry ntp ntp' t t' c c' p :
  t <> 0 ->
  (ntp_queries (perform_ntp_sync ntp t c p) = t :: ntp_queries p ->
   ulong (t' - t) <= NTP_SYNC_INTERVAL ->
   perform_ntp_sync ntp' t' c' (perform_ntp_sync ntp t c p) = perform_ntp_sync ntp t c p)
  /\ (weather_queries (check_weather t c p) = t :: weather_queries p ->
      ulong (t' - t) <= CHECK_WEATHER_INTERVAL ->
      check_weather t' c' (check_weather t c p) = check_weather t c p).
Proof.
  intros Ht. split.
  - intros Hq Hin.
    assert (Hl : ntpsync_lasttime (perform_ntp_sync ntp t c p) = t).
    { revert Hq. unfold perform_ntp_sync.
      destruct (_ || _ || _);
        [intros E; exfalso; revert E; apply cons_not_self|].
      destruct (_ || _); [reflexivity|].
      intros E; exfalso; revert E; apply cons_not_self. }
    unfold perform_ntp_sync at 1. rewrite Hl.
    destruct (_ || _ || _); [reflexivity|].
    destruct (Z.eqb_spec t 0); [contradiction|].
    destruct (Z.ltb_spec NTP_SYNC_INTERVAL (ulong (t' - t))); [lia | reflexivity].
  - intros Hq Hin.
    assert (Hl : checkwt_lasttime (check_weather t c p) = t).
    { revert Hq. unfold check_weather.
      destruct (_ || _ || _);
        [intros E; exfalso; revert E; apply cons_not_self|].
      destruct (_ || _); [reflexivity|].
      intros E; exfalso; revert E; apply cons_not_self. }
    unfold check_weather at 1. rewrite Hl.
    destruct (_ || _ || _); [reflexivity|].
    destruct (Z.eqb_spec t 0); [contradiction|].
    destruct (Z.ltb_spec CHECK_WEATHER_INTERVAL (ulong (t' - t))); [lia | reflexivity].
Qed.

Lemma periodic_no_retry_witness :
  perform_ntp_sync 5 2000 example_controller
    (perform_ntp_sync 0 1000 example_controller example_periodic)
  = perform_ntp_sync 0 1000 example_controller example_periodic
  /\ check_weather 2000 example_controller
       (check_weather 1000 example_controller example_periodic)
     = check_weather 1000 example_controller example_periodic.
Proof.
  destruct (periodic_no_retry 0 5 1000 2000 example_controller example_controller
              example_periodic ltac:(discriminate)) as (H1 & H2).
  split; [apply H1 | apply H2]; try reflexivity; vm_compute; discriminate.
Defined.

(** ** Logging the rain delay *)

Lemma check_status_changes_quiet t w c :
  old_rain_delayed w = status_rain_delayed (status (os c)) ->
  old_rain_sensed w = status_rain_sensed (status (os c)) ->
  check_status_changes t (w, c) = (w, c).
Proof.
  intros Hd Hs. unfold check_status_changes. cbn [fst snd].
  rewrite Hd, eqb_reflx. cbn [negb fst snd]. rewrite Hs, eqb_reflx. reflexivity.
Qed.

Lemma status_checks_quiet times w c :
  old_rain_delayed w = status_rain_delayed (status (os c)) ->
  old_rain_sensed w = status_rain_sensed (status (os c)) ->
  status_checks times (w, c) = (w, c).
Proof.
  intros Hd Hs. unfold status_checks.
  induction times as [|t times IH]; [reflexivity|].
  cbn [fold_left]. rewrite check_status_changes_quiet by assumption. exact IH.
Qed.

Lemma check_status_changes_delay_on t w c :
  old_rain_delayed w = false ->
  status_rain_delayed (status (os c)) = true ->
  old_rain_sensed w = status_rain_sensed (status (os c)) ->
  check_status_changes t (w, c)
  = ({| old_rain_delayed := true; old_rain_sensed := old_rain_sensed w;
        raindelay_start_time := t;
        rainsense_start_time := rainsense_start_time w |}, c).
Proof.
  intros Hd Hrd Hs. unfold check_status_changes. cbn [fst snd].
  rewrite Hrd, <- Hs, Hd. cbn. rewrite eqb_reflx. reflexivity.
Qed.

Lemma check_status_changes_delay_off t w c :
  old_rain_delayed w = true ->
  status_rain_delayed (status (os c)) = false ->
  old_rain_sensed w = status_rain_sensed (status (os c)) ->
  status_has_sd (status (os c)) = true ->
  check_status_changes t (w, c)
  = ({| old_rain_delayed := false; old_rain_sensed := old_rain_sensed w;
        raindelay_start_time := raindelay_start_time w;
        rainsense_start_time := rainsense_start_time w |},
     append_log (LOGDATA_RAINDELAY (ulong (t - raindelay_start_time w)) t) c).
Proof.
  intros Hd Hrd Hs Hsd. unfold check_status_changes, write_log_rain. cbn [fst snd].
  rewrite Hrd, Hsd, <- Hs, Hd. cbn. rewrite eqb_reflx. reflexivity.
Qed.



(** ** No station is left on past its stop time *)

(** The schedule step, seen from one station. *)
Lemma schedule_program_data_station decode t c k :
  wf_controller c -> 0 <= k < nstations (os c) ->
  let c1 := schedule_program_data decode t c in
  erase_busy (os c1) = erase_busy (os c)
  /\ (status_program_busy (status (os c)) = true ->
      status_program_busy (status (os c1)) = true)
  /\ (station_on c k = true \/ (stop_of c k <> 0 /\ start_of c k <> 0) ->
      start_of c1 k = start_of c k /\ stop_of c1 k = stop_of c k)
  /\ ((length (programs (pd c)) <= 255)%nat ->
      (stop_of c k <> 0 -> 0 < index_of c k) ->
      stop_of c1 k <> 0 -> 0 < index_of c1 k).
Proof.
  intros W Hk. cbv zeta. unfold schedule_program_data. cbv zeta.
  destruct (negb _); [|repeat split; auto].
  set (c0 := with_last_minute (t / 60) c).
  assert (W0 : wf_controller c0) by (apply wf_with_last_minute; exact W).
  destruct (match_programs_inv decode t c0 W0) as (Hf & Hks & _).
  set (cm := fst (match_programs decode t c0)) in *.
  pose proof Hf as (Hos & _ & Hst & _). change (os c0) with (os c) in Hos.
  assert (M1 : start_of cm k = start_of c k) by (unfold start_of; rewrite Hst; reflexivity).
  assert (M23 : (station_on c k = true \/ stop_of c k <> 0 -> stop_of cm k = stop_of c k)
                /\ ((length (programs (pd c)) <= 255)%nat ->
                    (stop_of c k <> 0 -> 0 < index_of c k) ->
                    stop_of cm k <> 0 -> 0 < index_of cm k)).
  { destruct (Hks k) as (_ & Hin).
    destruct (Hin Hk) as [(_ & He1 & He2) | (pid & prog & _ & Hfc & He1 & He2)].
    - change (stop_of c0 k) with (stop_of c k) in He1.
      change (index_of c0 k) with (index_of c k) in He2.
      rewrite He1, He2. split; [reflexivity | intros _ Hidx; exact Hidx].
    - destruct Hfc as (Hp0 & Hl & _ & Hc & _). split.
      + intros [Hon|Hsp].
        * unfold claims, matcher_skips in Hc.
          change (os c0) with (os c) in Hc. unfold station_on in Hon.
          rewrite Hon, orb_true_r in Hc. discriminate.
        * rewrite claims_pending in Hc; [discriminate|].
          apply truthy_true. exact Hsp.
      + intros Hprogs _ _. rewrite He2. apply lookup_lt_Some in Hl.
        change (programs (pd c0)) with (programs (pd c)) in Hl.
        rewrite byte_small by lia. lia. }
  destruct M23 as (M2 & M3).
  destruct (snd _).
  - pose proof (wf_same_frame _ _ W0 Hf) as Wm.
    destruct (schedule_all_stations_inv decode t (status_seq (status (os cm))) cm Wm)
      as (Hos2 & _ & _ & Hix & _ & Hk2).
    pose proof (proj1 (schedule_all_stations_busy_inv decode t
                         (status_seq (status (os cm))) cm Wm)) as Hbusy.
    cbv zeta in Hbusy. unfold schedule_all_stations. specialize (Hk2 k).
    split; [rewrite Hos2, Hos; reflexivity|].
    split; [intros Hb; apply (proj2 (schedule_all_stations_busy_inv decode t
                                       (status_seq (status (os cm))) cm Wm));
            left; rewrite Hos; exact Hb|].
    split.
    + intros Hon.
      assert (Hs : schedule_skips cm k = true).
      { unfold schedule_skips. destruct Hon as [Hon|(_ & Hst0)].
        - unfold station_on. rewrite Hos. unfold station_on in Hon.
          rewrite Hon, !orb_true_r. reflexivity.
        - rewrite M1. apply truthy_true in Hst0. rewrite Hst0, orb_true_r. reflexivity. }
      rewrite Hs, andb_false_r in Hk2. destruct Hk2 as (Ha & Hb).
      rewrite Ha, Hb, M1. split; [reflexivity | apply M2; tauto].
    + intros Hprogs Hidx. unfold index_of at 1. rewrite Hix. fold (index_of cm k).
      destruct (schedule_skips cm k) eqn:Hs.
      * rewrite andb_false_r in Hk2. destruct Hk2 as (_ & Hb). rewrite Hb.
        exact (M3 Hprogs Hidx).
      * intros _. apply (M3 Hprogs Hidx). unfold schedule_skips in Hs.
        apply orb_false_iff in Hs as (Hs & _). apply orb_false_iff in Hs as (Hs & _).
        apply orb_false_iff in Hs as (_ & Hs). apply negb_false_iff, truthy_true in Hs.
        exact Hs.
  - split; [rewrite Hos; reflexivity|]. split; [rewrite Hos; auto|].
    split; [intros Hon; split; [exact M1 | apply M2; tauto] | exact M3].
Qed.

(** The run-time pass, seen from one station other than the master. *)
Lemma run_stations_station_inv t t' c k :
  wf_controller c -> 0 <= t <= t' ->
  0 <= status_mas (status (os c)) <= 256 ->
  k <> status_mas (status (os c)) - 1 ->
  0 <= k < nstations (os c) ->
  (station_on c k = true -> start_of c k <= t < stop_of c k) ->
  (stop_of c k <> 0 -> 0 < index_of c k) ->
  let c' := run_stations t' c in
  (station_on c' k = true -> start_of c' k <= t' < stop_of c' k)
  /\ (stop_of c' k <> 0 -> 0 < index_of c' k).
Proof.
  intros W Ht Hmas Hk Hr Hwin Hidx. cbv zeta.
  pose proof (run_stations_station t' c k W ltac:(lia) Hmas Hk Hr) as Inv.
  destruct (run_done _ _ _ _ _ Inv) as (D1 & D2 & D3 & D4);
    [rewrite <- (wf_nstations _ W); lia|].
  rewrite D1, D2, D3, D4.
  destruct (expired t' c k) eqn:He; [split; [discriminate | lia]|].
  split; [|exact Hidx].
  destruct (opens t' c k) eqn:Ho.
  - intros _. unfold opens in Ho. rewrite !andb_true_iff in Ho.
    destruct Ho as ((_ & H1) & H2). apply Z.leb_le in H1. apply Z.ltb_lt in H2. lia.
  - intros Hon. specialize (Hwin Hon).
    assert (0 < index_of c k) as Hi by (apply Hidx; lia).
    unfold expired in He. apply andb_false_iff in He as [He|He].
    + apply Z.ltb_ge in He. lia.
    + apply Z.leb_gt in He. lia.
Qed.

(** The override pass, seen from one station other than the master: the
    station is left alone or ends up off without a stop time. *)
Lemma process_dynamic_events_station t c k :
  0 <= nboards (os c) <= 32 -> 0 <= k < 8 * nboards (os c) ->
  k <> status_mas (status (os c)) - 1 ->
  let c' := process_dynamic_events t c in
  (station_on c' k = station_on c k /\ start_of c' k = start_of c k
   /\ stop_of c' k = stop_of c k /\ index_of c' k = index_of c k)
  \/ (station_on c' k = false /\ stop_of c' k = 0).
Proof.
  intros Hn Hk Hm. cbv zeta. pose proof (process_dynamic_events_inv t c Hn) as Inv.
  rewrite (dyn_done_on _ _ _ _ Inv k Hk), (dyn_done_start _ _ _ _ Inv k Hk),
    (dyn_done_index _ _ _ _ Inv k Hk), (dyn_stop _ _ _ _ Inv k Hm).
  destruct (Z.leb_spec 0 k); [|lia].
  destruct (Z.ltb_spec k (8 * nboards (os c))); [|lia]. cbn [andb].
  destruct (dyn_target c k); cbn [andb negb]; [|left; rewrite andb_true_r; auto].
  destruct (station_on c k); cbn [orb andb]; [right; auto|].
  destruct (0 <? index_of c k); [right; auto | left; auto].
Qed.

Lemma process_dynamic_events_station_inv t c k :
  wf_controller c -> 0 <= k < nstations (os c) ->
  k <> status_mas (status (os c)) - 1 ->
  station_inv t c k -> station_inv t (process_dynamic_events t c) k.
Proof.
  intros W Hk Hm (I1 & I2 & I3).
  pose proof (wf_nboards _ W) as Hnb. pose proof (wf_nstations _ W) as Hns.
  pose proof (view_process_dynamic_events os_config os_config_station_bits t c) as Hcfg.
  destruct (os_config_fields _ _ Hcfg) as (_ & _ & _ & _ & Hst).
  unfold station_inv. rewrite Hst.
  destruct (process_dynamic_events_station t c k Hnb ltac:(lia) Hm)
    as [(E1 & E2 & E3 & E4) | (E1 & E2)].
  - rewrite E1, E2, E3, E4. auto.
  - rewrite E1, E2. repeat split; try discriminate; try reflexivity. intros H. lia.
Qed.

(** The busy bit is recomputed: either [os] is as before, or nothing is busy
    and every station bit is off; the schedule tables are not assigned. *)
Lemma update_program_busy_cases c :
  let c' := update_program_busy c in
  scheduled_start_time (pd c') = scheduled_start_time (pd c)
  /\ scheduled_stop_time (pd c') = scheduled_stop_time (pd c)
  /\ scheduled_program_index (pd c') = scheduled_program_index (pd c)
  /\ options (os c') = options (os c)
  /\ (os c' = os c
      \/ (status_program_busy (status (os c')) = false
          /\ (forall k, station_on c' k = false)
          /\ status_mas (status (os c')) = OPTION_MASTER_STATION (options (os c)))).
Proof.
  cbv zeta. unfold update_program_busy. cbv zeta.
  assert (H : let r := for_loop (nstations (os c)) last_stop_station
                         (upd_pd (with_last_stop_time 0) c, false) in
              os (fst r) = os c
              /\ scheduled_start_time (pd (fst r)) = scheduled_start_time (pd c)
              /\ scheduled_stop_time (pd (fst r)) = scheduled_stop_time (pd c)
              /\ scheduled_program_index (pd (fst r)) = scheduled_program_index (pd c)).
  { cbv zeta.
    apply (for_loop_preserves (fun r =>
      os (fst r) = os c
      /\ scheduled_start_time (pd (fst r)) = scheduled_start_time (pd c)
      /\ scheduled_stop_time (pd (fst r)) = scheduled_stop_time (pd c)
      /\ scheduled_program_index (pd (fst r)) = scheduled_program_index (pd c)));
      [repeat split|].
    intros i x _ Hx. unfold last_stop_station. cbv zeta.
    destruct (pending_stop _); [exact Hx | exact Hx]. }
  cbv zeta in H. destruct H as (Hos & H1 & H2 & H3).
  destruct (for_loop (nstations (os c)) last_stop_station
              (upd_pd (with_last_stop_time 0) c, false)) as [c1 b].
  cbn [fst snd] in *. destruct b.
  - rewrite Hos. repeat split; try assumption. left. reflexivity.
  - split; [exact H1|]. split; [exact H2|]. split; [exact H3|].
    split; [cbn; rewrite Hos; reflexivity|]. right.
    split; [reflexivity|]. split; [intros k; apply (station_on_clear_all_station_bits c1 k)|].
    cbn. rewrite Hos. reflexivity.
Qed.

(** The master block of parallel mode only assigns the master's bit. *)
Lemma master_parallel_station_inv t c k :
  0 <= status_mas (status (os c)) <= 256 ->
  k <> status_mas (status (os c)) - 1 ->
  station_inv t c k -> station_inv t (master_parallel c) k.
Proof.
  intros Hmas Hk Inv. unfold master_parallel.
  destruct (Z.ltb_spec 0 (status_mas (status (os c)))); cbn [andb]; [|exact Inv].
  destruct (_ =? 0); [|exact Inv].
  unfold station_inv. rewrite station_on_set_station_bit_ne by (rewrite byte_small; lia).
  rewrite start_of_set_station_bit, stop_of_set_station_bit, index_of_set_station_bit,
    status_set_station_bit.
  exact Inv.
Qed.

Lemma erase_busy_fields o o' :
  erase_busy o' = erase_busy o ->
  nstations o' = nstations o /\ station_bits o' = station_bits o
  /\ options o' = options o /\ status_mas (status o') = status_mas (status o).
Proof.
  unfold erase_busy, with_status, with_program_busy. intros H. injection H.
  intros _ Hmas _ _ _ _ _ Hopt _ _ _ _ Hbits Hns _. auto.
Qed.

(** What a step that keeps the sizes and the configuration hands on. *)
Lemma step_setup c c' :
  wf_controller c -> shape c' = shape c -> os_config (os c') = os_config (os c) ->
  wf_controller c' /\ nstations (os c') = nstations (os c)
  /\ status (os c') = status (os c) /\ options (os c') = options (os c).
Proof.
  intros W Hs Hc. destruct (os_config_fields _ _ Hc) as (_ & _ & _ & Ho & Hst).
  split; [exact (wf_shape _ _ Hs W)|]. unfold shape in Hs. injection Hs as _ Hn _ _ _ _.
  auto.
Qed.

(** One pass of the once-per-second part of loop(), seen from one station
    other than the master. *)
Lemma loop_second_station_inv decode t t' c k :
  wf_controller c -> (length (programs (pd c)) <= 255)%nat ->
  status_mas (status (os c)) = OPTION_MASTER_STATION (options (os c)) ->
  0 <= status_mas (status (os c)) <= 255 ->
  0 <= k < nstations (os c) -> k <> status_mas (status (os c)) - 1 ->
  0 <= t <= t' ->
  station_inv t c k -> station_inv t' (loop_second decode t' c) k.
Proof.
  intros W Hp Hopt Hmas Hk Hkm Ht (I1 & I2 & I3).
  unfold loop_second. cbv zeta.
  (* schedule program data *)
  destruct (schedule_program_data_station decode t' c k W Hk)
    as (Eos & Hbusy & Hon & Hidx1).
  cbv zeta in Eos, Hbusy, Hon, Hidx1. specialize (Hidx1 Hp I2).
  set (c1 := schedule_program_data decode t' c) in *.
  destruct (erase_busy_fields _ _ Eos) as (Hn1 & Hbits1 & Ho1 & Hm1).
  assert (W1 : wf_controller c1)
    by (apply (wf_shape c); [apply shape_schedule_program_data | exact W]).
  assert (Hon1 : station_on c1 k = station_on c k)
    by (unfold station_on; rewrite Hbits1; reflexivity).
  assert (S1a : station_on c1 k = true -> start_of c1 k <= t < stop_of c1 k).
  { intros H. rewrite Hon1 in H. destruct (Hon (or_introl H)) as (-> & ->). exact (I1 H). }
  assert (S1c : status_program_busy (status (os c1)) = false -> station_on c1 k = false).
  { intros H. rewrite Hon1. apply I3.
    destruct (status_program_busy (status (os c))); [|reflexivity].
    rewrite Hbusy in H by reflexivity. discriminate. }
  (* run program data *)
  assert (B : let c2 := run_program_data t' c1 in
              wf_controller c2 /\ nstations (os c2) = nstations (os c)
              /\ status_mas (status (os c2)) = status_mas (status (os c))
              /\ station_inv t' c2 k).
  { cbv zeta. unfold run_program_data. cbv zeta.
    destruct (status_program_busy (status (os c1))) eqn:Hb1.
    - (* station run-time keeping *)
      destruct (run_stations_station_inv t t' c1 k W1 Ht ltac:(lia) ltac:(lia) ltac:(lia)
                  S1a Hidx1) as (R1 & R2).
      cbv zeta in R1, R2. set (r1 := run_stations t' c1) in *.
      destruct (step_setup c1 r1 W1
                  ltac:(apply (field_run_stations shape); shape_untouched)
                  (view_run_stations os_config os_config_station_bits t' c1))
        as (Wr1 & Hnr1 & Hsr1 & Hor1).
      assert (Sr1 : station_inv t' r1 k).
      { split; [exact R1|]. split; [exact R2|]. rewrite Hsr1, Hb1. discriminate. }
      (* process dynamic events *)
      pose proof (process_dynamic_events_station_inv t' r1 k Wr1 ltac:(lia)
                    ltac:(rewrite Hsr1; lia) Sr1) as Sr2.
      set (r2 := process_dynamic_events t' r1) in *.
      destruct (step_setup r1 r2 Wr1
                  ltac:(apply (field_process_dynamic_events shape); shape_untouched)
                  (view_process_dynamic_events os_config os_config_station_bits t' r1))
        as (Wr2 & Hnr2 & Hsr2 & Hor2).
      (* recompute the busy bit *)
      set (r3 := apply_all_station_bits r2).
      destruct (update_program_busy_cases r3) as (U1 & U2 & U3 & U4 & U5).
      cbv zeta in U1, U2, U3, U4, U5.
      assert (Hsh : shape (update_program_busy r3) = shape r2)
        by (rewrite (field_update_program_busy shape) by shape_untouched; reflexivity).
      pose proof (wf_shape _ _ Hsh Wr2) as W2.
      unfold shape in Hsh. injection Hsh as _ Hnu _ _ _ _.
      destruct Sr2 as (J1 & J2 & J3).
      destruct U5 as [Hsame | (Hnb & Hoff & Hmas2)].
      + split; [exact W2|]. rewrite Hsame. change (os r3) with (os r2).
        split; [lia|]. split; [rewrite Hsr2, Hsr1; lia|].
        unfold station_inv, station_on, start_of, stop_of, index_of.
        rewrite Hsame, U1, U2, U3. exact (conj J1 (conj J2 J3)).
      + split; [exact W2|].
        split; [lia|].
        split; [rewrite Hmas2; change (os r3) with (os r2); rewrite Hor2, Hor1, Ho1;
                symmetry; exact Hopt|].
        unfold station_inv. rewrite Hoff. split; [discriminate|].
        split; [|reflexivity]. unfold stop_of, index_of. rewrite U2, U3. exact J2.
    - split; [exact W1|]. split; [exact Hn1|]. split; [exact Hm1|].
      split; [|split; [exact Hidx1 | intros _; exact (S1c eq_refl)]].
      intros H. rewrite (S1c eq_refl) in H. discriminate. }
  cbv zeta in B. set (c2 := run_program_data t' c1) in *.
  destruct B as (W2 & Hn2 & Hm2 & S2).
  (* master station in parallel mode *)
  pose proof (master_parallel_station_inv t' c2 k ltac:(lia) ltac:(lia) S2) as S3.
  set (c3 := master_parallel c2) in *.
  destruct (step_setup c2 c3 W2
              ltac:(apply (field_master_parallel shape); shape_untouched)
              (view_master_parallel os_config os_config_station_bits c2))
    as (W3 & Hn3 & Hs3 & Ho3).
  (* process dynamic events, once more *)
  exact (process_dynamic_events_station_inv t' c3 k W3 ltac:(lia)
           ltac:(rewrite Hs3; lia) S3).
Qed.

(** A part of the state that no assignment of a pass touches is the same
    after the pass. *)
Lemma field_loop_second {V} (field : Controller -> V) :
  (forall sid v c, field (set_station_bit sid v c) = field c) ->
  (forall c, field (clear_all_station_bits c) = field c) ->
  (forall f c, field (upd_status f c) = field c) ->
  (forall i v c, field (set_start i v c) = field c) ->
  (forall i v c, field (set_stop i v c) = field c) ->
  (forall i v c, field (set_index i v c) = field c) ->
  (forall v c, field (upd_pd (with_lastrun v) c) = field c) ->
  (forall v c, field (upd_pd (with_last_stop_time v) c) = field c) ->
  (forall l c, field (append_log l c) = field c) ->
  (forall l c, field (digitalWrite_relay l c) = field c) ->
  (forall v c, field (with_valves v c) = field c) ->
  (forall v c, field (with_last_minute v c) = field c) ->
  forall decode t c, field (loop_second decode t c) = field c.
Proof.
  intros H1 H2 H3 H4 H5 H6 H7 H8 H9 H10 H11 Hlm decode t c.
  unfold loop_second. cbv zeta. rewrite (field_loop_tail field) by assumption.
  unfold schedule_program_data. cbv zeta. destruct (negb _); [|reflexivity].
  destruct (snd _).
  - rewrite (field_schedule_all_stations field) by assumption.
    rewrite (field_match_programs field) by assumption. apply Hlm.
  - rewrite (field_match_programs field) by assumption. apply Hlm.
Qed.

(** X23.  No station is left on past its stop time.  Start from a state in
    which, for a station other than the master, [station_inv] holds at time
    [t] (as it does when nothing is on and nothing is scheduled), and let
    loop() make passes at times that do not go back.  Then after the last
    pass, at time [T], the station is on only if [T] is inside its window
    ([start <= T < stop]), it has a stop time only together with a program
    index, and it is off when no program is busy.  At most 255 programs are
    stored (program ids are bytes). *)
Theorem run_seconds_within_window decode t times c k :
  wf_controller c -> (length (programs (pd c)) <= 255)%nat ->
  0 <= OPTION_MASTER_STATION (options (os c)) <= 255 ->
  0 <= k < nstations (os c) -> k <> OPTION_MASTER_STATION (options (os c)) - 1 ->
  0 <= t -> ascending t times ->
  station_inv t c k ->
  station_inv (last_pass t times) (run_seconds decode times c) k.
Proof.
  unfold run_seconds, last_pass. revert t c.
  induction times as [|t' times IH]; intros t c W Hp Hm Hk Hkm Ht Hasc Inv; [exact Inv|].
  destruct Hasc as (Hle & Hasc). cbn [fold_left].
  set (c0 := loop_read_options c).
  assert (W0 : wf_controller c0) by (apply (wf_shape c); [reflexivity | exact W]).
  pose proof (loop_second_station_inv decode t t' c0 k W0 Hp eq_refl Hm Hk Hkm
                ltac:(lia) Inv) as Inv'.
  set (c' := loop_second decode t' c0) in *.
  assert (Hsh : shape c' = shape c) by (unfold c'; rewrite shape_loop_second; reflexivity).
  assert (Hpr : programs (pd c') = programs (pd c))
    by (unfold c'; rewrite (field_loop_second (fun c => programs (pd c))) by untouched;
        reflexivity).
  assert (Hop : options (os c') = options (os c))
    by (unfold c'; rewrite (field_loop_second (fun c => options (os c))) by untouched;
        reflexivity).
  assert (Hns : nstations (os c') = nstations (os c))
    by (unfold shape in Hsh; injection Hsh as _ Hn _ _ _ _; exact Hn).
  apply IH; rewrite ?Hpr, ?Hop, ?Hns; try assumption; [exact (wf_shape _ _ Hsh W) | lia].
Qed.

Lemma run_seconds_within_window_witness :
  station_inv (last_pass 5999 [6000; 6001; 6002])
    (run_seconds example_decode [6000; 6001; 6002] example_two_station) 1.
Proof.
  apply (run_seconds_within_window example_decode 5999 [6000; 6001; 6002]
           example_two_station 1 wf_example_two_station).
  - cbn. lia.
  - change (0 <= 0 <= 255). lia.
  - change (0 <= 1 < 8). lia.
  - change (1 <> 0 - 1). lia.
  - lia.
  - cbn. lia.
  - split; [discriminate|]. split; [intros H; exfalso; apply H; reflexivity | reflexivity].
Defined.

(** ** A scheduled station runs during its window *)

Lemma process_dynamic_events_quiet t c0 c :
  override_inputs (os c) = override_inputs (os c0) ->
  0 <= nboards (os c0) <= 32 ->
  status_enabled (status (os c0)) = true -> rain_active c0 = false ->
  process_dynamic_events t c = c.
Proof.
  intros Hin Hn Hen Hrain.
  assert (Hnb : nboards (os c) = nboards (os c0))
    by (unfold override_inputs in Hin; injection Hin; intros; assumption).
  apply process_dynamic_events_fixed; [rewrite Hnb; exact Hn|].
  intros k _ Ht. unfold dyn_target in Ht.
  rewrite (override_applies_inputs c0 c k Hin) in Ht. unfold override_applies in Ht.
  rewrite Hen, Hrain in Ht. cbn [negb orb andb] in Ht. rewrite andb_false_r in Ht.
  discriminate.
Qed.

Lemma master_parallel_other c k :
  0 <= status_mas (status (os c)) <= 256 ->
  k <> status_mas (status (os c)) - 1 ->
  station_on (master_parallel c) k = station_on c k /\ pd (master_parallel c) = pd c.
Proof.
  intros Hmas Hk. unfold master_parallel.
  destruct (Z.ltb_spec 0 (status_mas (status (os c)))); cbn [andb]; [|auto].
  destruct (_ =? 0); [|auto].
  rewrite station_on_set_station_bit_ne by (rewrite byte_small; lia).
  rewrite pd_set_station_bit. auto.
Qed.

(** X24.  A scheduled station runs during its window.  While a program is
    busy, the controller is enabled and no rain condition is active, a pass
    of loop() at a time inside the window of a station other than the master
    ([0 < start <= curr_time < stop < ULONG_MAX]) leaves the station on, in
    the station bits and at the valves, with its window unchanged. *)
Theorem loop_second_runs_station decode t c k :
  wf_controller c -> 0 <= status_mas (status (os c)) <= 255 ->
  0 <= k < nstations (os c) -> k <> status_mas (status (os c)) - 1 ->
  status_program_busy (status (os c)) = true ->
  status_enabled (status (os c)) = true -> rain_active c = false ->
  0 < start_of c k <= t -> t < stop_of c k < ULONG_MAX ->
  let c' := loop_second decode t c in
  station_on c' k = true
  /\ bit_is_set (load (valves c') (Z.shiftr k 3)) (Z.land k 7) = true
  /\ start_of c' k = start_of c k /\ stop_of c' k = stop_of c k.
Proof.
  intros W Hmas Hk Hkm Hbusy Hen Hrain Hstart Hstop. cbv zeta.
  unfold loop_second. cbv zeta.
  pose proof (wf_nboards _ W) as Hnb.
  (* schedule program data *)
  destruct (schedule_program_data_station decode t c k W Hk) as (Eos & Hb & Hkeep & _).
  cbv zeta in Eos, Hb, Hkeep.
  pose proof (view_schedule_program_data override_inputs
                ltac:(reflexivity) decode t c) as Hov1.
  pose proof (shape_schedule_program_data decode t c) as Hsh1.
  set (c1 := schedule_program_data decode t c) in *.
  destruct Hkeep as (Es1 & Ep1); [right; lia|].
  destruct (erase_busy_fields _ _ Eos) as (Hn1 & Hbits1 & Ho1 & Hm1).
  pose proof (wf_shape _ _ Hsh1 W) as W1. specialize (Hb Hbusy).
  (* station run-time keeping *)
  unfold run_program_data. rewrite Hb. cbv zeta.
  pose proof (run_stations_station t c1 k W1 ltac:(lia) ltac:(lia) ltac:(lia) ltac:(lia))
    as Inv.
  destruct (run_done _ _ _ _ _ Inv) as (D1 & D2 & D3 & D4);
    [rewrite <- (wf_nstations _ W1); lia|].
  pose proof (view_run_stations override_inputs ltac:(reflexivity) t c1) as Hov2.
  destruct (step_setup c1 (run_stations t c1) W1
              ltac:(apply (field_run_stations shape); shape_untouched)
              (view_run_stations os_config os_config_station_bits t c1))
    as (Wr1 & Hnr1 & Hsr1 & Hor1).
  set (r1 := run_stations t c1) in *.
  assert (He : expired t c1 k = false).
  { unfold expired. rewrite Ep1. destruct (Z.leb_spec (stop_of c k) t); [lia|].
    apply andb_false_r. }
  rewrite He in D1, D2, D3, D4.
  assert (Hon1 : station_on r1 k = true).
  { rewrite D1. destruct (opens t c1 k) eqn:Ho; [reflexivity|].
    unfold opens in Ho. rewrite He, Es1, Ep1 in Ho.
    destruct (station_on c1 k); [reflexivity|]. cbn [negb andb] in Ho.
    assert (H1 : (start_of c k <=? t) = true) by (apply Z.leb_le; lia).
    assert (H2 : (t <? stop_of c k) = true) by (apply Z.ltb_lt; lia).
    rewrite H1, H2 in Ho. discriminate Ho. }
  (* process dynamic events: nothing to do *)
  rewrite (process_dynamic_events_quiet t c r1 ltac:(rewrite Hov2; exact Hov1) Hnb Hen Hrain).
  (* the busy bit stays *)
  set (r3 := apply_all_station_bits r1).
  destruct (update_program_busy_cases r3) as (U1 & U2 & U3 & _).
  destruct (update_program_busy_spec r3) as (_ & _ & [(_ & Hsame) | (Hno & _)]).
  2:{ exfalso. apply Hno. exists k. change (os r3) with (os r1).
      split; [lia|]. change (stop_of r3 k) with (stop_of r1 k). rewrite D3, Ep1. lia. }
  cbv zeta in U1, U2, U3, Hsame. change (os r3) with (os r1) in Hsame.
  set (c2 := update_program_busy r3) in *.
  assert (Hon2 : station_on c2 k = true) by (unfold station_on; rewrite Hsame; exact Hon1).
  (* master station in parallel mode *)
  assert (Hmas2 : status_mas (status (os c2)) = status_mas (status (os c)))
    by (rewrite Hsame, Hsr1; exact Hm1).
  destruct (master_parallel_other c2 k ltac:(lia) ltac:(lia)) as (Hon3 & Hpd3).
  pose proof (view_master_parallel override_inputs ltac:(reflexivity) c2) as Hov3.
  set (c3 := master_parallel c2) in *.
  (* process dynamic events, once more *)
  rewrite (process_dynamic_events_quiet t c c3
             ltac:(rewrite Hov3, Hsame, Hov2; exact Hov1) Hnb Hen Hrain).
  split; [change (station_on c3 k = true); rewrite Hon3; exact Hon2|].
  split; [change (station_on c3 k = true); rewrite Hon3; exact Hon2|].
  unfold apply_all_station_bits, start_of, stop_of. cbn [pd with_valves].
  rewrite Hpd3, U1, U2. change (pd r3) with (pd r1).
  fold (start_of r1 k) (stop_of r1 k) (start_of c k) (stop_of c k).
  rewrite D2, D3, Es1, Ep1. split; reflexivity.
Qed.

Lemma loop_second_runs_station_witness :
  let c' := loop_second example_decode 100 example_queued in
  station_on c' 0 = true
  /\ bit_is_set (load (valves c') (Z.shiftr 0 3)) (Z.land 0 7) = true
  /\ start_of c' 0 = start_of example_queued 0
  /\ stop_of c' 0 = stop_of example_queued 0.
Proof.
  apply (loop_second_runs_station example_decode 100 example_queued 0 wf_example_queued).
  - change (0 <= 2 <= 255). lia.
  - change (0 <= 0 < 8). lia.
  - change (0 <> 2 - 1). lia.
  - reflexivity.
  - reflexivity.
  - reflexivity.
  - change (0 < 100 <= 100). lia.
  - change (100 < 700 < 2 ^ 32 - 1). lia.
Defined.
